(** * resonator.base: the fitting orchestration layer, embedded in Rocq

    The development follows [src/resonator/base.py].  Python floats and the
    elements of numpy arrays are kept behind an interface ([PyFloat]) so that
    every statement about the orchestration holds for whatever arithmetic the
    interpreter provides; two instances are given, IEEE binary64 ([ieee],
    the arithmetic the program really runs on) and exact real arithmetic
    ([exact], the idealisation in which algebraic laws are stated).

    lmfit and numpy are external: their objects appear as records of the
    operations that [base.py] invokes on them, and every invocation made by
    [base.py] is recorded in a call log. *)

From Stdlib Require Import ZArith List String Reals Lra Lia Bool.
From Stdlib Require Import Floats.PrimFloat Floats.SpecFloat Floats.FloatOps.
From Stdlib Require Floats.FloatAxioms.
From stdpp Require Import gmap strings sorting.

Local Open Scope string_scope.

(** ** Scalar arithmetic *)

(** The operations [base.py] applies to floats: [+ - * / **], the comparisons
    used by complex division, the conversion of an int literal, and
    [scipy.constants.pi]. *)
Class PyFloat := {
  pyfloat : Type;
  fadd : pyfloat -> pyfloat -> pyfloat;
  fsub : pyfloat -> pyfloat -> pyfloat;
  fmul : pyfloat -> pyfloat -> pyfloat;
  fdiv : pyfloat -> pyfloat -> pyfloat;
  fpow : pyfloat -> pyfloat -> pyfloat;
  fabs : pyfloat -> pyfloat;
  fge : pyfloat -> pyfloat -> bool;
  feq : pyfloat -> pyfloat -> bool;
  of_int : Z -> pyfloat;
  pi : pyfloat
}.

Section Complex.
Context `{PyFloat}.

(** complex128: a pair of float64. *)
Record pycomplex := Cx { re : pyfloat; im : pyfloat }.

(** The cast float64 -> complex128 that numpy inserts in mixed operations. *)
Definition of_real (x : pyfloat) : pycomplex := Cx x (of_int 0).

(** The literal [1j]. *)
Definition imag_unit : pycomplex := Cx (of_int 0) (of_int 1).

Definition cadd (a b : pycomplex) : pycomplex :=
  Cx (fadd (re a) (re b)) (fadd (im a) (im b)).

Definition cmul (a b : pycomplex) : pycomplex :=
  Cx (fsub (fmul (re a) (re b)) (fmul (im a) (im b)))
     (fadd (fmul (re a) (im b)) (fmul (im a) (re b))).

(** numpy's complex division loop (Smith's algorithm, with the zero divisor
    handled apart). *)
Definition cdiv (a b : pycomplex) : pycomplex :=
  let in2r_abs := fabs (re b) in
  let in2i_abs := fabs (im b) in
  if fge in2r_abs in2i_abs then
    if feq in2r_abs (of_int 0) && feq in2i_abs (of_int 0) then
      Cx (fdiv (re a) in2r_abs) (fdiv (im a) in2r_abs)
    else
      let rat := fdiv (im b) (re b) in
      let scl := fdiv (of_int 1) (fadd (re b) (fmul (im b) rat)) in
      Cx (fmul (fadd (re a) (fmul (im a) rat)) scl)
         (fmul (fsub (im a) (fmul (re a) rat)) scl)
  else
    let rat := fdiv (re b) (im b) in
    let scl := fdiv (of_int 1) (fadd (im b) (fmul (re b) rat)) in
    Cx (fmul (fadd (fmul (re a) rat) (im a)) scl)
       (fmul (fsub (fmul (im a) rat) (re a)) scl).

(** One point multiplied by [b], then divided by [b]. *)
Definition round_trip (b w : pycomplex) : pycomplex := cdiv (cmul b w) b.

End Complex.

Arguments pycomplex {_}.
Arguments Cx {_} _ _.

(** ** Exceptions and results *)

Inductive exn_kind :=
| TypeError | ValueError | KeyError | AttributeError
| NotImplementedError | RecursionError
| OutsideModel.

#[global] Instance exn_kind_eq_dec : EqDecision exn_kind.
Proof. solve_decision. Defined.

(** An exception: its class and its message. *)
Record exn := Exn { kind : exn_kind; message : string }.

Inductive res (A : Type) :=
| Ok (a : A)
| Raise (e : exn).
Arguments Ok {A} a.
Arguments Raise {A} e.

Definition res_map {A B} (f : A -> B) (r : res A) : res B :=
  match r with Ok a => Ok (f a) | Raise e => Raise e end.

(** ** numpy arrays: 0-d or 1-d, of dtype float64 or complex128 *)

Inductive nd (A : Type) :=
| Scalar (a : A)
| Array1 (l : list A).
Arguments Scalar {A} a.
Arguments Array1 {A} l.

Definition nd_map {A B} (f : A -> B) (x : nd A) : nd B :=
  match x with
  | Scalar a => Scalar (f a)
  | Array1 l => Array1 (map f l)
  end.

Definition nd_size {A} (x : nd A) : nat :=
  match x with Scalar _ => 1 | Array1 l => length l end.

(** Elementwise application of a binary operation with numpy's broadcasting
    rule for at most one dimension: equal lengths pair up, a scalar or a
    length-1 array stretches, anything else is a ValueError. *)
Definition broadcast {A B C} (op : A -> B -> C) (x : nd A) (y : nd B) : res (nd C) :=
  match x, y with
  | Scalar a, Scalar b => Ok (Scalar (op a b))
  | Scalar a, Array1 l => Ok (Array1 (map (op a) l))
  | Array1 l, Scalar b => Ok (Array1 (map (fun a => op a b) l))
  | Array1 l1, Array1 l2 =>
      if Nat.eqb (length l1) (length l2) then Ok (Array1 (zip_with op l1 l2))
      else match l1, l2 with
           | [a], _ => Ok (Array1 (map (op a) l2))
           | _, [b] => Ok (Array1 (map (fun a => op a b) l1))
           | _, _ => Raise (Exn ValueError "operands could not be broadcast together")
           end
  end.

Section Arrays.
Context `{PyFloat}.

Inductive pyarray :=
| FArr (a : nd pyfloat)
| CArr (a : nd pycomplex).

(** [np.iscomplexobj]. *)
Definition iscomplexobj (x : pyarray) : bool :=
  match x with FArr _ => false | CArr _ => true end.

Definition as_complex (x : pyarray) : nd pycomplex :=
  match x with
  | FArr a => nd_map of_real a
  | CArr a => a
  end.

Definition np_size (x : pyarray) : nat :=
  match x with FArr a => nd_size a | CArr a => nd_size a end.

(** A binary ufunc: float64 with float64 stays float64, any complex operand
    promotes both sides to complex128. *)
Definition ufunc (fop : pyfloat -> pyfloat -> pyfloat)
    (cop : pycomplex -> pycomplex -> pycomplex) (x y : pyarray) : res pyarray :=
  match x, y with
  | FArr a, FArr b => res_map FArr (broadcast fop a b)
  | _, _ => res_map CArr (broadcast cop (as_complex x) (as_complex y))
  end.

Definition np_add := ufunc fadd cadd.
Definition np_multiply := ufunc fmul cmul.
Definition np_true_divide := ufunc fdiv cdiv.

(** [x.real] and [x.imag]. *)
Definition real (x : pyarray) : pyarray :=
  match x with
  | FArr a => FArr a
  | CArr a => FArr (nd_map re a)
  end.

Definition imag (x : pyarray) : pyarray :=
  match x with
  | FArr a => FArr (nd_map (fun _ => of_int 0) a)
  | CArr a => FArr (nd_map im a)
  end.

End Arrays.

Arguments pyarray {_}.

(** ** The two arithmetics *)

(** IEEE binary64.  [**] is the C library's [pow], which the kernel's floats
    do not provide: the two exponents that occur in [base.py] are given
    (the square and the square root), any other is left as NaN. *)
Definition ieee_of_int (z : Z) : float :=
  SF2Prim (binary_normalize prec emax z 0 false).

Definition ieee_pow (x y : float) : float :=
  if PrimFloat.eqb y 2%float then PrimFloat.mul x x
  else if PrimFloat.eqb y 0.5%float then PrimFloat.sqrt x
  else PrimFloat.nan.

Definition ieee : PyFloat := {|
  pyfloat := float;
  fadd := PrimFloat.add;
  fsub := PrimFloat.sub;
  fmul := PrimFloat.mul;
  fdiv := PrimFloat.div;
  fpow := ieee_pow;
  fabs := PrimFloat.abs;
  fge := fun x y => PrimFloat.leb y x;
  feq := PrimFloat.eqb;
  of_int := ieee_of_int;
  pi := 0x1.921fb54442d18p+1%float
|}.

(** Two tests on a binary64 number, read off its IEEE representation: a
    finite number other than zero, and the zero of negative sign. *)
Definition finite_nonzero (x : float) : bool :=
  match Prim2SF x with
  | S754_finite _ _ _ => true
  | _ => false
  end.

Definition negative_zero (x : float) : bool :=
  match Prim2SF x with
  | S754_zero true => true
  | _ => false
  end.

(** Exact real arithmetic. *)
Definition exact_ge (x y : R) : bool := if Rle_dec y x then true else false.
Definition exact_eq (x y : R) : bool := if Req_dec_T x y then true else false.

Definition exact_pow (x y : R) : R :=
  if Req_dec_T y 2 then (x * x)%R
  else if Req_dec_T y (/ 2) then R_sqrt.sqrt x
  else Rpower x y.

Definition exact : PyFloat := {|
  pyfloat := R;
  fadd := Rplus;
  fsub := Rminus;
  fmul := Rmult;
  fdiv := Rdiv;
  fpow := exact_pow;
  fabs := Rabs;
  fge := exact_ge;
  feq := exact_eq;
  of_int := IZR;
  pi := PI
|}.

(** ** String helpers used by [__getattr__] *)

(** [s.endswith(suffix)]. *)
Definition endswith (s suffix : string) : bool :=
  let n := String.length s in
  let k := String.length suffix in
  if Nat.leb k n then String.eqb (substring (n - k) k s) suffix else false.

(** [s[:-k]], for [k] positive and at most the length of [s]. *)
Definition drop_last (k : nat) (s : string) : string :=
  substring 0 (String.length s - k) s.

Section Fitter.
Context `{PyFloat}.

(** ** lmfit: parameters, models, results *)

(** [lmfit.Parameter] (a reserved word here, hence [Param]): the fields a
    fit reads and writes.  [stderr] is [None] until (and unless) the
    optimizer estimates it. *)
Record Param := {
  value : pyfloat;
  stderr : option pyfloat;
  pmin : option pyfloat;
  pmax : option pyfloat;
  vary : bool
}.

(** [lmfit.Parameters]: a dict from names to [Param]. *)
Abbreviation Params := (gmap string Param).

(** [dict.update]: every entry of [other] is written into [self]. *)
Definition update (self other : Params) : Params := other ∪ self.

(** [params[name]]. *)
Definition getitem (p : Params) (name : string) : res Param :=
  match p !! name with
  | Some x => Ok x
  | None => Raise (Exn KeyError name)
  end.

(** [lmfit.model.ModelResult]: what [base.py] reads from it. *)
Record ModelResult := {
  params : Params;
  initial_params : Params;
  success : bool
}.

(** [BackgroundModel] and [ResonatorModel]: the two methods of
    [lmfit.model.Model] that [base.py] calls, as supplied by the subclass;
    the foreground also carries [reference_point], [None] in the base class. *)
Record BackgroundModel := {
  bg_guess : pyarray -> pyarray -> res Params;   (* guess(data, frequency) *)
  bg_eval : Params -> pyarray -> res pyarray     (* eval(params, frequency) *)
}.

Record ResonatorModel := {
  fg_guess : pyarray -> pyarray -> res Params;
  fg_eval : Params -> pyarray -> res pyarray;
  reference_point : option pycomplex
}.

(** [lmfit.model.CompositeModel] with [op = operator.mul]. *)
Record CompositeModel := {
  left : BackgroundModel;
  right : ResonatorModel
}.

(** [background_model * foreground_model]. *)
Definition model_mul (b : BackgroundModel) (f : ResonatorModel) : CompositeModel :=
  {| left := b; right := f |}.

(** The optimizer behind [CompositeModel.fit], and the type of the keyword
    arguments passed through to it. *)
Class Optimizer := {
  fit_kwds : Type;
  model_fit : CompositeModel -> pyarray -> pyarray -> option pyarray ->
              Params -> fit_kwds -> res ModelResult
}.

Context `{Optimizer}.

(** ** Objects *)

(** Values an attribute can hold.  Numbers are 0-d arrays. *)
Inductive pyobject :=
| PyNone
| PyArray (a : pyarray)
| PyModel (m : CompositeModel)
| PyBackgroundModel (m : BackgroundModel)
| PyResonatorModel (m : ResonatorModel)
| PyModelResult (r : ModelResult)
| PyMethod (name : string).

(** A fitter instance: its class name and its [__dict__]. *)
Record obj := {
  class_name : string;
  dict : gmap string pyobject
}.

(** Calls that [base.py] makes into lmfit. *)
Inductive event :=
| BackgroundGuess (data frequency : pyarray)
| BackgroundEval (p : Params) (frequency : pyarray)
| ForegroundGuess (data frequency : pyarray)
| ForegroundEval (p : Params) (frequency : pyarray)
| ModelFit (frequency data : pyarray) (weights : option pyarray)
           (p : Params) (kw : fit_kwds).

Record state := {
  self : obj;
  calls : list event
}.

(** ** The monad of method bodies: state and exceptions *)

Definition Py (A : Type) : Type := state -> res A * state.

Definition ret {A} (a : A) : Py A := fun s => (Ok a, s).

Definition bind {A B} (m : Py A) (k : A -> Py B) : Py B :=
  fun s => match m s with
           | (Ok a, s') => k a s'
           | (Raise e, s') => (Raise e, s')
           end.

Definition raise {A} (k : exn_kind) (msg : string) : Py A :=
  fun s => (Raise (Exn k msg), s).

Definition lift {A} (r : res A) : Py A := fun s => (r, s).

(** [try: m except k: handler]. *)
Definition try_except {A} (m : Py A) (k : exn_kind) (handler : Py A) : Py A :=
  fun s => match m s with
           | (Raise e, s') =>
               if decide (kind e = k) then handler s' else (Raise e, s')
           | r => r
           end.

Definition get_self : Py obj := fun s => (Ok (self s), s).

(** A call into lmfit: logged, then its outcome. *)
Definition call {A} (e : event) (r : res A) : Py A :=
  fun s => (r, {| self := self s; calls := calls s ++ [e] |}).

Notation "'do' x <- m ; k" := (bind m (fun x => k))
  (at level 10, x name, m at level 100, k at level 200).

Definition run {A} (m : Py A) (s : state) : res A * state := m s.

(** ** Attribute access *)

(** [self.result] as read inside [__getattr__]: when the instance has no
    such entry the lookup re-enters [__getattr__] without end. *)
Definition self_result : Py pyobject :=
  do o <- get_self;
  match dict o !! "result" with
  | Some r => ret r
  | None => raise RecursionError "maximum recursion depth exceeded"
  end.

(** [r.params]. *)
Definition dot_params (r : pyobject) : Py Params :=
  match r with
  | PyModelResult mr => ret (params mr)
  | PyNone => raise AttributeError "'NoneType' object has no attribute 'params'"
  | _ => raise AttributeError "object has no attribute 'params'"
  end.

Definition of_float (x : pyfloat) : pyobject := PyArray (FArr (Scalar x)).

(** [p.stderr]: a float, or [None]. *)
Definition stderr_object (p : Param) : pyobject :=
  match stderr p with
  | Some e => of_float e
  | None => PyNone
  end.

Definition __getattr__ (attr : string) : Py pyobject :=
  if endswith attr "_error" then
    let name := drop_last (String.length "_error") attr in
    try_except
      (do r <- self_result;
       do ps <- dot_params r;
       do p <- lift (getitem ps name);
       ret (stderr_object p))
      KeyError
      (raise AttributeError ("Couldn't find error for " ++ name ++ " in self.result"))
  else
    try_except
      (do r <- self_result;
       do ps <- dot_params r;
       do p <- lift (getitem ps attr);
       ret (of_float (value p)))
      KeyError
      (do o <- get_self;
       raise AttributeError
         ("'" ++ class_name o ++ "' object has no attribute '" ++ attr ++ "'")).

(** [self.name] for a name the class does not define: the instance
    [__dict__], then [__getattr__]. *)
Definition instance_attr (name : string) : Py pyobject :=
  do o <- get_self;
  match dict o !! name with
  | Some v => ret v
  | None => __getattr__ name
  end.

(** [self.name] for a property: the getter runs, and an AttributeError that
    escapes it makes the interpreter fall back on [__getattr__]. *)
Definition property (name : string) (getter : Py pyobject) : Py pyobject :=
  try_except getter AttributeError (__getattr__ name).

(** ** Python-level arithmetic on attribute values *)

Definition binop (f : pyarray -> pyarray -> res pyarray) (a b : pyobject) : Py pyobject :=
  match a, b with
  | PyArray x, PyArray y => lift (res_map PyArray (f x y))
  | _, _ => raise TypeError "unsupported operand type(s)"
  end.

(** [**] on floats; a complex operand does not occur in [base.py] and lies
    outside the model. *)
Definition np_power (x y : pyarray) : res pyarray :=
  match x, y with
  | FArr a, FArr b => res_map FArr (broadcast fpow a b)
  | _, _ => Raise (Exn OutsideModel "complex power")
  end.

Definition py_add := binop np_add.
Definition py_mul := binop np_multiply.
Definition py_truediv := binop np_true_divide.
Definition py_pow := binop np_power.

Definition py_int (z : Z) : pyobject := of_float (of_int z).
Definition py_pi : pyobject := of_float pi.
Definition py_1j : pyobject := PyArray (CArr (Scalar imag_unit)).

(** [x.real], [x.imag]. *)
Definition dot_real (x : pyobject) : Py pyobject :=
  match x with
  | PyArray a => ret (PyArray (real a))
  | _ => raise AttributeError "object has no attribute 'real'"
  end.

Definition dot_imag (x : pyobject) : Py pyobject :=
  match x with
  | PyArray a => ret (PyArray (imag a))
  | _ => raise AttributeError "object has no attribute 'imag'"
  end.

Definition expect_array (x : pyobject) : Py pyarray :=
  match x with
  | PyArray a => ret a
  | _ => raise TypeError "unsupported operand type(s)"
  end.

(** ** Methods of the lmfit objects, as called from [base.py] *)

(** [m.left], [m.right]. *)
Definition dot_left (m : pyobject) : Py pyobject :=
  match m with
  | PyModel cm => ret (PyBackgroundModel (left cm))
  | _ => raise AttributeError "object has no attribute 'left'"
  end.

Definition dot_right (m : pyobject) : Py pyobject :=
  match m with
  | PyModel cm => ret (PyResonatorModel (right cm))
  | _ => raise AttributeError "object has no attribute 'right'"
  end.

(** [m.reference_point]. *)
Definition dot_reference_point (m : pyobject) : Py pyobject :=
  match m with
  | PyResonatorModel f =>
      ret (match reference_point f with
           | Some c => PyArray (CArr (Scalar c))
           | None => PyNone
           end)
  | _ => raise AttributeError "object has no attribute 'reference_point'"
  end.

(** Looking up [m.guess], [m.eval] and [m.fit], which happens before the
    arguments of the call are evaluated. *)
Definition lookup_guess (m : pyobject) : Py unit :=
  match m with
  | PyBackgroundModel _ | PyResonatorModel _ => ret tt
  | _ => raise AttributeError "object has no attribute 'guess'"
  end.

Definition lookup_eval (m : pyobject) : Py unit :=
  match m with
  | PyBackgroundModel _ | PyResonatorModel _ | PyModel _ => ret tt
  | _ => raise AttributeError "object has no attribute 'eval'"
  end.

Definition lookup_fit (m : pyobject) : Py unit :=
  match m with
  | PyModel _ => ret tt
  | _ => raise AttributeError "object has no attribute 'fit'"
  end.

(** Looking up a method of the fitter on [self]: an entry of that name in
    the instance [__dict__] would be found first, and none of the values
    held there can be called. *)
Definition self_method (name : string) : Py unit :=
  do o <- get_self;
  match dict o !! name with
  | Some _ => raise TypeError "object is not callable"
  | None => ret tt
  end.

(** [m.guess(data=..., frequency=...)]. *)
Definition dot_guess (m : pyobject) (data frequency : pyarray) : Py Params :=
  match m with
  | PyBackgroundModel b =>
      call (BackgroundGuess data frequency) (bg_guess b data frequency)
  | PyResonatorModel f =>
      call (ForegroundGuess data frequency) (fg_guess f data frequency)
  | _ => raise AttributeError "object has no attribute 'guess'"
  end.

(** [m.eval(params=..., frequency=...)]; on the composite model it is the
    product of the two evaluations, left operand first. *)
Definition dot_eval (m : pyobject) (p : Params) (frequency : pyarray) : Py pyarray :=
  match m with
  | PyBackgroundModel b =>
      call (BackgroundEval p frequency) (bg_eval b p frequency)
  | PyResonatorModel f =>
      call (ForegroundEval p frequency) (fg_eval f p frequency)
  | PyModel cm =>
      do l <- call (BackgroundEval p frequency) (bg_eval (left cm) p frequency);
      do r <- call (ForegroundEval p frequency) (fg_eval (right cm) p frequency);
      lift (np_multiply l r)
  | _ => raise AttributeError "object has no attribute 'eval'"
  end.

(** [m.fit(frequency=..., data=..., weights=..., params=..., **fit_kwds)]. *)
Definition dot_fit (m : pyobject) (frequency data : pyarray) (w : option pyarray)
    (p : Params) (kw : fit_kwds) : Py ModelResult :=
  match m with
  | PyModel cm =>
      call (ModelFit frequency data w p kw) (model_fit cm frequency data w p kw)
  | _ => raise AttributeError "object has no attribute 'fit'"
  end.

(** ** ResonatorFitter *)

Definition weights_getter : Py pyobject :=
  do e <- instance_attr "errors";
  match e with
  | PyNone => ret PyNone
  | _ =>
      do e1 <- instance_attr "errors";
      do r <- dot_real e1;
      do a <- py_truediv (py_int 1) r;
      do e2 <- instance_attr "errors";
      do i <- dot_imag e2;
      do b <- py_truediv py_1j i;
      py_add a b
  end.

Definition weights : Py pyobject := property "weights" weights_getter.

Definition background_model : Py pyobject :=
  property "background_model" (do m <- instance_attr "model"; dot_left m).

Definition foreground_model : Py pyobject :=
  property "foreground_model" (do m <- instance_attr "model"; dot_right m).

Definition guess (frequency data : pyarray) : Py Params :=
  do bm <- background_model;
  do _ <- lookup_guess bm;
  do fm <- foreground_model;
  do rp <- dot_reference_point fm;
  do d0 <- py_truediv (PyArray data) rp;
  do d1 <- expect_array d0;
  do guess <- dot_guess bm d1 frequency;
  do bm' <- background_model;
  do _ <- lookup_eval bm';
  do background_guess <- dot_eval bm' guess frequency;
  do fm' <- foreground_model;
  do _ <- lookup_guess fm';
  do d2 <- py_truediv (PyArray data) (PyArray background_guess);
  do d3 <- expect_array d2;
  do fg <- dot_guess fm' d3 frequency;
  ret (update guess fg).

(** [self.name = v] for a name that is not a property of the class. *)
Definition setattr (name : string) (v : pyobject) : Py unit :=
  fun s => (Ok tt, {| self := {| class_name := class_name (self s);
                                 dict := <[name := v]> (dict (self s)) |};
                      calls := calls s |}).

(** An argument that is an array or [None], as an object. *)
Definition optional (x : option pyarray) : pyobject :=
  match x with
  | Some a => PyArray a
  | None => PyNone
  end.

(** [None] or an array, as the optimizer receives it. *)
Definition optional_array (x : pyobject) : Py (option pyarray) :=
  match x with
  | PyNone => ret None
  | PyArray a => ret (Some a)
  | _ => raise TypeError "weights must be an array or None"
  end.

Definition fit (user_params : option Params) (kw : fit_kwds) : Py unit :=
  do _ <- self_method "guess";
  do f <- instance_attr "frequency";
  do f <- expect_array f;
  do d <- instance_attr "data";
  do d <- expect_array d;
  do initial_params <- guess f d;
  let initial_params :=
    match user_params with
    | Some p => update initial_params p
    | None => initial_params
    end in
  do m <- instance_attr "model";
  do _ <- lookup_fit m;
  do f <- instance_attr "frequency";
  do f <- expect_array f;
  do d <- instance_attr "data";
  do d <- expect_array d;
  do w <- weights;
  do w <- optional_array w;
  do r <- dot_fit m f d w initial_params kw;
  setattr "result" (PyModelResult r).

Definition __init__ (frequency data : pyarray) (foreground : ResonatorModel)
    (background : BackgroundModel) (errors : option pyarray)
    (user_params : option Params) (kw : fit_kwds) : Py unit :=
  if negb (iscomplexobj data) then
    raise TypeError "Resonator data must be complex."
  else if match errors with
          | Some e => negb (iscomplexobj e)
          | None => false
          end then
    raise TypeError "Resonator errors must be complex."
  else
    do _ <- setattr "frequency" (PyArray frequency);
    do _ <- setattr "data" (PyArray data);
    do _ <- setattr "errors" (optional errors);
    do _ <- setattr "model" (PyModel (model_mul background foreground));
    do _ <- setattr "result" PyNone;
    do _ <- self_method "fit";
    fit user_params kw.

Definition model_values (frequency : option pyarray) (p : option Params) : Py pyarray :=
  do p <- match p with
          | None => do r <- instance_attr "result"; dot_params r
          | Some p => ret p
          end;
  do frequency <- match frequency with
                  | None => do f <- instance_attr "frequency"; expect_array f
                  | Some f => ret f
                  end;
  do m <- instance_attr "model";
  do _ <- lookup_eval m;
  dot_eval m p frequency.

(** [r.initial_params]. *)
Definition dot_initial_params (r : pyobject) : Py Params :=
  match r with
  | PyModelResult mr => ret (initial_params mr)
  | PyNone => raise AttributeError "'NoneType' object has no attribute 'initial_params'"
  | _ => raise AttributeError "object has no attribute 'initial_params'"
  end.

Definition initial_model_values (frequency : option pyarray) : Py pyarray :=
  do frequency <- match frequency with
                  | None => do f <- instance_attr "frequency"; expect_array f
                  | Some f => ret f
                  end;
  do m <- instance_attr "model";
  do _ <- lookup_eval m;
  do r <- instance_attr "result";
  do p <- dot_initial_params r;
  dot_eval m p frequency.

Definition remove_background (frequency data : pyarray) : Py pyarray :=
  do bm <- background_model;
  do _ <- lookup_eval bm;
  do r <- instance_attr "result";
  do p <- dot_params r;
  do b <- dot_eval bm p frequency;
  do q <- py_truediv (PyArray data) (PyArray b);
  expect_array q.

Definition foreground_data : Py pyobject :=
  property "foreground_data"
    (do _ <- self_method "remove_background";
     do f <- instance_attr "frequency";
     do f <- expect_array f;
     do d <- instance_attr "data";
     do d <- expect_array d;
     do x <- remove_background f d;
     ret (PyArray x)).

Definition invert (scattering_data : pyarray) : Py (pyarray * pyarray) :=
  raise NotImplementedError
    "Subclasses should implement this using their scattering parameter model.".

Definition remove_background_and_invert (raw_scattering_data measurement_frequency : pyarray)
    : Py (pyarray * pyarray) :=
  do _ <- self_method "invert";
  do _ <- self_method "remove_background";
  do x <- remove_background measurement_frequency raw_scattering_data;
  invert x.

(** ** Aliases and derived quantities *)

Definition f_r : Py pyobject :=
  property "f_r" (instance_attr "resonance_frequency").

Definition f_r_error : Py pyobject :=
  property "f_r_error" (instance_attr "resonance_frequency_error").

Definition omega_r : Py pyobject :=
  property "omega_r"
    (do c <- py_mul (py_int 2) py_pi;
     do f <- instance_attr "resonance_frequency";
     py_mul c f).

Definition omega_r_error : Py pyobject :=
  property "omega_r_error"
    (do c <- py_mul (py_int 2) py_pi;
     do e <- instance_attr "resonance_frequency_error";
     py_mul c e).

Definition total_loss : Py pyobject :=
  property "total_loss"
    (do i <- instance_attr "internal_loss";
     do c <- instance_attr "coupling_loss";
     py_add i c).

Definition total_loss_error : Py pyobject :=
  property "total_loss_error"
    (do ie <- instance_attr "internal_loss_error";
     do a <- py_pow ie (py_int 2);
     do ce <- instance_attr "coupling_loss_error";
     do b <- py_pow ce (py_int 2);
     do s <- py_add a b;
     do h <- py_truediv (py_int 1) (py_int 2);
     py_pow s h).

Definition coupling_quality_factor : Py pyobject :=
  property "coupling_quality_factor"
    (do c <- instance_attr "coupling_loss";
     py_truediv (py_int 1) c).

Definition Q_c : Py pyobject := property "Q_c" coupling_quality_factor.

Definition coupling_quality_factor_error : Py pyobject :=
  property "coupling_quality_factor_error"
    (do ce <- instance_attr "coupling_loss_error";
     do c <- instance_attr "coupling_loss";
     do c2 <- py_pow c (py_int 2);
     py_truediv ce c2).

Definition Q_c_error : Py pyobject :=
  property "Q_c_error" coupling_quality_factor_error.

Definition internal_quality_factor : Py pyobject :=
  property "internal_quality_factor"
    (do i <- instance_attr "internal_loss";
     py_truediv (py_int 1) i).

Definition Q_i : Py pyobject := property "Q_i" internal_quality_factor.

Definition internal_quality_factor_error : Py pyobject :=
  property "internal_quality_factor_error"
    (do ie <- instance_attr "internal_loss_error";
     do i <- instance_attr "internal_loss";
     do i2 <- py_pow i (py_int 2);
     py_truediv ie i2).

Definition Q_i_error : Py pyobject :=
  property "Q_i_error" internal_quality_factor_error.

Definition total_quality_factor : Py pyobject :=
  property "total_quality_factor"
    (do i <- instance_attr "internal_loss";
     do c <- instance_attr "coupling_loss";
     do t <- py_add i c;
     py_truediv (py_int 1) t).

Definition Q_t : Py pyobject := property "Q_t" total_quality_factor.

Definition total_quality_factor_error : Py pyobject :=
  property "total_quality_factor_error"
    (do te <- total_loss_error;
     do t <- total_loss;
     do t2 <- py_pow t (py_int 2);
     py_truediv te t2).

Definition Q_t_error : Py pyobject :=
  property "Q_t_error" total_quality_factor_error.

Definition coupling_energy_decay_rate : Py pyobject :=
  property "coupling_energy_decay_rate"
    (do w <- omega_r;
     do c <- instance_attr "coupling_loss";
     py_mul w c).

Definition coupling_energy_decay_rate_error : Py pyobject :=
  property "coupling_energy_decay_rate_error"
    (do rate <- coupling_energy_decay_rate;
     do fe <- instance_attr "resonance_frequency_error";
     do f <- instance_attr "resonance_frequency";
     do q1 <- py_truediv fe f;
     do s1 <- py_pow q1 (py_int 2);
     do ce <- instance_attr "coupling_loss_error";
     do c <- instance_attr "coupling_loss";
     do q2 <- py_truediv ce c;
     do s2 <- py_pow q2 (py_int 2);
     do s <- py_add s1 s2;
     do h <- py_truediv (py_int 1) (py_int 2);
     do root <- py_pow s h;
     py_mul rate root).

Definition internal_energy_decay_rate : Py pyobject :=
  property "internal_energy_decay_rate"
    (do w <- omega_r;
     do i <- instance_attr "internal_loss";
     py_mul w i).

Definition internal_energy_decay_rate_error : Py pyobject :=
  property "internal_energy_decay_rate_error"
    (do rate <- internal_energy_decay_rate;
     do fe <- instance_attr "resonance_frequency_error";
     do f <- instance_attr "resonance_frequency";
     do q1 <- py_truediv fe f;
     do s1 <- py_pow q1 (py_int 2);
     do ie <- instance_attr "internal_loss_error";
     do i <- instance_attr "internal_loss";
     do q2 <- py_truediv ie i;
     do s2 <- py_pow q2 (py_int 2);
     do s <- py_add s1 s2;
     do h <- py_truediv (py_int 1) (py_int 2);
     do root <- py_pow s h;
     py_mul rate root).

Definition total_energy_decay_rate : Py pyobject :=
  property "total_energy_decay_rate"
    (do w <- omega_r;
     do i <- instance_attr "internal_loss";
     do c <- instance_attr "coupling_loss";
     do t <- py_add i c;
     py_mul w t).

Definition total_energy_decay_rate_error : Py pyobject :=
  property "total_energy_decay_rate_error"
    (do rate <- total_energy_decay_rate;
     do fe <- instance_attr "resonance_frequency_error";
     do f <- instance_attr "resonance_frequency";
     do q1 <- py_truediv fe f;
     do s1 <- py_pow q1 (py_int 2);
     do te <- total_loss_error;
     do t <- total_loss;
     do q2 <- py_truediv te t;
     do s2 <- py_pow q2 (py_int 2);
     do s <- py_add s1 s2;
     do h <- py_truediv (py_int 1) (py_int 2);
     do root <- py_pow s h;
     py_mul rate root).

(** ** Attribute lookup on a fitter: [fitter.name] *)

(** The properties of the class: data descriptors, found before the
    instance [__dict__]. *)
Definition properties : list (string * Py pyobject) :=
  [ ("weights", weights);
    ("background_model", background_model);
    ("foreground_model", foreground_model);
    ("foreground_data", foreground_data);
    ("f_r", f_r);
    ("f_r_error", f_r_error);
    ("omega_r", omega_r);
    ("omega_r_error", omega_r_error);
    ("total_loss", total_loss);
    ("total_loss_error", total_loss_error);
    ("coupling_quality_factor", coupling_quality_factor);
    ("Q_c", Q_c);
    ("coupling_quality_factor_error", coupling_quality_factor_error);
    ("Q_c_error", Q_c_error);
    ("internal_quality_factor", internal_quality_factor);
    ("Q_i", Q_i);
    ("internal_quality_factor_error", internal_quality_factor_error);
    ("Q_i_error", Q_i_error);
    ("total_quality_factor", total_quality_factor);
    ("Q_t", Q_t);
    ("total_quality_factor_error", total_quality_factor_error);
    ("Q_t_error", Q_t_error);
    ("coupling_energy_decay_rate", coupling_energy_decay_rate);
    ("coupling_energy_decay_rate_error", coupling_energy_decay_rate_error);
    ("internal_energy_decay_rate", internal_energy_decay_rate);
    ("internal_energy_decay_rate_error", internal_energy_decay_rate_error);
    ("total_energy_decay_rate", total_energy_decay_rate);
    ("total_energy_decay_rate_error", total_energy_decay_rate_error) ].

(** The other names the class answers for: its methods, and what it
    inherits from [object]. *)
Definition methods : list string :=
  [ "__init__"; "__getattr__"; "__dir__"; "__str__";
    "guess"; "fit"; "model_values"; "initial_model_values";
    "remove_background"; "measurement_model_resonance"; "invert";
    "remove_background_and_invert"; "photon_number";
    "photon_number_from_power";
    "__class__"; "__dict__"; "__doc__"; "__module__"; "__weakref__";
    "__new__"; "__repr__"; "__hash__"; "__getattribute__"; "__setattr__";
    "__delattr__"; "__eq__"; "__ne__"; "__lt__"; "__le__"; "__gt__";
    "__ge__"; "__reduce__"; "__reduce_ex__"; "__sizeof__"; "__format__";
    "__subclasshook__"; "__init_subclass__" ].

Fixpoint assoc {A} (name : string) (l : list (string * A)) : option A :=
  match l with
  | [] => None
  | (k, v) :: l' => if String.eqb name k then Some v else assoc name l'
  end.

(** Whether normal lookup finds [name], so that [__getattr__] is not
    consulted for it. *)
Definition explicit (o : obj) (name : string) : bool :=
  match assoc name properties with
  | Some _ => true
  | None =>
      match dict o !! name with
      | Some _ => true
      | None => existsb (String.eqb name) methods
      end
  end.

Definition getattr (name : string) : Py pyobject :=
  match assoc name properties with
  | Some p => p
  | None =>
      do o <- get_self;
      match dict o !! name with
      | Some v => ret v
      | None =>
          if existsb (String.eqb name) methods then ret (PyMethod name)
          else __getattr__ name
      end
  end.

(** ** States used to state the theorems *)

(** The [__dict__] that [__init__] builds, entry by entry, with [r] the
    value of [self.result]. *)
Definition fitter_dict (frequency data : pyarray) (errors : option pyarray)
    (m : CompositeModel) (r : pyobject) : gmap string pyobject :=
  <["result" := r]>
    (<["model" := PyModel m]>
       (<["errors" := optional errors]>
          (<["data" := PyArray data]>
             (<["frequency" := PyArray frequency]> ∅)))).

(** A fitter of class [c] on which a fit has stored [r]. *)
Definition fitted (c : string) (frequency data : pyarray) (errors : option pyarray)
    (m : CompositeModel) (r : ModelResult) (log : list event) : state :=
  {| self := {| class_name := c;
                dict := fitter_dict frequency data errors m (PyModelResult r) |};
     calls := log |}.

(** A fresh instance, as [__init__] receives it. *)
Definition fresh (c : string) : state :=
  {| self := {| class_name := c; dict := ∅ |}; calls := [] |}.

Definition logged (s : state) (es : list event) : state :=
  {| self := self s; calls := calls s ++ es |}.

(** A computation that leaves the object alone: all it does to the state
    is to log calls. *)
Definition read_only {A} (m : Py A) : Prop :=
  forall s, exists es, snd (m s) = logged s es.

(** One point of the weight array: [1 / a + 1j / b] for an error with real
    part [a] and imaginary part [b]. *)
Definition weight_of (a b : pyfloat) : pycomplex :=
  cadd (of_real (fdiv (of_int 1) a)) (cdiv imag_unit (of_real b)).

Definition weights_of (e : pyarray) : pyarray :=
  match e with
  | FArr a => CArr (nd_map (fun x => weight_of x (of_int 0)) a)
  | CArr a => CArr (nd_map (fun z => weight_of (re z) (im z)) a)
  end.

(** [b] stretches to the shape of [x] under numpy's broadcasting: a scalar
    to any shape, an array to an array of its length, an array of length
    one to any array. *)
Definition broadcasts_to {A B} (b : nd A) (x : nd B) : Prop :=
  match b, x with
  | Scalar _, _ => True
  | Array1 l1, Array1 l2 => length l1 = length l2 \/ length l1 = 1
  | Array1 _, Scalar _ => False
  end.

(** Two arrays of one shape whose points are related pairwise. *)
Definition nd_forall2 {A B} (R : A -> B -> Prop) (x : nd A) (y : nd B) : Prop :=
  match x, y with
  | Scalar a, Scalar b => R a b
  | Array1 l1, Array1 l2 => Forall2 R l1 l2
  | _, _ => False
  end.

Definition nd_all {A} (P : A -> Prop) (x : nd A) : Prop :=
  match x with
  | Scalar a => P a
  | Array1 l => Forall P l
  end.

(** ** The table of derived quantities, as the specification words it

    The square root is written as the source writes it, a power one half. *)
Definition sq (x : pyfloat) : pyfloat := fpow x (of_int 2).
Definition root (x : pyfloat) : pyfloat := fpow x (fdiv (of_int 1) (of_int 2)).

Definition table_omega (f : pyfloat) : pyfloat := fmul (fmul (of_int 2) pi) f.
Definition table_sum_error (s1 s2 : pyfloat) : pyfloat := root (fadd (sq s1) (sq s2)).
Definition table_Q (loss : pyfloat) : pyfloat := fdiv (of_int 1) loss.
Definition table_Q_error (s loss : pyfloat) : pyfloat := fdiv s (sq loss).
Definition table_rate (f loss : pyfloat) : pyfloat := fmul (table_omega f) loss.
Definition table_rate_error (f sf loss sloss : pyfloat) : pyfloat :=
  fmul (table_rate f loss) (root (fadd (sq (fdiv sf f)) (sq (fdiv sloss loss)))).

(** ** The snapshot for plotting *)

(** The numpy routines that [measurement_model_resonance] calls: [x.min()],
    [x.max()] and [np.linspace(start, stop, num)]. *)
Class Numpy := {
  np_min : pyarray -> res pyarray;
  np_max : pyarray -> res pyarray;
  np_linspace : pyarray -> pyarray -> Z -> res pyarray
}.

Context `{Numpy}.

(** The namedtuple [MeasurementModelResonance]. *)
Record MeasurementModelResonance := {
  measurement_frequency : pyobject;
  measurement_data : pyobject;
  model_frequency : pyobject;
  model_data : pyobject;
  resonance_frequency : pyobject;
  resonance_data : pyobject
}.

(** [x.copy()], [x.min()], [x.max()]. *)
Definition dot_copy (x : pyobject) : Py pyobject :=
  match x with
  | PyArray a => ret (PyArray a)
  | _ => raise AttributeError "object has no attribute 'copy'"
  end.

Definition dot_min (x : pyobject) : Py pyobject :=
  match x with
  | PyArray a => lift (res_map PyArray (np_min a))
  | _ => raise AttributeError "object has no attribute 'min'"
  end.

Definition dot_max (x : pyobject) : Py pyobject :=
  match x with
  | PyArray a => lift (res_map PyArray (np_max a))
  | _ => raise AttributeError "object has no attribute 'max'"
  end.

Definition measurement_model_resonance (normalize : bool) (num_model_points : option Z)
    : Py MeasurementModelResonance :=
  do f <- instance_attr "frequency";
  do measurement_frequency <- dot_copy f;
  do d <- instance_attr "data";
  do measurement_data <- dot_copy d;
  do model_frequency <-
    match num_model_points with
    | None => do f' <- instance_attr "frequency"; dot_copy f'
    | Some n =>
        do lo <- dot_min measurement_frequency;
        do hi <- dot_max measurement_frequency;
        do lo <- expect_array lo;
        do hi <- expect_array hi;
        lift (res_map PyArray (np_linspace lo hi n))
    end;
  do m <- instance_attr "model";
  do _ <- lookup_eval m;
  do r <- instance_attr "result";
  do p <- dot_params r;
  do mf <- expect_array model_frequency;
  do model_data <- dot_eval m p mf;
  do m' <- instance_attr "model";
  do _ <- lookup_eval m';
  do r' <- instance_attr "result";
  do p' <- dot_params r';
  do fr <- instance_attr "resonance_frequency";
  do fr <- expect_array fr;
  do resonance_data <- dot_eval m' p' fr;
  if normalize then
    do _ <- self_method "remove_background";
    do f1 <- expect_array measurement_frequency;
    do d1 <- expect_array measurement_data;
    do measurement_data' <- remove_background f1 d1;
    do _ <- self_method "remove_background";
    do model_data' <- remove_background mf model_data;
    do _ <- self_method "remove_background";
    do fr' <- instance_attr "resonance_frequency";
    do fr' <- expect_array fr';
    do resonance_data' <- remove_background fr' resonance_data;
    do fr'' <- instance_attr "resonance_frequency";
    ret {| measurement_frequency := measurement_frequency;
           measurement_data := PyArray measurement_data';
           model_frequency := model_frequency;
           model_data := PyArray model_data';
           resonance_frequency := fr'';
           resonance_data := PyArray resonance_data' |}
  else
    do fr'' <- instance_attr "resonance_frequency";
    ret {| measurement_frequency := measurement_frequency;
           measurement_data := measurement_data;
           model_frequency := model_frequency;
           model_data := PyArray model_data;
           resonance_frequency := fr'';
           resonance_data := PyArray resonance_data |}.

(** ** [__dir__] *)

(** The order of [str] on the names at hand, and [sorted(set(names))]. *)
Definition string_le (a b : string) : Prop := String.leb a b = true.

#[global] Instance string_le_dec (a b : string) : Decision (string_le a b).
Proof. unfold string_le. apply _. Defined.

Definition sorted_set (names : list string) : list string :=
  merge_sort string_le (remove_dups names).

(** [dir(ResonatorFitter)]: the names the class answers for. *)
Definition class_dir : list string := map fst properties ++ methods.

Definition __dir__ : Py (list string) :=
  do o <- get_self;
  let own := elements (dom (dict o)) in
  do r <- instance_attr "result";
  do ps <- dot_params r;
  let names := elements (dom ps) in
  do r' <- instance_attr "result";
  do ps' <- dot_params r';
  let errors := map (fun name => name ++ "_error") (elements (dom ps')) in
  ret (sorted_set (class_dir ++ own ++ names ++ errors)).

(** ** What a computation may change *)

(** A computation that changes no attribute of the instance outside
    [names], and not its class. *)
Definition touches_only {A} (names : list string) (m : Py A) : Prop :=
  forall s,
    class_name (self (snd (m s))) = class_name (self s)
    /\ forall k, k ∉ names -> dict (self (snd (m s))) !! k = dict (self s) !! k.

(** ** Derived quantities without their parameters *)

(** The properties computed from fit parameters: all but the first four. *)
Definition derived_quantities : list (string * Py pyobject) := drop 4 properties.

(** The parameter that [__getattr__] looks for under a name, and the
    exception it raises when that parameter does not exist. *)
Definition parameter_of (name : string) : string :=
  if endswith name "_error" then drop_last (String.length "_error") name else name.

Definition missing (c name : string) : exn :=
  if endswith name "_error" then
    Exn AttributeError
      ("Couldn't find error for " ++ drop_last (String.length "_error") name
       ++ " in self.result")
  else
    Exn AttributeError ("'" ++ c ++ "' object has no attribute '" ++ name ++ "'").

End Fitter.

Abbreviation Params := (gmap string Param).

(** ** Concrete models, for examples

    A background of constant gain and a one-port (reflection) resonator,
    over IEEE arithmetic, with an optimizer that returns its starting point:
    enough to run the orchestration on actual arrays. *)
Module Demo.
#[local] Existing Instance ieee.
#[local] Set Warnings "-inexact-float".

Definition param (v : float) : Param :=
  {| value := v; stderr := None; pmin := None; pmax := None; vary := true |}.

Definition measured (v e : float) : Param :=
  {| value := v; stderr := Some e; pmin := None; pmax := None; vary := true |}.

Definition first (x : pyarray) : option pycomplex :=
  match as_complex x with
  | Scalar a => Some a
  | Array1 (a :: _) => Some a
  | Array1 [] => None
  end.

(** Gain read off the first data point; the same gain at every frequency. *)
Definition background : BackgroundModel := {|
  bg_guess := fun data frequency =>
    Ok {[ "gain" := param (match first data with
                           | Some z => re z
                           | None => 1%float
                           end) ]};
  bg_eval := fun p frequency =>
    match p !! "gain" with
    | Some g => Ok (CArr (nd_map (fun _ => Cx (value g) 0%float) (as_complex frequency)))
    | None => Raise (Exn KeyError "gain")
    end
|}.

(** Reflection from a resonator: [-1] far from resonance. *)
Definition reflection (f_r c i : float) (f : pycomplex) : pycomplex :=
  let x := PrimFloat.sub (PrimFloat.div (re f) f_r) 1%float in
  let z := Cx i (PrimFloat.mul 2%float x) in
  let den := cadd (Cx 1%float 0%float) (cdiv z (Cx c 0%float)) in
  cadd (Cx (-1)%float 0%float) (cdiv (Cx 2%float 0%float) den).

Definition foreground : ResonatorModel := {|
  fg_guess := fun data frequency =>
    Ok (<["resonance_frequency" := param (match first frequency with
                                          | Some z => re z
                                          | None => 1%float
                                          end)]>
          (<["coupling_loss" := param 0.5%float]>
             {[ "internal_loss" := param 0.25%float ]}));
  fg_eval := fun p frequency =>
    match p !! "resonance_frequency", p !! "coupling_loss", p !! "internal_loss" with
    | Some f_r, Some c, Some i =>
        Ok (CArr (nd_map (reflection (value f_r) (value c) (value i))
                         (as_complex frequency)))
    | _, _, _ => Raise (Exn KeyError "missing parameter")
    end;
  reference_point := Some (Cx (-1)%float 0%float)
|}.

(** An optimizer that takes no step: the starting values are reported as
    the best fit, each with standard error 0.125. *)
#[local] Instance optimizer : Optimizer := {|
  fit_kwds := unit;
  model_fit := fun m frequency data w p kw =>
    Ok {| params := (fun q => measured (value q) 0.125%float) <$> p;
          initial_params := p;
          success := true |}
|}.

Definition model : CompositeModel := model_mul background foreground.

Definition frequency : pyarray := FArr (Array1 [1%float; 2%float]).
Definition data : pyarray :=
  CArr (Array1 [Cx (-2)%float 0%float; Cx (-2)%float 1%float]).

(** A single point of data against two frequencies. *)
Definition short_data : pyarray := CArr (Array1 [Cx (-2)%float 0%float]).

(** The fit of the specification's worked example. *)
Definition result : ModelResult := {|
  params :=
    <["resonance_frequency" := measured 1%float 0.001%float]>
      (<["coupling_loss" := measured 2e-6%float 2e-8%float]>
         (<["internal_loss" := measured 1e-6%float 1e-8%float]>
            {[ "gain" := measured 2%float 0.125%float ]}));
  initial_params := {[ "gain" := param 2%float ]};
  success := true
|}.

Definition fitter : state := fitted "ResonatorFitter" frequency data None model result [].

(** A fit whose optimizer could not estimate the uncertainty of [gain]. *)
Definition result_without_stderr : ModelResult := {|
  params := {[ "gain" := param 2%float ]};
  initial_params := {[ "gain" := param 2%float ]};
  success := true
|}.

(** A fit with a parameter whose own name ends in [_error]. *)
Definition result_with_suffix : ModelResult := {|
  params := {[ "phase_error" := measured 0.5%float 0.125%float ]};
  initial_params := {[ "phase_error" := param 0.5%float ]};
  success := true
|}.

Definition fitter_without_stderr : state :=
  fitted "ResonatorFitter" frequency data None model result_without_stderr [].

Definition fitter_with_suffix : state :=
  fitted "ResonatorFitter" frequency data None model result_with_suffix [].

(** A background that vanishes. *)
Definition dark_background : BackgroundModel := {|
  bg_guess := fun data frequency => Ok {[ "gain" := param 0%float ]};
  bg_eval := bg_eval background
|}.

Definition dark_result : ModelResult := {|
  params := {[ "gain" := measured 0%float 0.125%float ]};
  initial_params := {[ "gain" := param 0%float ]};
  success := true
|}.

(** Errors for the two points, the second one excluded from the fit. *)
Definition errors : pyarray :=
  CArr (Array1 [Cx 2%float 4%float; Cx infinity infinity]).

Definition weighted_fitter : state :=
  fitted "ResonatorFitter" frequency data (Some errors) model result [].

(** A caller's override of one guessed parameter, with bounds. *)
Definition override : Params :=
  {[ "coupling_loss" :=
       {| value := 0.125%float; stderr := None; pmin := Some 0%float;
          pmax := Some 1%float; vary := false |} ]}.

Definition dark_model : CompositeModel := model_mul dark_background foreground.

Definition dark_fitter : state :=
  fitted "ResonatorFitter" frequency data None dark_model dark_result [].

Definition ones : pyarray :=
  CArr (Array1 [Cx 1%float 0%float; Cx 1%float 0%float]).

(** Two constructions: one on matching arrays, one on a single point of
    data against two frequencies. *)
Definition construction : res unit * state :=
  run (__init__ frequency data foreground background None None tt)
      (fresh "ResonatorFitter").

Definition short_construction : res unit * state :=
  run (__init__ frequency short_data foreground background None None tt)
      (fresh "ResonatorFitter").

(** Whether a computation returned an array whose first point has a real
    part that is not a number. *)
Definition first_is_nan (r : res pyarray) : bool :=
  match r with
  | Ok x => match first x with
            | Some z => PrimFloat.is_nan (re z)
            | None => false
            end
  | Raise _ => false
  end.

Definition zeros : pyarray :=
  CArr (Array1 [Cx 0%float 0%float; Cx 0%float 0%float]).

(** The error that excludes a point: [(1 + 1j) * np.inf]. *)
Definition excluded : pycomplex :=
  cmul (Cx 1%float 1%float) (of_real infinity).

(** numpy's reductions and [linspace], for float arrays of the examples. *)
Definition smallest (l : list float) : option float :=
  match l with
  | [] => None
  | x :: l' => Some (fold_left (fun a b => if PrimFloat.ltb b a then b else a) l' x)
  end.

Definition largest (l : list float) : option float :=
  match l with
  | [] => None
  | x :: l' => Some (fold_left (fun a b => if PrimFloat.ltb a b then b else a) l' x)
  end.

Definition reduce (pick : list float -> option float) (x : pyarray) : res pyarray :=
  match x with
  | FArr (Scalar v) => Ok (FArr (Scalar v))
  | FArr (Array1 l) =>
      match pick l with
      | Some v => Ok (FArr (Scalar v))
      | None => Raise (Exn ValueError "zero-size array to reduction operation")
      end
  | CArr _ => Raise (Exn TypeError "reduction of a complex array")
  end.

Definition linspace (start stop : pyarray) (num : Z) : res pyarray :=
  match start, stop with
  | FArr (Scalar a), FArr (Scalar b) =>
      let step := PrimFloat.div (PrimFloat.sub b a) (ieee_of_int (num - 1)) in
      Ok (FArr (Array1
                 (map (fun i => PrimFloat.add a (PrimFloat.mul (ieee_of_int (Z.of_nat i)) step))
                      (seq 0 (Z.to_nat num)))))
  | _, _ => Raise (Exn TypeError "linspace of arrays")
  end.

#[local] Instance numpy : Numpy := {|
  np_min := reduce smallest;
  np_max := reduce largest;
  np_linspace := linspace
|}.

(** A background whose guess fails. *)
Definition failing_background : BackgroundModel := {|
  bg_guess := fun data frequency => Raise (Exn ValueError "no guess for these data");
  bg_eval := bg_eval background
|}.

Definition failing_model : CompositeModel := model_mul failing_background foreground.

Definition failing_fitter : state :=
  fitted "ResonatorFitter" frequency data None failing_model result [].

(** The foreground with [reference_point] left at [None], as in the base
    class. *)
Definition base_foreground : ResonatorModel := {|
  fg_guess := fg_guess foreground;
  fg_eval := fg_eval foreground;
  reference_point := None
|}.

(** A fit for which no standard error could be estimated. *)
Definition result_without_errors : ModelResult := {|
  params :=
    <["resonance_frequency" := param 1%float]>
      (<["coupling_loss" := param 0.5%float]>
         {[ "internal_loss" := param 0.25%float ]});
  initial_params := ∅;
  success := true
|}.

Definition fitter_without_errors : state :=
  fitted "ResonatorFitter" frequency data None model result_without_errors [].

(** An error whose imaginary part is finite and not zero, and so small that
    its inverse overflows. *)
Definition tiny_errors : pyarray := CArr (Array1 [Cx 2%float 1e-310%float]).

Definition tiny_fitter : state :=
  fitted "ResonatorFitter" frequency data (Some tiny_errors) model result [].

(** Whether a computation returned a complex array whose first point has a
    real part that is not a number. *)
Definition real_is_nan (r : res pyobject) : bool :=
  match r with
  | Ok (PyArray (CArr (Array1 (z :: _)))) => PrimFloat.is_nan (re z)
  | _ => false
  end.

(** A faint background: nowhere zero, with a square below the smallest
    binary64 number. *)
Definition faint_result : ModelResult := {|
  params := {[ "gain" := measured 1e-200%float 0.125%float ]};
  initial_params := {[ "gain" := param 1e-200%float ]};
  success := true
|}.

Definition faint_fitter : state :=
  fitted "ResonatorFitter" frequency data None model faint_result [].

Definition faint : pyarray :=
  CArr (Array1 [Cx 1e-200%float 0%float; Cx 1e-200%float 0%float]).

(** Whether a computation returned an array whose first point has a real
    part equal to zero. *)
Definition first_is_zero (r : res pyarray) : bool :=
  match r with
  | Ok x => match first x with
            | Some z => PrimFloat.eqb (re z) 0%float
            | None => false
            end
  | Raise _ => false
  end.

(** Three points, against the two frequencies. *)
Definition three : pyarray :=
  CArr (Array1 [Cx 1%float 0%float; Cx 1%float 0%float; Cx 1%float 0%float]).

(** The background of [result] at the two frequencies, and two points in
    the plane of the resonator. *)
Definition gain_two : pyarray :=
  CArr (Array1 [Cx 2%float 0%float; Cx 2%float 0%float]).

Definition normalized : nd pycomplex :=
  Array1 [Cx (-1)%float 0%float; Cx (-1)%float 0.5%float].

End Demo.

(** The same background, in exact arithmetic. *)
Module DemoExact.
#[local] Existing Instance exact.

Definition param (v : R) : Param :=
  {| value := v; stderr := None; pmin := None; pmax := None; vary := true |}.

Definition background : BackgroundModel := {|
  bg_guess := fun data frequency => Ok {[ "gain" := param 2 ]};
  bg_eval := fun p frequency =>
    match p !! "gain" with
    | Some g => Ok (CArr (nd_map (fun _ => Cx (value g) 0%R) (as_complex frequency)))
    | None => Raise (Exn KeyError "gain")
    end
|}.

(** A foreground that is [1] everywhere. *)
Definition foreground : ResonatorModel := {|
  fg_guess := fun data frequency => Ok ∅;
  fg_eval := fun p frequency =>
    Ok (CArr (nd_map (fun _ => Cx 1%R 0%R) (as_complex frequency)));
  reference_point := Some (Cx 1%R 0%R)
|}.

#[local] Instance optimizer : Optimizer := {|
  fit_kwds := unit;
  model_fit := fun m frequency data w p kw =>
    Ok {| params := p; initial_params := p; success := true |}
|}.

Definition model : CompositeModel := model_mul background foreground.
Definition frequency : pyarray := FArr (Array1 [1%R; 2%R]).
Definition data : pyarray := CArr (Array1 [Cx 2%R 0%R; Cx 2%R 1%R]).

Definition result : ModelResult := {|
  params := {[ "gain" := param 2 ]};
  initial_params := {[ "gain" := param 2 ]};
  success := true
|}.

Definition fitter : state := fitted "ResonatorFitter" frequency data None model result [].

Definition signal : nd pycomplex := Array1 [Cx 1%R 1%R; Cx 3%R 0%R].

Definition gain : pyarray := CArr (Array1 [Cx 2%R 0%R; Cx 2%R 0%R]).

(** A fit with the three standard parameters. *)
Definition loaded_result : ModelResult := {|
  params :=
    <["resonance_frequency" := param 3]>
      (<["coupling_loss" := param 2]> {[ "internal_loss" := param 1 ]});
  initial_params := ∅;
  success := true
|}.

Definition loaded_fitter : state :=
  fitted "ResonatorFitter" frequency data None model loaded_result [].

End DemoExact.

(** * Properties *)

Section Properties.
Context {F : PyFloat} {O : Optimizer}.

(** ** Arrays *)

Lemma broadcast_scalar_r {A B C} (op : A -> B -> C) (x : nd A) (b : B) :
  broadcast op x (Scalar b) = Ok (nd_map (fun a => op a b) x).
Proof. destruct x; reflexivity. Qed.

Lemma broadcast_scalar_l {A B C} (op : A -> B -> C) (a : A) (y : nd B) :
  broadcast op (Scalar a) y = Ok (nd_map (op a) y).
Proof. destruct y; reflexivity. Qed.

Lemma zip_with_map_map {A B C D} (op : B -> C -> D) (g : A -> B) (h : A -> C)
    (l : list A) :
  zip_with op (map g l) (map h l) = map (fun x => op (g x) (h x)) l.
Proof. induction l as [|a l IH]; cbn; [reflexivity | by rewrite IH]. Qed.

Lemma broadcast_map_map {A B C D} (op : B -> C -> D) (g : A -> B) (h : A -> C)
    (x : nd A) :
  broadcast op (nd_map g x) (nd_map h x) = Ok (nd_map (fun a => op (g a) (h a)) x).
Proof.
  destruct x as [a|l]; cbn; [reflexivity|].
  rewrite !length_map, Nat.eqb_refl, zip_with_map_map. reflexivity.
Qed.

Lemma nd_map_map {A B C} (g : A -> B) (h : B -> C) (x : nd A) :
  nd_map h (nd_map g x) = nd_map (fun a => h (g a)) x.
Proof. destruct x as [a|l]; cbn; [reflexivity | by rewrite map_map]. Qed.

Lemma divide_by_scalar (x : pyarray) (c : pycomplex) :
  np_true_divide x (CArr (Scalar c)) =
  Ok (CArr (nd_map (fun z => cdiv z c) (as_complex x))).
Proof.
  unfold np_true_divide, ufunc.
  destruct x; cbn [as_complex]; rewrite broadcast_scalar_r; reflexivity.
Qed.

(** ** The monad *)

Lemma logged_logged (s : state) (a b : list event) :
  logged (logged s a) b = logged s (a ++ b)%list.
Proof. unfold logged; cbn. by rewrite app_assoc. Qed.

Lemma logged_nil (s : state) : logged s [] = s.
Proof. destruct s; unfold logged; cbn. by rewrite app_nil_r. Qed.

Lemma call_run {A} (e : event) (r : res A) (s : state) :
  call e r s = (r, logged s [e]).
Proof. reflexivity. Qed.

Lemma read_only_ret {A} (a : A) : read_only (ret a).
Proof. intros s. exists []. by rewrite logged_nil. Qed.

Lemma read_only_raise {A} (k : exn_kind) (msg : string) : read_only (@raise _ _ A k msg).
Proof. intros s. exists []. by rewrite logged_nil. Qed.

Lemma read_only_lift {A} (r : res A) : read_only (lift r).
Proof. intros s. exists []. by rewrite logged_nil. Qed.

Lemma read_only_get_self : read_only get_self.
Proof. intros s. exists []. by rewrite logged_nil. Qed.

Lemma read_only_call {A} (e : event) (r : res A) : read_only (call e r).
Proof. intros s. by exists [e]. Qed.

Lemma read_only_bind {A B} (m : Py A) (k : A -> Py B) :
  read_only m -> (forall a, read_only (k a)) -> read_only (bind m k).
Proof.
  intros Hm Hk s. unfold bind.
  destruct (Hm s) as [es Hes]. destruct (m s) as [[a|e] s1]; cbn in Hes; subst s1.
  - destruct (Hk a (logged s es)) as [es' Hes']. exists (es ++ es')%list.
    by rewrite Hes', logged_logged.
  - by exists es.
Qed.

Lemma read_only_try_except {A} (m : Py A) (k : exn_kind) (h : Py A) :
  read_only m -> read_only h -> read_only (try_except m k h).
Proof.
  intros Hm Hh s. unfold try_except.
  destruct (Hm s) as [es Hes]. destruct (m s) as [[a|e] s1]; cbn in Hes; subst s1.
  - by exists es.
  - destruct (decide (kind e = k)).
    + destruct (Hh (logged s es)) as [es' Hes']. exists (es ++ es')%list.
      by rewrite Hes', logged_logged.
    + by exists es.
Qed.

(** ** Reading attributes *)

Lemma instance_attr_found (s : state) (name : string) (v : pyobject) :
  dict (self s) !! name = Some v -> instance_attr name s = (Ok v, s).
Proof. intros Hv. unfold instance_attr, bind, get_self. by rewrite Hv. Qed.

Lemma instance_attr_missing (s : state) (name : string) :
  dict (self s) !! name = None -> instance_attr name s = __getattr__ name s.
Proof. intros Hv. unfold instance_attr, bind, get_self. by rewrite Hv. Qed.

Lemma property_ok (name : string) (getter : Py pyobject) (s s' : state) (v : pyobject) :
  getter s = (Ok v, s') -> property name getter s = (Ok v, s').
Proof. intros Hg. unfold property, try_except. by rewrite Hg. Qed.

Lemma background_model_run (s : state) (m : CompositeModel) :
  dict (self s) !! "model" = Some (PyModel m) ->
  background_model s = (Ok (PyBackgroundModel (left m)), s).
Proof.
  intros Hm. apply property_ok. unfold bind.
  by rewrite (instance_attr_found _ _ _ Hm).
Qed.

Lemma foreground_model_run (s : state) (m : CompositeModel) :
  dict (self s) !! "model" = Some (PyModel m) ->
  foreground_model s = (Ok (PyResonatorModel (right m)), s).
Proof.
  intros Hm. apply property_ok. unfold bind.
  by rewrite (instance_attr_found _ _ _ Hm).
Qed.

Lemma read_only_self_result : read_only self_result.
Proof.
  apply read_only_bind; [apply read_only_get_self|].
  intros o. destruct (dict o !! "result"); [apply read_only_ret | apply read_only_raise].
Qed.

Lemma read_only_dot_params (r : pyobject) : read_only (dot_params r).
Proof. destruct r; first [apply read_only_ret | apply read_only_raise]. Qed.

Lemma read_only_getattr__ (attr : string) : read_only (__getattr__ attr).
Proof.
  unfold __getattr__.
  destruct (endswith attr "_error");
    (apply read_only_try_except;
     [ apply read_only_bind; [apply read_only_self_result|]; intros r;
       apply read_only_bind; [apply read_only_dot_params|]; intros ps;
       apply read_only_bind; [apply read_only_lift|]; intros p; apply read_only_ret
     | ]).
  - apply read_only_raise.
  - apply read_only_bind; [apply read_only_get_self | intros o; apply read_only_raise].
Qed.

Lemma read_only_instance_attr (name : string) : read_only (instance_attr name).
Proof.
  apply read_only_bind; [apply read_only_get_self|].
  intros o. destruct (dict o !! name); [apply read_only_ret | apply read_only_getattr__].
Qed.

Lemma read_only_property (name : string) (getter : Py pyobject) :
  read_only getter -> read_only (property name getter).
Proof. intros Hg. apply read_only_try_except; [exact Hg | apply read_only_getattr__]. Qed.

Lemma read_only_binop (f : pyarray -> pyarray -> res pyarray) (a b : pyobject) :
  read_only (binop f a b).
Proof. destruct a, b; first [apply read_only_lift | apply read_only_raise]. Qed.

Lemma read_only_expect_array (x : pyobject) : read_only (expect_array x).
Proof. destruct x; first [apply read_only_ret | apply read_only_raise]. Qed.

Create HintDb read_only.

#[local] Hint Resolve read_only_ret read_only_raise read_only_lift read_only_get_self
  read_only_call read_only_self_result read_only_dot_params read_only_getattr__
  read_only_instance_attr read_only_binop read_only_expect_array : read_only.

(** Decompose a method body into its steps. *)
Ltac read_only_steps :=
  repeat first
    [ progress auto with read_only
    | apply read_only_bind; [| intros ?]
    | apply read_only_property
    | apply read_only_try_except
    | match goal with
      | |- read_only (match ?x with _ => _ end) => destruct x
      end ].

Lemma read_only_dot_left (m : pyobject) : read_only (dot_left m).
Proof. unfold dot_left. read_only_steps. Qed.

Lemma read_only_dot_right (m : pyobject) : read_only (dot_right m).
Proof. unfold dot_right. read_only_steps. Qed.

Lemma read_only_dot_reference_point (m : pyobject) : read_only (dot_reference_point m).
Proof. unfold dot_reference_point. destruct m; auto with read_only. Qed.

Lemma read_only_lookup_guess (m : pyobject) : read_only (lookup_guess m).
Proof. unfold lookup_guess. read_only_steps. Qed.

Lemma read_only_lookup_eval (m : pyobject) : read_only (lookup_eval m).
Proof. unfold lookup_eval. read_only_steps. Qed.

Lemma read_only_lookup_fit (m : pyobject) : read_only (lookup_fit m).
Proof. unfold lookup_fit. read_only_steps. Qed.

Lemma read_only_self_method (name : string) : read_only (self_method name).
Proof. unfold self_method. read_only_steps. Qed.

Lemma self_method_run (s : state) (name : string) :
  dict (self s) !! name = None -> self_method name s = (Ok tt, s).
Proof. intros Hn. unfold self_method, bind, get_self. by rewrite Hn. Qed.

Lemma read_only_dot_guess (m : pyobject) (d f : pyarray) : read_only (dot_guess m d f).
Proof. unfold dot_guess. read_only_steps. Qed.

Lemma read_only_dot_eval (m : pyobject) (p : Params) (f : pyarray) :
  read_only (dot_eval m p f).
Proof. unfold dot_eval. read_only_steps. Qed.

#[local] Hint Resolve read_only_dot_left read_only_dot_right
  read_only_dot_reference_point read_only_dot_guess read_only_dot_eval
  read_only_lookup_guess read_only_lookup_eval read_only_lookup_fit
  read_only_self_method : read_only.

Lemma read_only_background_model : read_only background_model.
Proof. unfold background_model. read_only_steps. Qed.

Lemma read_only_foreground_model : read_only foreground_model.
Proof. unfold foreground_model. read_only_steps. Qed.

#[local] Hint Resolve read_only_background_model read_only_foreground_model : read_only.

Lemma read_only_weights : read_only weights.
Proof. unfold weights, weights_getter, py_truediv, py_add, dot_real, dot_imag. read_only_steps. Qed.

Lemma read_only_guess (frequency data : pyarray) : read_only (guess frequency data).
Proof. unfold guess, py_truediv. read_only_steps. Qed.

Lemma read_only_run {A} (m : Py A) (s s' : state) (r : res A) :
  read_only m -> m s = (r, s') -> exists es, s' = logged s es.
Proof. intros Hm Hs. destruct (Hm s) as [es Hes]. exists es. by rewrite Hs in Hes. Qed.

(** ** The guess *)

Ltac py_simpl :=
  cbv beta iota zeta delta
    [run bind ret lift raise res_map binop py_truediv py_add py_mul py_pow
     expect_array optional_array dot_reference_point dot_guess dot_eval dot_fit
     dot_params dot_initial_params lookup_guess lookup_eval lookup_fit].

Lemma update_lookup (g p : Params) (k : string) :
  update g p !! k = match p !! k with Some v => Some v | None => g !! k end.
Proof.
  unfold update. rewrite lookup_union. destruct (p !! k), (g !! k); reflexivity.
Qed.

(** C1.  On a fitter whose foreground model has a reference point, [guess]
    first calls the background model's [guess] on [data / reference_point]
    (whatever happens afterwards, that is the first call it makes, on those
    data and not on the raw ones); when that and the following steps return,
    it next evaluates the background model at [frequency] with the
    background guess, then calls the foreground model's [guess] on
    [data] divided by that evaluation, makes no other call, and returns the
    background guess updated with the foreground guess, so that on a name
    clash the foreground entry is the one kept. *)
Theorem guess_background_then_foreground
    (st : state) (m : CompositeModel) (rp : pycomplex) (frequency data : pyarray) :
  dict (self st) !! "model" = Some (PyModel m) ->
  reference_point (right m) = Some rp ->
  let d1 := CArr (nd_map (fun z => cdiv z rp) (as_complex data)) in
  np_true_divide data (CArr (Scalar rp)) = Ok d1
  /\ (exists rest r,
        run (guess frequency data) st =
        (r, logged st (BackgroundGuess d1 frequency :: rest)))
  /\ forall g b d2 fgp,
       bg_guess (left m) d1 frequency = Ok g ->
       bg_eval (left m) g frequency = Ok b ->
       np_true_divide data b = Ok d2 ->
       fg_guess (right m) d2 frequency = Ok fgp ->
       run (guess frequency data) st =
         (Ok (update g fgp),
          logged st [BackgroundGuess d1 frequency; BackgroundEval g frequency;
                     ForegroundGuess d2 frequency])
       /\ forall k, update g fgp !! k =
                    match fgp !! k with Some v => Some v | None => g !! k end.
Proof.
  intros Hm Hr d1.
  assert (Hd1 : np_true_divide data (CArr (Scalar rp)) = Ok d1)
    by apply divide_by_scalar.
  split; [exact Hd1|].
  assert (Hstart : forall s, dict (self s) !! "model" = Some (PyModel m) ->
    guess frequency data s =
    match bg_guess (left m) d1 frequency with
    | Raise e => (Raise e, logged s [BackgroundGuess d1 frequency])
    | Ok g =>
        match bg_eval (left m) g frequency with
        | Raise e =>
            (Raise e, logged s [BackgroundGuess d1 frequency; BackgroundEval g frequency])
        | Ok b =>
            match np_true_divide data b with
            | Raise e =>
                (Raise e, logged s [BackgroundGuess d1 frequency; BackgroundEval g frequency])
            | Ok d2 =>
                (res_map (update g) (fg_guess (right m) d2 frequency),
                 logged s [BackgroundGuess d1 frequency; BackgroundEval g frequency;
                           ForegroundGuess d2 frequency])
            end
        end
    end).
  { intros s Hs. unfold guess. py_simpl.
    rewrite (background_model_run _ _ Hs), (foreground_model_run _ _ Hs).
    py_simpl. rewrite Hr, Hd1, call_run.
    destruct (bg_guess (left m) d1 frequency) as [g|e]; [|reflexivity].
    rewrite (background_model_run (logged s _) m Hs). py_simpl.
    rewrite call_run, logged_logged.
    destruct (bg_eval (left m) g frequency) as [b|e]; [|reflexivity].
    rewrite (foreground_model_run (logged s _) m Hs). py_simpl.
    destruct (np_true_divide data b) as [d2|e]; [|reflexivity].
    rewrite call_run, logged_logged.
    destruct (fg_guess (right m) d2 frequency) as [fgp|e]; reflexivity. }
  split.
  - unfold run. rewrite (Hstart st Hm).
    destruct (bg_guess (left m) d1 frequency) as [g|e]; [|by eexists _, _].
    destruct (bg_eval (left m) g frequency) as [b|e]; [|by eexists _, _].
    destruct (np_true_divide data b) as [d2|e]; by eexists _, _.
  - intros g b d2 fgp Hg Hb Hd2 Hf. split; [|intros k; apply update_lookup].
    unfold run. rewrite (Hstart st Hm), Hg, Hb, Hd2, Hf. reflexivity.
Qed.

(** The base class leaves [reference_point] at [None]: the division then
    fails before any model is called. *)
Lemma guess_without_reference_point (st : state) (m : CompositeModel)
    (frequency data : pyarray) :
  dict (self st) !! "model" = Some (PyModel m) ->
  reference_point (right m) = None ->
  run (guess frequency data) st =
  (Raise (Exn TypeError "unsupported operand type(s)"), st).
Proof.
  intros Hm Hr. unfold guess. py_simpl.
  rewrite (background_model_run _ _ Hm), (foreground_model_run _ _ Hm).
  py_simpl. by rewrite Hr.
Qed.

(** ** The weights *)

Lemma weights_of_array (e : pyarray) :
  exists a b c,
    np_true_divide (FArr (Scalar (of_int 1))) (real e) = Ok a
    /\ np_true_divide (CArr (Scalar imag_unit)) (imag e) = Ok b
    /\ np_add a b = Ok c
    /\ c = weights_of e.
Proof.
  destruct e as [x|x]; cbn [real imag weights_of];
    unfold np_true_divide, np_add, ufunc; cbn [as_complex];
    rewrite !broadcast_scalar_l; cbn [res_map];
    eexists _, _, _; (split; [reflexivity|]); (split; [reflexivity|]);
    cbn [as_complex]; rewrite !nd_map_map.
  - rewrite <- (nd_map_map (fun _ => of_int 0) (fun z => cdiv imag_unit (of_real z))).
    change (nd_map (fun a => of_real (fdiv (of_int 1) a)) x)
      with (nd_map (fun a => (fun z => of_real (fdiv (of_int 1) z)) a) x).
    rewrite nd_map_map.
    rewrite (broadcast_map_map cadd (fun a => of_real (fdiv (of_int 1) a))
               (fun _ => cdiv imag_unit (of_real (of_int 0))) x).
    split; reflexivity.
  - rewrite (broadcast_map_map cadd (fun z => of_real (fdiv (of_int 1) (re z)))
               (fun z => cdiv imag_unit (of_real (im z))) x).
    split; reflexivity.
Qed.

Lemma weights_run (s : state) (v : pyobject) :
  dict (self s) !! "errors" = Some v ->
  weights s =
  match v with
  | PyNone => (Ok PyNone, s)
  | PyArray e => (Ok (PyArray (weights_of e)), s)
  | _ => weights s
  end.
Proof.
  intros He. destruct v as [|e| | | | |]; try reflexivity.
  - apply property_ok. unfold weights_getter. py_simpl.
    by rewrite (instance_attr_found _ _ _ He).
  - apply property_ok. unfold weights_getter. py_simpl.
    destruct (weights_of_array e) as (a & b & c & Ha & Hb & Hc & Hw).
    unfold py_int, py_1j, of_float.
    repeat (rewrite (instance_attr_found _ _ _ He);
            cbv beta iota delta [dot_real dot_imag ret]).
    rewrite Ha.
    repeat (rewrite (instance_attr_found _ _ _ He);
            cbv beta iota delta [dot_real dot_imag ret]).
    rewrite Hb, Hc, Hw. reflexivity.
Qed.

(** ** The fit *)

Lemma fit_run (s s1 : state) (f d : pyarray) (e : option pyarray) (m : CompositeModel)
    (P : option Params) (kw : fit_kwds) (rg : res Params) :
  dict (self s) !! "frequency" = Some (PyArray f) ->
  dict (self s) !! "data" = Some (PyArray d) ->
  dict (self s) !! "errors" = Some (optional e) ->
  dict (self s) !! "model" = Some (PyModel m) ->
  dict (self s) !! "guess" = None ->
  guess f d s = (rg, s1) ->
  fit P kw s =
  match rg with
  | Raise ex => (Raise ex, s1)
  | Ok g =>
      let ip := match P with Some p => update g p | None => g end in
      let w := option_map weights_of e in
      match model_fit m f d w ip kw with
      | Raise ex => (Raise ex, logged s1 [ModelFit f d w ip kw])
      | Ok r =>
          (Ok tt,
           {| self := {| class_name := class_name (self s);
                         dict := <["result" := PyModelResult r]> (dict (self s)) |};
              calls := calls s1 ++ [ModelFit f d w ip kw] |})
      end
  end.
Proof.
  intros Hf Hd He Hm Hsh Hg.
  destruct (read_only_run _ _ _ _ (read_only_guess f d) Hg) as [es ->].
  unfold fit. py_simpl.
  rewrite (self_method_run _ _ Hsh). cbv beta iota.
  rewrite (instance_attr_found _ _ _ Hf). cbv beta iota.
  rewrite (instance_attr_found _ _ _ Hd). cbv beta iota.
  rewrite Hg. destruct rg as [g|ex]; [|reflexivity].
  rewrite (instance_attr_found (logged s es) _ _ Hm). cbv beta iota.
  rewrite (instance_attr_found (logged s es) _ _ Hf). cbv beta iota.
  rewrite (instance_attr_found (logged s es) _ _ Hd). cbv beta iota.
  rewrite (weights_run (logged s es) _ He).
  destruct e as [a|]; cbn [optional option_map]; cbv beta iota; rewrite call_run;
    (match goal with |- context [model_fit ?a ?b ?c ?w ?i ?k] =>
       destruct (model_fit a b c w i k) as [r|ex] end); reflexivity.
Qed.

(** C7.  On a fitter (whose [guess] method is not shadowed by an entry of
    its [__dict__]) [fit(params=P)] takes its initial parameters from
    [guess] on the stored frequency and data; a supplied [P] is written over the guess, so
    that every entry of [P] (value, bounds and all) replaces the guessed
    entry of the same name; the optimizer is called once, on the stored
    model, frequency and data, the weights and these parameters; the result
    it returns becomes [self.result], nothing else of the instance changes,
    and when it raises instead the instance is left as it was, the earlier
    result included. *)
Theorem fit_replaces_result (s s1 : state) (f d : pyarray) (e : option pyarray)
    (m : CompositeModel) (P : option Params) (kw : fit_kwds) (g : Params) :
  dict (self s) !! "frequency" = Some (PyArray f) ->
  dict (self s) !! "data" = Some (PyArray d) ->
  dict (self s) !! "errors" = Some (optional e) ->
  dict (self s) !! "model" = Some (PyModel m) ->
  dict (self s) !! "guess" = None ->
  run (guess f d) s = (Ok g, s1) ->
  let ip := match P with Some p => update g p | None => g end in
  let w := option_map weights_of e in
  (forall k, ip !! k =
             match P with
             | Some p => match p !! k with Some v => Some v | None => g !! k end
             | None => g !! k
             end)
  /\ (forall r, model_fit m f d w ip kw = Ok r ->
        run (fit P kw) s =
        (Ok tt,
         {| self := {| class_name := class_name (self s);
                       dict := <["result" := PyModelResult r]> (dict (self s)) |};
            calls := calls s1 ++ [ModelFit f d w ip kw] |}))
  /\ (forall ex, model_fit m f d w ip kw = Raise ex ->
        run (fit P kw) s = (Raise ex, logged s1 [ModelFit f d w ip kw])
        /\ self (logged s1 [ModelFit f d w ip kw]) = self s).
Proof.
  intros Hf Hd He Hm Hsh Hg ip w.
  pose proof (fit_run s s1 f d e m P kw (Ok g) Hf Hd He Hm Hsh Hg) as Hfit.
  subst ip w. cbv beta iota zeta in Hfit.
  split; [|split].
  - intros k. destruct P as [p|]; [apply update_lookup | reflexivity].
  - intros r Hr. unfold run. rewrite Hfit, Hr. reflexivity.
  - intros ex Hr. unfold run. rewrite Hfit, Hr. split; [reflexivity|].
    destruct (read_only_run _ _ _ _ (read_only_guess f d) Hg) as [es ->].
    reflexivity.
Qed.

(** ** Construction *)

(** C5.  When the data are not complex, or errors are given that are not
    complex, [__init__] raises a TypeError at once: the state it returns is
    the state it was given, so no attribute has been stored on the instance
    and no call (no guess, no fit) has been made. *)
Theorem init_rejects_non_complex (frequency data : pyarray) (fg : ResonatorModel)
    (bg : BackgroundModel) (errors : option pyarray) (P : option Params)
    (kw : fit_kwds) (s : state) :
  iscomplexobj data = false
  \/ (exists e, errors = Some e /\ iscomplexobj e = false) ->
  exists msg,
    run (__init__ frequency data fg bg errors P kw) s = (Raise (Exn TypeError msg), s).
Proof.
  intros Hbad. unfold run, __init__.
  destruct (iscomplexobj data) eqn:Hd; cbn [negb].
  - destruct Hbad as [Hbad | (e & -> & He)]; [discriminate|].
    rewrite He. cbn [negb]. by eexists.
  - by eexists.
Qed.

Lemma fitter_dict_frequency f d e m r :
  fitter_dict f d e m r !! "frequency" = Some (PyArray f).
Proof. unfold fitter_dict. by simplify_map_eq. Qed.

Lemma fitter_dict_data f d e m r :
  fitter_dict f d e m r !! "data" = Some (PyArray d).
Proof. unfold fitter_dict. by simplify_map_eq. Qed.

Lemma fitter_dict_errors f d e m r :
  fitter_dict f d e m r !! "errors" = Some (optional e).
Proof. unfold fitter_dict. by simplify_map_eq. Qed.

Lemma fitter_dict_model f d e m r :
  fitter_dict f d e m r !! "model" = Some (PyModel m).
Proof. unfold fitter_dict. by simplify_map_eq. Qed.

Lemma fitter_dict_result f d e m r :
  fitter_dict f d e m r !! "result" = Some r.
Proof. unfold fitter_dict. by simplify_map_eq. Qed.

Lemma fitter_dict_other f d e m r (name : string) :
  name <> "result" -> name <> "model" -> name <> "errors" -> name <> "data" ->
  name <> "frequency" ->
  fitter_dict f d e m r !! name = None.
Proof. intros. unfold fitter_dict. by simplify_map_eq. Qed.

Lemma fitter_dict_guess f d e m r : fitter_dict f d e m r !! "guess" = None.
Proof. by apply fitter_dict_other. Qed.

Lemma fitter_dict_refit f d e m r r' :
  <["result" := r']> (fitter_dict f d e m r) = fitter_dict f d e m r'.
Proof. unfold fitter_dict. apply insert_insert_eq. Qed.

Lemma init_run (frequency data : pyarray) (fg : ResonatorModel) (bg : BackgroundModel)
    (errors : option pyarray) (P : option Params) (kw : fit_kwds) (c : string) :
  iscomplexobj data = true ->
  match errors with Some e => iscomplexobj e | None => true end = true ->
  __init__ frequency data fg bg errors P kw (fresh c) =
  fit P kw {| self := {| class_name := c;
                         dict := fitter_dict frequency data errors (model_mul bg fg) PyNone |};
              calls := [] |}.
Proof.
  intros Hd He. unfold __init__. rewrite Hd. cbn [negb].
  assert (Hfit : forall s, dict (self s) = fitter_dict frequency data errors
                                             (model_mul bg fg) PyNone ->
                           bind (self_method "fit") (fun _ => fit P kw) s = fit P kw s).
  { intros s Hs. unfold bind. rewrite self_method_run; [reflexivity|].
    rewrite Hs. by apply fitter_dict_other. }
  destruct errors as [e|]; [rewrite He|]; cbn [negb];
    unfold bind at 1 2 3 4 5; cbn [setattr]; by rewrite Hfit.
Qed.

Lemma init_complex (frequency data : pyarray) (fg : ResonatorModel) (bg : BackgroundModel)
    (errors : option pyarray) (P : option Params) (kw : fit_kwds) (s s' : state) :
  __init__ frequency data fg bg errors P kw s = (Ok tt, s') ->
  iscomplexobj data = true
  /\ match errors with Some e => iscomplexobj e | None => true end = true.
Proof.
  unfold __init__. intros Hi.
  destruct (iscomplexobj data); cbn [negb] in Hi; [|discriminate].
  split; [reflexivity|].
  destruct errors as [e|]; [|reflexivity].
  destruct (iscomplexobj e); [reflexivity | discriminate].
Qed.

(** What a construction that returns leaves behind. *)
Lemma init_ok (frequency data : pyarray) (fg : ResonatorModel) (bg : BackgroundModel)
    (errors : option pyarray) (P : option Params) (kw : fit_kwds) (c : string)
    (s' : state) :
  __init__ frequency data fg bg errors P kw (fresh c) = (Ok tt, s') ->
  exists r log,
    s' = fitted c frequency data errors (model_mul bg fg) r log.
Proof.
  intros Hi. destruct (init_complex _ _ _ _ _ _ _ _ _ Hi) as [Hd He].
  rewrite (init_run _ _ _ _ _ _ _ _ Hd He) in Hi.
  set (s0 := {| self := {| class_name := c;
                           dict := fitter_dict frequency data errors (model_mul bg fg) PyNone |};
                calls := [] |}) in *.
  destruct (guess frequency data s0) as [rg s1] eqn:Hg.
  rewrite (fit_run s0 s1 frequency data errors (model_mul bg fg) P kw rg
             (fitter_dict_frequency _ _ _ _ _) (fitter_dict_data _ _ _ _ _)
             (fitter_dict_errors _ _ _ _ _) (fitter_dict_model _ _ _ _ _)
             (fitter_dict_guess _ _ _ _ _) Hg) in Hi.
  destruct rg as [g|ex]; [|discriminate]. cbv zeta in Hi.
  match type of Hi with context [model_fit ?a ?b ?x ?w ?i ?k] =>
    destruct (model_fit a b x w i k) as [r|ex] end; [|discriminate].
  injection Hi as <-. eexists r, _. unfold fitted. cbn [self class_name dict s0].
  by rewrite fitter_dict_refit.
Qed.

(** C8, as the code has it.  A construction that returns has stored the very
    arrays it was given, and a result: the data are complex, and so are the
    errors when there are any; their lengths have not been compared by
    [__init__], and nothing is said about them. *)
Theorem init_stores_arguments (frequency data : pyarray) (fg : ResonatorModel)
    (bg : BackgroundModel) (errors : option pyarray) (P : option Params)
    (kw : fit_kwds) (c : string) (s' : state) :
  run (__init__ frequency data fg bg errors P kw) (fresh c) = (Ok tt, s') ->
  iscomplexobj data = true
  /\ match errors with Some e => iscomplexobj e | None => true end = true
  /\ dict (self s') !! "frequency" = Some (PyArray frequency)
  /\ dict (self s') !! "data" = Some (PyArray data)
  /\ dict (self s') !! "errors" = Some (optional errors)
  /\ dict (self s') !! "model" = Some (PyModel (model_mul bg fg))
  /\ exists r, dict (self s') !! "result" = Some (PyModelResult r).
Proof.
  unfold run. intros Hi.
  destruct (init_complex _ _ _ _ _ _ _ _ _ Hi) as [Hd He].
  destruct (init_ok _ _ _ _ _ _ _ _ _ Hi) as (r & log & ->).
  cbn [fitted self dict].
  split; [exact Hd|]. split; [exact He|].
  split; [apply fitter_dict_frequency|]. split; [apply fitter_dict_data|].
  split; [apply fitter_dict_errors|]. split; [apply fitter_dict_model|].
  exists r. apply fitter_dict_result.
Qed.

(** ** Evaluating the model *)

Lemma composite_eval_run (m : CompositeModel) (p : Params) (f : pyarray) (s : state) :
  dot_eval (PyModel m) p f s =
  match bg_eval (left m) p f with
  | Raise e => (Raise e, logged s [BackgroundEval p f])
  | Ok l =>
      match fg_eval (right m) p f with
      | Raise e => (Raise e, logged s [BackgroundEval p f; ForegroundEval p f])
      | Ok r => (np_multiply l r, logged s [BackgroundEval p f; ForegroundEval p f])
      end
  end.
Proof.
  unfold dot_eval. py_simpl. rewrite call_run.
  destruct (bg_eval (left m) p f) as [l|e]; [|reflexivity].
  rewrite call_run, logged_logged.
  destruct (fg_eval (right m) p f) as [r|e]; reflexivity.
Qed.

Lemma model_values_run (s : state) (f : pyarray) (m : CompositeModel) (r : ModelResult)
    (fo : option pyarray) (po : option Params) :
  dict (self s) !! "frequency" = Some (PyArray f) ->
  dict (self s) !! "model" = Some (PyModel m) ->
  dict (self s) !! "result" = Some (PyModelResult r) ->
  model_values fo po s = dot_eval (PyModel m) (default (params r) po) (default f fo) s.
Proof.
  intros Hf Hm Hr. unfold model_values.
  destruct po as [p|], fo as [f'|]; py_simpl;
    rewrite ?(instance_attr_found _ _ _ Hr); cbv beta iota;
    rewrite ?(instance_attr_found _ _ _ Hf); cbv beta iota;
    rewrite (instance_attr_found _ _ _ Hm); reflexivity.
Qed.

(** C10.  On a constructed fitter [model_values()] is the composite model
    evaluated at the stored frequency with the parameters of the stored
    result; a frequency or a parameter set passed explicitly takes the place
    of the stored one; and that evaluation is the background evaluated,
    then the foreground, then their product. *)
Theorem model_values_is_composite_eval (frequency data : pyarray) (fg : ResonatorModel)
    (bg : BackgroundModel) (errors : option pyarray) (P : option Params)
    (kw : fit_kwds) (c : string) (s : state) :
  run (__init__ frequency data fg bg errors P kw) (fresh c) = (Ok tt, s) ->
  exists r,
    dict (self s) !! "result" = Some (PyModelResult r)
    /\ forall (fo : option pyarray) (po : option Params),
         let f := default frequency fo in
         let p := default (params r) po in
         run (model_values fo po) s = run (dot_eval (PyModel (model_mul bg fg)) p f) s
         /\ run (model_values fo po) s =
            match bg_eval bg p f with
            | Raise e => (Raise e, logged s [BackgroundEval p f])
            | Ok l =>
                match fg_eval fg p f with
                | Raise e => (Raise e, logged s [BackgroundEval p f; ForegroundEval p f])
                | Ok v =>
                    (np_multiply l v, logged s [BackgroundEval p f; ForegroundEval p f])
                end
            end.
Proof.
  unfold run. intros Hi.
  destruct (init_ok _ _ _ _ _ _ _ _ _ Hi) as (r & log & ->).
  exists r. split; [apply fitter_dict_result|].
  intros fo po. cbv zeta.
  set (f := default frequency fo). set (p := default (params r) po).
  assert (Hmv : model_values fo po (fitted c frequency data errors (model_mul bg fg) r log) =
                dot_eval (PyModel (model_mul bg fg)) p f
                  (fitted c frequency data errors (model_mul bg fg) r log)).
  { apply model_values_run;
      [apply fitter_dict_frequency | apply fitter_dict_model | apply fitter_dict_result]. }
  split; [exact Hmv|].
  rewrite Hmv. apply composite_eval_run.
Qed.

(** ** Removing the background, inverting *)

Lemma remove_background_run (s : state) (m : CompositeModel) (r : ModelResult)
    (f d : pyarray) :
  dict (self s) !! "model" = Some (PyModel m) ->
  dict (self s) !! "result" = Some (PyModelResult r) ->
  remove_background f d s =
  match bg_eval (left m) (params r) f with
  | Raise e => (Raise e, logged s [BackgroundEval (params r) f])
  | Ok b => (np_true_divide d b, logged s [BackgroundEval (params r) f])
  end.
Proof.
  intros Hm Hr. unfold remove_background. py_simpl.
  rewrite (background_model_run _ _ Hm), (instance_attr_found _ _ _ Hr).
  cbv beta iota. rewrite call_run.
  destruct (bg_eval (left m) (params r) f) as [b|e]; [|reflexivity].
  destruct (np_true_divide d b); reflexivity.
Qed.

Lemma read_only_remove_background (f d : pyarray) : read_only (remove_background f d).
Proof. unfold remove_background, py_truediv. read_only_steps. Qed.

(** C9.  [invert] raises NotImplementedError whatever the fitter, its
    foreground model and the data are, and leaves the fitter untouched;
    [remove_background_and_invert], which ends in it, never returns a
    value. *)
Theorem invert_not_implemented (s : state) (scattering_data : pyarray) :
  run (invert scattering_data) s =
    (Raise (Exn NotImplementedError
              "Subclasses should implement this using their scattering parameter model."),
     s)
  /\ forall raw f, exists e s',
       run (remove_background_and_invert raw f) s = (Raise e, s')
       /\ self s' = self s.
Proof.
  split; [reflexivity|].
  intros raw f. unfold run, remove_background_and_invert, bind.
  destruct (self_method "invert" s) as [[[]|e] s1] eqn:Hi;
    destruct (read_only_run _ _ _ _ (read_only_self_method _) Hi) as [es1 ->];
    [|by eexists _, _].
  destruct (self_method "remove_background" (logged s es1)) as [[[]|e] s2] eqn:Hr;
    destruct (read_only_run _ _ _ _ (read_only_self_method _) Hr) as [es2 ->];
    [|by eexists _, _].
  destruct (remove_background f raw (logged (logged s es1) es2)) as [[x|e] s3] eqn:Hrb;
    destruct (read_only_run _ _ _ _ (read_only_remove_background f raw) Hrb) as [es3 ->];
    by eexists _, _.
Qed.

(** ** The fallback lookup *)

Lemma length_append (a b : string) :
  String.length (a ++ b) = String.length a + String.length b.
Proof. induction a as [|x a IH]; simpl; [reflexivity | by f_equal]. Qed.

Lemma substring_all (b : string) : substring 0 (String.length b) b = b.
Proof. induction b as [|x b IH]; simpl; [reflexivity | by f_equal]. Qed.

Lemma substring_prefix (a b : string) : substring 0 (String.length a) (a ++ b) = a.
Proof. induction a as [|x a IH]; simpl; [by destruct b | by f_equal]. Qed.

Lemma substring_suffix (a b : string) :
  substring (String.length a) (String.length b) (a ++ b) = b.
Proof. induction a as [|x a IH]; simpl; [apply substring_all | exact IH]. Qed.

Lemma endswith_append (a b : string) : endswith (a ++ b) b = true.
Proof.
  unfold endswith. rewrite length_append.
  replace (String.length b <=? String.length a + String.length b)%nat with true
    by (symmetry; apply Nat.leb_le; lia).
  replace (String.length a + String.length b - String.length b) with (String.length a)
    by lia.
  rewrite substring_suffix. apply String.eqb_refl.
Qed.

Lemma drop_last_append (a b : string) : drop_last (String.length b) (a ++ b) = a.
Proof.
  unfold drop_last. rewrite length_append.
  replace (String.length a + String.length b - String.length b) with (String.length a)
    by lia.
  apply substring_prefix.
Qed.

Lemma getattr___run (s : state) (r : ModelResult) (attr : string) :
  dict (self s) !! "result" = Some (PyModelResult r) ->
  __getattr__ attr s =
  (if endswith attr "_error" then
     match params r !! drop_last (String.length "_error") attr with
     | Some p => Ok (stderr_object p)
     | None =>
         Raise (Exn AttributeError
                  ("Couldn't find error for "
                   ++ drop_last (String.length "_error") attr ++ " in self.result"))
     end
   else
     match params r !! attr with
     | Some p => Ok (of_float (value p))
     | None =>
         Raise (Exn AttributeError
                  ("'" ++ class_name (self s) ++ "' object has no attribute '"
                   ++ attr ++ "'"))
     end,
   s).
Proof.
  intros Hr. unfold __getattr__.
  destruct (endswith attr "_error");
    unfold try_except, self_result, getitem; py_simpl; unfold get_self;
    rewrite Hr; cbv beta iota.
  - destruct (params r !! drop_last (String.length "_error") attr); reflexivity.
  - destruct (params r !! attr); reflexivity.
Qed.

Lemma explicit_false (o : obj) (name : string) :
  explicit o name = false ->
  assoc name properties = None /\ dict o !! name = None
  /\ existsb (String.eqb name) methods = false.
Proof.
  unfold explicit. intros He.
  destruct (assoc name properties); [discriminate|].
  destruct (dict o !! name); [discriminate|]. by repeat split.
Qed.

Lemma getattr_fallback (s : state) (name : string) :
  explicit (self s) name = false -> getattr name s = __getattr__ name s.
Proof.
  intros He. destruct (explicit_false _ _ He) as (Hp & Hd & Hm).
  unfold getattr. rewrite Hp. unfold bind, get_self. by rewrite Hd, Hm.
Qed.

(** C6, as the code has it.  On a fitter with a stored result, for a name
    that normal lookup does not find: a name [p] that does not itself end
    in [_error] reads as the best-fit value of the parameter [p], and fails
    with an AttributeError when there is no such parameter; [p + "_error"]
    reads as the [stderr] field of the parameter [p], which is [None] when
    no standard error was computed, and fails with an AttributeError when
    there is no parameter [p]. *)
Theorem attribute_fallback (s : state) (r : ModelResult) (p : string) :
  dict (self s) !! "result" = Some (PyModelResult r) ->
  (explicit (self s) p = false -> endswith p "_error" = false ->
   run (getattr p) s =
   (match params r !! p with
    | Some x => Ok (of_float (value x))
    | None =>
        Raise (Exn AttributeError
                 ("'" ++ class_name (self s) ++ "' object has no attribute '" ++ p ++ "'"))
    end, s))
  /\ (explicit (self s) (p ++ "_error") = false ->
      run (getattr (p ++ "_error")) s =
      (match params r !! p with
       | Some x => Ok (match stderr x with Some e => of_float e | None => PyNone end)
       | None =>
           Raise (Exn AttributeError ("Couldn't find error for " ++ p ++ " in self.result"))
       end, s)).
Proof.
  intros Hr. split.
  - intros He Hs. unfold run.
    rewrite (getattr_fallback _ _ He), (getattr___run _ _ _ Hr), Hs. reflexivity.
  - intros He. unfold run.
    rewrite (getattr_fallback _ _ He), (getattr___run _ _ _ Hr).
    rewrite endswith_append, drop_last_append. reflexivity.
Qed.

(** ** Derived quantities *)

Section Derived.

Variables (c : string) (frequency data : pyarray) (errors : option pyarray)
  (m : CompositeModel) (r : ModelResult) (log : list event).

Let s : state := fitted c frequency data errors m r log.

Lemma param_attr (name : string) (p : Param) :
  fitter_dict frequency data errors m (PyModelResult r) !! name = None ->
  endswith name "_error" = false ->
  params r !! name = Some p ->
  instance_attr name s = (Ok (of_float (value p)), s).
Proof.
  intros Hd He Hp. rewrite (instance_attr_missing s name Hd).
  rewrite (getattr___run s r name (fitter_dict_result _ _ _ _ _)), He, Hp.
  reflexivity.
Qed.

Lemma error_attr (name : string) (p : Param) (e : pyfloat) :
  fitter_dict frequency data errors m (PyModelResult r) !! (name ++ "_error") = None ->
  params r !! name = Some p ->
  stderr p = Some e ->
  instance_attr (name ++ "_error") s = (Ok (of_float e), s).
Proof.
  intros Hd Hp He. rewrite (instance_attr_missing s _ Hd).
  rewrite (getattr___run s r _ (fitter_dict_result _ _ _ _ _)).
  rewrite endswith_append, drop_last_append, Hp. unfold stderr_object.
  by rewrite He.
Qed.

Variables (pf pc pi_ : Param) (sf sc si : pyfloat).
Hypothesis Hf : params r !! "resonance_frequency" = Some pf.
Hypothesis Hc : params r !! "coupling_loss" = Some pc.
Hypothesis Hi : params r !! "internal_loss" = Some pi_.
Hypothesis Hsf : stderr pf = Some sf.
Hypothesis Hsc : stderr pc = Some sc.
Hypothesis Hsi : stderr pi_ = Some si.

Lemma attr_resonance_frequency :
  instance_attr "resonance_frequency" s = (Ok (of_float (value pf)), s).
Proof. apply param_attr; [by apply fitter_dict_other | reflexivity | exact Hf]. Qed.

Lemma attr_coupling_loss :
  instance_attr "coupling_loss" s = (Ok (of_float (value pc)), s).
Proof. apply param_attr; [by apply fitter_dict_other | reflexivity | exact Hc]. Qed.

Lemma attr_internal_loss :
  instance_attr "internal_loss" s = (Ok (of_float (value pi_)), s).
Proof. apply param_attr; [by apply fitter_dict_other | reflexivity | exact Hi]. Qed.

Lemma attr_resonance_frequency_error :
  instance_attr "resonance_frequency_error" s = (Ok (of_float sf), s).
Proof.
  apply (error_attr "resonance_frequency" pf sf);
    [by apply fitter_dict_other | exact Hf | exact Hsf].
Qed.

Lemma attr_coupling_loss_error :
  instance_attr "coupling_loss_error" s = (Ok (of_float sc), s).
Proof.
  apply (error_attr "coupling_loss" pc sc);
    [by apply fitter_dict_other | exact Hc | exact Hsc].
Qed.

Lemma attr_internal_loss_error :
  instance_attr "internal_loss_error" s = (Ok (of_float si), s).
Proof.
  apply (error_attr "internal_loss" pi_ si);
    [by apply fitter_dict_other | exact Hi | exact Hsi].
Qed.

(** Run a getter whose attribute reads are all known. *)
Ltac derive :=
  apply property_ok; py_simpl;
  repeat (rewrite ?attr_resonance_frequency, ?attr_coupling_loss, ?attr_internal_loss,
            ?attr_resonance_frequency_error, ?attr_coupling_loss_error,
            ?attr_internal_loss_error;
          cbv beta iota delta [py_int py_pi of_float np_multiply np_add np_true_divide
                                 np_power ufunc broadcast res_map]);
  reflexivity.

Lemma omega_r_run : omega_r s = (Ok (of_float (table_omega (value pf))), s).
Proof. derive. Qed.

Lemma omega_r_error_run : omega_r_error s = (Ok (of_float (table_omega sf)), s).
Proof. derive. Qed.

Lemma total_loss_run :
  total_loss s = (Ok (of_float (fadd (value pi_) (value pc))), s).
Proof. derive. Qed.

Lemma total_loss_error_run :
  total_loss_error s = (Ok (of_float (table_sum_error si sc)), s).
Proof. derive. Qed.

Lemma coupling_quality_factor_run :
  coupling_quality_factor s = (Ok (of_float (table_Q (value pc))), s).
Proof. derive. Qed.

Lemma coupling_quality_factor_error_run :
  coupling_quality_factor_error s = (Ok (of_float (table_Q_error sc (value pc))), s).
Proof. derive. Qed.

Lemma internal_quality_factor_run :
  internal_quality_factor s = (Ok (of_float (table_Q (value pi_))), s).
Proof. derive. Qed.

Lemma internal_quality_factor_error_run :
  internal_quality_factor_error s = (Ok (of_float (table_Q_error si (value pi_))), s).
Proof. derive. Qed.

Lemma total_quality_factor_run :
  total_quality_factor s = (Ok (of_float (table_Q (fadd (value pi_) (value pc)))), s).
Proof. derive. Qed.

(** The same, for a getter that reads other properties. *)
Ltac derive_from_properties :=
  apply property_ok; py_simpl;
  repeat (rewrite ?attr_resonance_frequency, ?attr_coupling_loss, ?attr_internal_loss,
            ?attr_resonance_frequency_error, ?attr_coupling_loss_error,
            ?attr_internal_loss_error, ?omega_r_run, ?total_loss_run,
            ?total_loss_error_run;
          cbv beta iota delta [py_int py_pi of_float np_multiply np_add np_true_divide
                                 np_power ufunc broadcast res_map]);
  reflexivity.

Lemma total_quality_factor_error_run :
  total_quality_factor_error s =
  (Ok (of_float (table_Q_error (table_sum_error si sc) (fadd (value pi_) (value pc)))), s).
Proof. derive_from_properties. Qed.

Lemma coupling_energy_decay_rate_run :
  coupling_energy_decay_rate s = (Ok (of_float (table_rate (value pf) (value pc))), s).
Proof. derive_from_properties. Qed.

Lemma internal_energy_decay_rate_run :
  internal_energy_decay_rate s = (Ok (of_float (table_rate (value pf) (value pi_))), s).
Proof. derive_from_properties. Qed.

Lemma total_energy_decay_rate_run :
  total_energy_decay_rate s =
  (Ok (of_float (table_rate (value pf) (fadd (value pi_) (value pc)))), s).
Proof. derive_from_properties. Qed.

Ltac derive_rate_error :=
  apply property_ok; py_simpl;
  repeat (rewrite ?attr_resonance_frequency, ?attr_coupling_loss, ?attr_internal_loss,
            ?attr_resonance_frequency_error, ?attr_coupling_loss_error,
            ?attr_internal_loss_error, ?total_loss_run, ?total_loss_error_run,
            ?coupling_energy_decay_rate_run, ?internal_energy_decay_rate_run,
            ?total_energy_decay_rate_run;
          cbv beta iota delta [py_int py_pi of_float np_multiply np_add np_true_divide
                                 np_power ufunc broadcast res_map]);
  reflexivity.

Lemma coupling_energy_decay_rate_error_run :
  coupling_energy_decay_rate_error s =
  (Ok (of_float (table_rate_error (value pf) sf (value pc) sc)), s).
Proof. derive_rate_error. Qed.

Lemma internal_energy_decay_rate_error_run :
  internal_energy_decay_rate_error s =
  (Ok (of_float (table_rate_error (value pf) sf (value pi_) si)), s).
Proof. derive_rate_error. Qed.

Lemma total_energy_decay_rate_error_run :
  total_energy_decay_rate_error s =
  (Ok (of_float (table_rate_error (value pf) sf (fadd (value pi_) (value pc))
                   (table_sum_error si sc))), s).
Proof. derive_rate_error. Qed.

End Derived.

(** C3.  On a fitter whose result has the parameters [resonance_frequency],
    [coupling_loss] and [internal_loss], each with a standard error, every
    derived quantity returns the value of its row of the table, computed
    from those six numbers alone, and leaves the fitter as it was. *)
Theorem derived_quantities_follow_table (c : string) (frequency data : pyarray)
    (errors : option pyarray) (m : CompositeModel) (r : ModelResult) (log : list event)
    (pf pc pi_ : Param) (sf sc si : pyfloat) :
  params r !! "resonance_frequency" = Some pf ->
  params r !! "coupling_loss" = Some pc ->
  params r !! "internal_loss" = Some pi_ ->
  stderr pf = Some sf -> stderr pc = Some sc -> stderr pi_ = Some si ->
  let s := fitted c frequency data errors m r log in
  let f_r := value pf in
  let coupling := value pc in
  let internal := value pi_ in
  let total := fadd internal coupling in
  let total_error := table_sum_error si sc in
  run omega_r s = (Ok (of_float (table_omega f_r)), s)
  /\ run omega_r_error s = (Ok (of_float (table_omega sf)), s)
  /\ run total_loss s = (Ok (of_float total), s)
  /\ run total_loss_error s = (Ok (of_float total_error), s)
  /\ run coupling_quality_factor s = (Ok (of_float (table_Q coupling)), s)
  /\ run coupling_quality_factor_error s = (Ok (of_float (table_Q_error sc coupling)), s)
  /\ run internal_quality_factor s = (Ok (of_float (table_Q internal)), s)
  /\ run internal_quality_factor_error s = (Ok (of_float (table_Q_error si internal)), s)
  /\ run total_quality_factor s = (Ok (of_float (table_Q total)), s)
  /\ run total_quality_factor_error s =
       (Ok (of_float (table_Q_error total_error total)), s)
  /\ run coupling_energy_decay_rate s = (Ok (of_float (table_rate f_r coupling)), s)
  /\ run coupling_energy_decay_rate_error s =
       (Ok (of_float (table_rate_error f_r sf coupling sc)), s)
  /\ run internal_energy_decay_rate s = (Ok (of_float (table_rate f_r internal)), s)
  /\ run internal_energy_decay_rate_error s =
       (Ok (of_float (table_rate_error f_r sf internal si)), s)
  /\ run total_energy_decay_rate s = (Ok (of_float (table_rate f_r total)), s)
  /\ run total_energy_decay_rate_error s =
       (Ok (of_float (table_rate_error f_r sf total total_error)), s).
Proof.
  intros Hf Hc Hi Hsf Hsc Hsi. cbv zeta. unfold run.
  repeat apply conj.
  - eapply omega_r_run; eassumption.
  - eapply omega_r_error_run; eassumption.
  - eapply total_loss_run; eassumption.
  - eapply total_loss_error_run; eassumption.
  - eapply coupling_quality_factor_run; eassumption.
  - eapply coupling_quality_factor_error_run; eassumption.
  - eapply internal_quality_factor_run; eassumption.
  - eapply internal_quality_factor_error_run; eassumption.
  - eapply total_quality_factor_run; eassumption.
  - eapply total_quality_factor_error_run; eassumption.
  - eapply coupling_energy_decay_rate_run; eassumption.
  - eapply coupling_energy_decay_rate_error_run; eassumption.
  - eapply internal_energy_decay_rate_run; eassumption.
  - eapply internal_energy_decay_rate_error_run; eassumption.
  - eapply total_energy_decay_rate_run; eassumption.
  - eapply total_energy_decay_rate_error_run; eassumption.
Qed.

End Properties.

(** ** Exact arithmetic: division undoes multiplication *)

Ltac as_real :=
  match goal with |- @eq _ ?a ?b => change (@eq R a b) end.

Lemma exact_cdiv_cmul (b x : @pycomplex exact) :
  b <> @Cx exact 0%R 0%R -> cdiv (cmul b x) b = x.
Proof.
  destruct b as [c d], x as [p q]. intros Hb.
  assert (Hcd : c <> 0%R \/ d <> 0%R).
  { destruct (Req_dec_T c 0) as [->|Hc]; [|by left].
    destruct (Req_dec_T d 0) as [->|Hd]; [|by right]. by destruct Hb. }
  assert (Hsq : (c * c + d * d)%R <> 0%R) by (destruct Hcd; nra).
  unfold cdiv, cmul. cbn [re im fabs fge feq fdiv fmul fadd fsub of_int exact].
  unfold exact_ge, exact_eq.
  destruct (Rle_dec (Rabs d) (Rabs c)) as [Hle|Hgt].
  - assert (Hc : c <> 0%R).
    { intros ->. rewrite Rabs_R0 in Hle.
      destruct Hcd as [Hc|Hd]; [by apply Hc|].
      pose proof (Rabs_no_R0 d Hd). pose proof (Rabs_pos d). lra. }
    destruct (Req_dec_T (Rabs c) 0) as [H0|_].
    { exfalso. by apply (Rabs_no_R0 c Hc). }
    cbn [andb].
    f_equal; as_real; field; (split; [assumption | intros Hz; apply Hsq; lra]).
  - assert (Hd : d <> 0%R).
    { intros ->. apply Hgt. rewrite Rabs_R0. apply Rabs_pos. }
    f_equal; as_real; field; (split; [assumption | intros Hz; apply Hsq; lra]).
Qed.

Lemma zip_with_round_trip {A B C} (mul : A -> B -> C) (div : C -> A -> B)
    (l1 : list A) (l2 : list B) :
  length l1 = length l2 ->
  zip_with mul l1 l2 = map (fun bw => mul (fst bw) (snd bw)) (zip_with pair l1 l2)
  /\ zip_with div (zip_with mul l1 l2) l1
     = map (fun bw => div (mul (fst bw) (snd bw)) (fst bw)) (zip_with pair l1 l2)
  /\ map snd (zip_with pair l1 l2) = l2
  /\ forall P : A -> Prop,
       Forall P l1 -> Forall (fun bw => P (fst bw)) (zip_with pair l1 l2).
Proof.
  revert l2. induction l1 as [|a l1 IH]; intros [|w l2] Hlen; try discriminate.
  - split; [reflexivity|]. split; [reflexivity|]. split; [reflexivity|].
    intros P _. constructor.
  - injection Hlen as Hlen. destruct (IH l2 Hlen) as (Hmul & Hdiv & Hsnd & HP).
    cbn. split; [by rewrite Hmul|]. split; [by rewrite Hdiv|]. split; [by rewrite Hsnd|].
    intros P Hall. apply Forall_cons in Hall as [Ha Hall].
    constructor; [exact Ha | by apply HP].
Qed.

(** One value of the left operand against a list. *)
Lemma map_round_trip_l {A B C} (mul : A -> B -> C) (div : C -> A -> B) (a : A)
    (l : list B) :
  map (mul a) l = map (fun bw => mul (fst bw) (snd bw)) (map (pair a) l)
  /\ map (fun c => div c a) (map (mul a) l)
     = map (fun bw => div (mul (fst bw) (snd bw)) (fst bw)) (map (pair a) l)
  /\ map snd (map (pair a) l) = l
  /\ forall P : A -> Prop, P a -> Forall (fun bw => P (fst bw)) (map (pair a) l).
Proof.
  induction l as [|w l (Hmul & Hdiv & Hsnd & HP)].
  - split; [reflexivity|]. split; [reflexivity|]. split; [reflexivity|].
    intros P _. constructor.
  - cbn. split; [by rewrite Hmul|]. split; [by rewrite Hdiv|]. split; [by rewrite Hsnd|].
    intros P Ha. constructor; [exact Ha | by apply HP].
Qed.

(** A list against one value of the right operand. *)
Lemma map_round_trip_r {A B C} (mul : A -> B -> C) (div : C -> A -> B) (l : list A)
    (w : B) :
  map (fun a => mul a w) l
  = map (fun bw => mul (fst bw) (snd bw)) (map (fun a => (a, w)) l)
  /\ zip_with div (map (fun a => mul a w) l) l
     = map (fun bw => div (mul (fst bw) (snd bw)) (fst bw)) (map (fun a => (a, w)) l)
  /\ forall P : A -> Prop,
       Forall P l -> Forall (fun bw => P (fst bw)) (map (fun a => (a, w)) l).
Proof.
  induction l as [|a l (Hmul & Hdiv & HP)].
  - split; [reflexivity|]. split; [reflexivity|]. intros P _. constructor.
  - cbn. split; [by rewrite Hmul|]. split; [by rewrite Hdiv|].
    intros P Hall. apply Forall_cons in Hall as [Ha Hall].
    constructor; [exact Ha | by apply HP].
Qed.

(** Multiplying [x] by [b], then dividing by [b], over the pairs [p] that
    broadcasting forms from [b] and [x]: the product, the quotient, where
    the left components come from, and the shape when [b] stretches to
    [x]. *)
Lemma broadcast_round_trip {A B C} (mul : A -> B -> C) (div : C -> A -> B) (b : nd A)
    (x : nd B) (p : nd (A * B)) :
  broadcast pair b x = Ok p ->
  broadcast mul b x = Ok (nd_map (fun bw => mul (fst bw) (snd bw)) p)
  /\ broadcast div (nd_map (fun bw => mul (fst bw) (snd bw)) p) b
     = Ok (nd_map (fun bw => div (mul (fst bw) (snd bw)) (fst bw)) p)
  /\ (forall P : A -> Prop, nd_all P b -> nd_all (fun bw => P (fst bw)) p)
  /\ (broadcasts_to b x -> nd_map snd p = x).
Proof.
  destruct b as [a|l1], x as [w|l2]; cbn [broadcast].
  - intros Hp; injection Hp as <-. split; [reflexivity|]. split; [reflexivity|].
    split; [by intros P Ha | reflexivity].
  - intros Hp; injection Hp as <-. destruct (map_round_trip_l mul div a l2) as (Hmul & Hdiv & Hsnd & HP).
    cbn [nd_map broadcast nd_all]. rewrite <- Hmul, <- Hdiv, Hsnd.
    split; [reflexivity|]. split; [reflexivity|]. split; [exact HP | reflexivity].
  - intros Hp; injection Hp as <-. destruct (map_round_trip_r mul div l1 w) as (Hmul & Hdiv & HP).
    cbn [nd_map broadcast nd_all broadcasts_to]. rewrite <- Hmul, <- Hdiv.
    rewrite length_map, Nat.eqb_refl.
    split; [reflexivity|]. split; [reflexivity|]. split; [exact HP | contradiction].
  - destruct (Nat.eqb_spec (length l1) (length l2)) as [Heq|Hne].
    + intros Hp; injection Hp as <-.
      destruct (zip_with_round_trip mul div l1 l2 Heq) as (Hmul & Hdiv & Hsnd & HP).
      cbn [nd_map broadcast nd_all]. rewrite <- Hmul, <- Hdiv, Hsnd.
      rewrite length_zip_with, <- Heq, Nat.min_id, Nat.eqb_refl.
      split; [reflexivity|]. split; [reflexivity|]. split; [exact HP | reflexivity].
    + destruct l1 as [|a [|a' l1]].
      * destruct l2 as [|w [|w' l2]]; [by destruct Hne | | discriminate].
        intros Hp; injection Hp as <-. cbn. split; [reflexivity|]. split; [reflexivity|].
        split; [by intros P _|]. by intros [Hl|Hl].
      * intros Hp; injection Hp as <-.
        destruct (map_round_trip_l mul div a l2) as (Hmul & Hdiv & Hsnd & HP).
        cbn [nd_map broadcast nd_all broadcasts_to]. rewrite <- Hmul, <- Hdiv, Hsnd.
        rewrite length_map.
        assert (Hb : Nat.eqb (length l2) (length [a]) = false).
        { apply Nat.eqb_neq. intros Hl. by apply Hne. }
        rewrite Hb. split; [reflexivity|]. split.
        { destruct l2 as [|w [|w' l2]]; [reflexivity | by destruct Hne | reflexivity]. }
        split; [|reflexivity].
        intros P HPa. apply Forall_cons in HPa as [Ha _]. by apply HP.
      * destruct l2 as [|w [|w' l2]]; [discriminate | | discriminate].
        intros Hp.
        assert (Hp' : p = Array1 (map (fun a0 => (a0, w)) (a :: a' :: l1)))
          by (injection Hp as <-; reflexivity).
        clear Hp. subst p.
        destruct (map_round_trip_r mul div (a :: a' :: l1) w) as (Hmul & Hdiv & HP).
        cbv beta iota delta [nd_map]. rewrite <- Hmul, <- Hdiv.
        split; [reflexivity|]. split.
        { cbv beta iota delta [broadcast]. by rewrite length_map, Nat.eqb_refl. }
        split; [exact HP|].
        intros [Hl|Hl]; discriminate.
Qed.

(** Whether two arrays broadcast does not depend on the operation. *)
Lemma broadcast_raise {A B C D} (op : A -> B -> C) (op' : A -> B -> D) (b : nd A)
    (x : nd B) (e : exn) :
  broadcast op b x = Raise e -> broadcast op' b x = Raise e.
Proof.
  destruct b as [a|l1], x as [w|l2]; cbn [broadcast]; try discriminate.
  destruct (Nat.eqb (length l1) (length l2)); [discriminate|].
  destruct l1 as [|a [|a' l1]], l2 as [|w [|w' l2]]; try discriminate; by intros [= <-].
Qed.

Lemma nd_forall2_map {A B C} (R : B -> C -> Prop) (g : A -> B) (h : A -> C) (p : nd A) :
  nd_all (fun a => R (g a) (h a)) p -> nd_forall2 R (nd_map g p) (nd_map h p).
Proof.
  destruct p as [a|l]; cbn; [done|].
  induction 1; cbn; constructor; assumption.
Qed.

Lemma nd_map_ext_all {A B} (g h : A -> B) (p : nd A) :
  nd_all (fun a => g a = h a) p -> nd_map g p = nd_map h p.
Proof.
  destruct p as [a|l]; cbn; [by intros ->|].
  intros Hall. f_equal. induction Hall as [|a l Ha _ IH]; cbn; [done|]. by rewrite Ha, IH.
Qed.

Lemma nd_all_impl {A} (P Q : A -> Prop) (p : nd A) :
  (forall a, P a -> Q a) -> nd_all P p -> nd_all Q p.
Proof.
  intros HPQ. destruct p as [a|l]; cbn; [apply HPQ|].
  intros Hall. eapply Forall_impl; [exact Hall | exact HPQ].
Qed.

(** [remove_background] on the product of the background and [x], in any
    arithmetic. *)
Lemma remove_background_round_trip {F : PyFloat} {O : Optimizer} (s : state)
    (m : CompositeModel) (r : ModelResult) (f bgv : pyarray) (x : nd pycomplex)
    (p : nd (pycomplex * pycomplex)) :
  dict (self s) !! "model" = Some (PyModel m) ->
  dict (self s) !! "result" = Some (PyModelResult r) ->
  bg_eval (left m) (params r) f = Ok bgv ->
  broadcast pair (as_complex bgv) x = Ok p ->
  exists y,
    np_multiply bgv (CArr x) = Ok y
    /\ run (remove_background f y) s =
       (Ok (CArr (nd_map (fun bw => round_trip (fst bw) (snd bw)) p)),
        logged s [BackgroundEval (params r) f]).
Proof.
  intros Hm Hr Hbg Hp.
  destruct (broadcast_round_trip cmul cdiv (as_complex bgv) x p Hp) as (Hy & Hdiv & _).
  exists (CArr (nd_map (fun bw => cmul (fst bw) (snd bw)) p)). split.
  { unfold np_multiply, ufunc. destruct bgv; cbn [as_complex] in *; by rewrite Hy. }
  unfold run. rewrite (remove_background_run s m r f _ Hm Hr), Hbg.
  unfold np_true_divide, ufunc. cbn [as_complex].
  destruct bgv; cbn [as_complex] in *; by rewrite Hdiv.
Qed.

(** C4, as the code has it.  On a fitter with a stored result, for the
    background [bg] evaluated at [f] with the best-fit parameters and a
    complex [x]: when [bg] and [x] do not broadcast, the product [bg * x]
    raises; when they do, [remove_background] at [f] on that product
    evaluates the background once more and returns the points
    [(b * w) / b], one for each pair of a background value [b] and a point
    [w] of [x] that broadcasting forms, in the shape of [x] when [bg]
    stretches to it (a scalar background against any [x], an array against
    an array of its length, an array of length one against any array).  So,
    in any arithmetic, the result is as close to [x] as the division by [b]
    undoes the multiplication by [b], pair by pair.  In exact arithmetic it
    undoes it wherever [b] is not zero: for a background that is nowhere
    zero the result is [x]. *)
Theorem remove_background_undoes_background :
  (forall (F : PyFloat) (O : Optimizer) (s : state) (m : CompositeModel)
          (r : ModelResult) (f bgv : pyarray) (x : nd pycomplex)
          (p : nd (pycomplex * pycomplex)),
     dict (self s) !! "model" = Some (PyModel m) ->
     dict (self s) !! "result" = Some (PyModelResult r) ->
     bg_eval (left m) (params r) f = Ok bgv ->
     broadcast pair (as_complex bgv) x = Ok p ->
     exists y z,
       np_multiply bgv (CArr x) = Ok y
       /\ run (remove_background f y) s =
          (Ok (CArr z), logged s [BackgroundEval (params r) f])
       /\ z = nd_map (fun bw => round_trip (fst bw) (snd bw)) p
       /\ (broadcasts_to (as_complex bgv) x -> nd_map snd p = x)
       /\ forall close : pycomplex -> pycomplex -> Prop,
            nd_all (fun bw => close (round_trip (fst bw) (snd bw)) (snd bw)) p ->
            nd_forall2 close z (nd_map snd p))
  /\ (forall (F : PyFloat) (bgv : pyarray) (x : nd pycomplex) (e : exn),
        broadcast pair (as_complex bgv) x = Raise e ->
        np_multiply bgv (CArr x) = Raise e)
  /\ (forall (O : @Optimizer exact) (s : @state exact O) (m : @CompositeModel exact)
             (r : @ModelResult exact) (f bgv : @pyarray exact)
             (x : nd (@pycomplex exact)) (p : nd (@pycomplex exact * @pycomplex exact)),
        dict (self s) !! "model" = Some (PyModel m) ->
        dict (self s) !! "result" = Some (PyModelResult r) ->
        bg_eval (left m) (params r) f = Ok bgv ->
        broadcast pair (as_complex bgv) x = Ok p ->
        nd_all (fun z => z <> @Cx exact 0%R 0%R) (as_complex bgv) ->
        exists y,
          np_multiply bgv (CArr x) = Ok y
          /\ run (remove_background f y) s =
             (Ok (CArr (nd_map snd p)), logged s [BackgroundEval (params r) f])
          /\ (broadcasts_to (as_complex bgv) x ->
              run (remove_background f y) s =
              (Ok (CArr x), logged s [BackgroundEval (params r) f]))).
Proof.
  split; [|split].
  - intros F O s m r f bgv x p Hm Hr Hbg Hp.
    destruct (remove_background_round_trip s m r f bgv x p Hm Hr Hbg Hp)
      as (y & Hy & Hrun).
    destruct (broadcast_round_trip cmul cdiv (as_complex bgv) x p Hp)
      as (_ & _ & _ & Hsnd).
    eexists y, _. split; [exact Hy|]. split; [exact Hrun|]. split; [reflexivity|].
    split; [exact Hsnd|].
    intros close Hclose. by apply nd_forall2_map.
  - intros F bgv x e Hp. unfold np_multiply, ufunc.
    destruct bgv; cbn [as_complex] in *; by rewrite (broadcast_raise pair cmul _ _ e Hp).
  - intros O s m r f bgv x p Hm Hr Hbg Hp Hnz.
    destruct (remove_background_round_trip s m r f bgv x p Hm Hr Hbg Hp)
      as (y & Hy & Hrun).
    destruct (broadcast_round_trip cmul cdiv (as_complex bgv) x p Hp)
      as (_ & _ & HP & Hsnd).
    assert (Hx : nd_map (fun bw => round_trip (fst bw) (snd bw)) p = nd_map snd p).
    { apply nd_map_ext_all. eapply nd_all_impl; [|exact (HP _ Hnz)].
      intros [b w] Hb. cbn [fst snd] in *. by apply exact_cdiv_cmul. }
    rewrite Hx in Hrun.
    exists y. split; [exact Hy|]. split; [exact Hrun|].
    intros Hshape. by rewrite Hrun, (Hsnd Hshape).
Qed.

(** ** The weights, in each arithmetic *)

Lemma exact_weight (a b : R) :
  a <> 0%R -> b <> 0%R -> @weight_of exact a b = @Cx exact (1 / a)%R (1 / b)%R.
Proof.
  intros Ha Hb. unfold weight_of, cadd, cdiv, of_real, imag_unit.
  cbn [re im fabs fge feq fdiv fmul fadd fsub of_int exact].
  unfold exact_ge, exact_eq.
  destruct (Rle_dec (Rabs 0) (Rabs b)) as [_|Hgt].
  - destruct (Req_dec_T (Rabs b) 0) as [H0|_].
    { exfalso. by apply (Rabs_no_R0 b Hb). }
    cbn [andb re im]. f_equal; as_real; field; by repeat split.
  - exfalso. apply Hgt. rewrite Rabs_R0. apply Rabs_pos.
Qed.

(** In exact arithmetic the power one half of the table is the square
    root, and the power two the square. *)
Lemma exact_root (x : R) : @root exact x = R_sqrt.sqrt x.
Proof.
  unfold root. cbn [fpow fdiv of_int exact]. unfold exact_pow.
  destruct (Req_dec_T (1 / 2) 2) as [H2|_]; [lra|].
  destruct (Req_dec_T (1 / 2) (/ 2)) as [_|Hh]; [reflexivity|lra].
Qed.

Lemma exact_sq (x : R) : @sq exact x = (x * x)%R.
Proof.
  unfold sq. cbn [fpow of_int exact]. unfold exact_pow.
  destruct (Req_dec_T 2 2) as [_|H2]; [reflexivity|lra].
Qed.

Lemma ieee_excluded : Demo.excluded = @Cx ieee infinity infinity.
Proof. reflexivity. Qed.

Lemma ieee_weight_excluded :
  @weight_of ieee (re Demo.excluded) (im Demo.excluded) = @Cx ieee 0%float 0%float.
Proof. reflexivity. Qed.

(** ** Binary64: the weight when the inverse of the imaginary part is finite *)

Lemma digits2_pos_shift (k : nat) (m : positive) :
  Zpos (digits2_pos (Nat.iter k xO m)) = (Zpos (digits2_pos m) + Z.of_nat k)%Z.
Proof.
  induction k as [|k IH]; [cbn; lia|].
  simpl. rewrite Pos2Z.inj_succ, IH. lia.
Qed.

(** Multiplying by one is exact. *)
Lemma SFmul_one (s : bool) (m : positive) (e : Z) :
  FloatAxioms.valid_binary (S754_finite s m e) = true ->
  FloatAxioms.SF64mul (S754_finite false 4503599627370496 (-52)) (S754_finite s m e)
  = S754_finite s m e.
Proof.
  intros Hv. cbn [SpecFloat.valid_binary] in Hv.
  unfold bounded, canonical_mantissa in Hv.
  apply andb_prop in Hv as [Hc Hb]. apply Z.eqb_eq in Hc. apply Z.leb_le in Hb.
  unfold FloatAxioms.SF64mul, SFmul. cbn [xorb].
  change (4503599627370496 * m)%positive with (Nat.iter 52 xO m).
  unfold binary_round_aux, shr_fexp.
  cbn [Zdigits2]. rewrite (digits2_pos_shift 52 m).
  replace (fexp prec emax (Z.pos (digits2_pos m) + Z.of_nat 52 + (-52 + e)) - (-52 + e))%Z
    with 52%Z.
  2:{ replace (Z.pos (digits2_pos m) + Z.of_nat 52 + (-52 + e))%Z
        with (Z.pos (digits2_pos m) + e)%Z by lia.
      rewrite Hc. lia. }
  cbn [shr shr_record_of_loc].
  assert (Hsh : SpecFloat.iter_pos shr_1 52
                  {| shr_m := Z.pos (Nat.iter 52 xO m); shr_r := false; shr_s := false |}
                = {| shr_m := Z.pos m; shr_r := false; shr_s := false |}) by reflexivity.
  rewrite Hsh.
  cbn [shr_m loc_of_shr_record round_nearest_even Zdigits2].
  replace (-52 + e + 52)%Z with e by lia.
  rewrite Hc, Z.sub_diag. cbn [shr shr_record_of_loc shr_m].
  apply Z.leb_le in Hb. by rewrite Hb.
Qed.

Lemma one_spec : Prim2SF 1 = S754_finite false 4503599627370496 (-52).
Proof. reflexivity. Qed.

Lemma mul_one (x : float) : finite_nonzero x = true -> (1 * x)%float = x.
Proof.
  unfold finite_nonzero. destruct (Prim2SF x) as [| | |s m e] eqn:Hx; try discriminate.
  intros _. apply FloatAxioms.Prim2SF_inj. rewrite FloatAxioms.mul_spec, one_spec, Hx.
  apply SFmul_one. rewrite <- Hx. apply FloatAxioms.Prim2SF_valid.
Qed.

Lemma add_zero_r (x z : float) (sz : bool) :
  Prim2SF z = S754_zero sz -> negative_zero x = false -> (x + z)%float = x.
Proof.
  unfold negative_zero. intros Hz Hx. apply FloatAxioms.Prim2SF_inj.
  rewrite FloatAxioms.add_spec, Hz.
  destruct (Prim2SF x) as [[|]| | |s m e]; try reflexivity; [discriminate|].
  by destruct sz.
Qed.

Lemma add_zero_l (x : float) : finite_nonzero x = true -> (0 + x)%float = x.
Proof.
  unfold finite_nonzero. destruct (Prim2SF x) as [| | |s m e] eqn:Hx; try discriminate.
  intros _. apply FloatAxioms.Prim2SF_inj. rewrite FloatAxioms.add_spec, Hx. reflexivity.
Qed.

Lemma mul_zero_l (z x : float) (sz : bool) :
  Prim2SF z = S754_zero sz -> finite_nonzero x = true ->
  exists s, Prim2SF (z * x) = S754_zero s.
Proof.
  unfold finite_nonzero. intros Hz.
  destruct (Prim2SF x) as [| | |s m e] eqn:Hx; try discriminate.
  intros _. rewrite FloatAxioms.mul_spec, Hz, Hx. by eexists.
Qed.

(** An inverse that is finite and not zero is that of a finite number other
    than zero. *)
Lemma finite_quotient (b : float) :
  finite_nonzero (1 / b)%float = true -> finite_nonzero b = true.
Proof.
  unfold finite_nonzero. rewrite FloatAxioms.div_spec, one_spec.
  by destruct (Prim2SF b) as [| | |s m e].
Qed.

(** The weight as numpy computes it, when [1 / b] is finite and not zero:
    [1 / a], to which a zero is added, and [1 / b]. *)
Lemma ieee_weight_sum (a b : float) :
  finite_nonzero (1 / b)%float = true ->
  exists z s,
    Prim2SF z = S754_zero s
    /\ @weight_of ieee a b = @Cx ieee (1 / a + z)%float (1 / b)%float.
Proof.
  intros Hs. pose proof (finite_quotient b Hs) as Hb.
  assert (Hb' := Hb). unfold finite_nonzero in Hb'.
  destruct (Prim2SF b) as [| | |sb mb eb] eqn:Hpb; try discriminate. clear Hb'.
  unfold weight_of, cadd, cdiv, of_real, imag_unit.
  cbn [re im fabs fge feq fdiv fmul fadd fsub of_int ieee].
  change (ieee_of_int 0) with 0%float. change (ieee_of_int 1) with 1%float.
  assert (H1 : PrimFloat.leb (PrimFloat.abs 0%float) (PrimFloat.abs b) = true).
  { rewrite FloatAxioms.leb_spec, !FloatAxioms.abs_spec, Hpb. reflexivity. }
  assert (H2 : PrimFloat.eqb (PrimFloat.abs b) 0%float = false).
  { rewrite FloatAxioms.eqb_spec, FloatAxioms.abs_spec, Hpb. reflexivity. }
  rewrite H1, H2. cbn [andb re im].
  assert (H3 : exists z, (0 / b)%float = z /\ (z = 0%float \/ z = (-0)%float)).
  { eexists. split; [reflexivity|]. destruct sb; [right|left];
      apply FloatAxioms.Prim2SF_inj; rewrite FloatAxioms.div_spec, Hpb; reflexivity. }
  destruct H3 as (z & -> & Hz).
  assert (H4 : (b + 0 * z)%float = b).
  { destruct Hz as [-> | ->].
    - apply (add_zero_r b _ false); [reflexivity|]. unfold negative_zero. by rewrite Hpb.
    - apply (add_zero_r b _ true); [reflexivity|]. unfold negative_zero. by rewrite Hpb. }
  rewrite H4.
  assert (H5 : (0 + 1 * z)%float = 0%float) by (destruct Hz as [-> | ->]; reflexivity).
  assert (H6 : (1 - 0 * z)%float = 1%float) by (destruct Hz as [-> | ->]; reflexivity).
  rewrite H5, H6, (mul_one _ Hs), (add_zero_l _ Hs).
  destruct (mul_zero_l 0%float (1 / b)%float false eq_refl Hs) as [s Hzs].
  by eexists _, s.
Qed.

Lemma ieee_weight (a b : float) :
  finite_nonzero (1 / b)%float = true ->
  finite_nonzero b = true
  /\ im (@weight_of ieee a b) = (1 / b)%float
  /\ (re (@weight_of ieee a b) = (1 / a)%float
      \/ (negative_zero (1 / a)%float = true /\ re (@weight_of ieee a b) = 0%float)).
Proof.
  intros Hs. split; [by apply finite_quotient|].
  destruct (ieee_weight_sum a b Hs) as (z & s & Hz & ->). cbn [re im].
  split; [reflexivity|].
  destruct (negative_zero (1 / a)%float) eqn:Hn.
  - unfold negative_zero in Hn.
    destruct (Prim2SF (1 / a)%float) as [[|]| | |] eqn:Ha; try discriminate.
    destruct s.
    + left. apply FloatAxioms.Prim2SF_inj.
      by rewrite FloatAxioms.add_spec, Ha, Hz.
    + right. split; [reflexivity|]. apply FloatAxioms.Prim2SF_inj.
      by rewrite FloatAxioms.add_spec, Ha, Hz.
  - left. by apply (add_zero_r _ _ s).
Qed.

(** C2, as the code has it.  The weights are [None] exactly when the errors
    are; otherwise they are the array whose every point is numpy's
    [1 / a + 1j / b], for [a] and [b] the real and imaginary parts of the
    error at that point.  That point is the complex number of real part
    [1 / a] and imaginary part [1 / b]: in exact arithmetic for [a] and [b]
    not zero; in binary64 when [1 / b] is finite and not zero (then [b] is
    finite and not zero), where a real part that is a zero may have the
    other sign.  In binary64 the error [(1 + 1j) * inf] gives the weight
    [0 + 0j]. *)
Theorem weights_from_errors {F : PyFloat} {O : Optimizer} (s : state)
    (e : option pyarray) :
  dict (self s) !! "errors" = Some (optional e) ->
  run weights s = (Ok (optional (option_map weights_of e)), s)
  /\ (optional (option_map weights_of e) = PyNone <-> e = None)
  /\ (forall l, e = Some (CArr (Array1 l)) ->
        run weights s =
        (Ok (PyArray (CArr (Array1
               (map (fun z => cadd (of_real (fdiv (of_int 1) (re z)))
                                   (cdiv imag_unit (of_real (im z)))) l)))), s))
  /\ (forall a b : R, a <> 0%R -> b <> 0%R ->
        @weight_of exact a b = @Cx exact (1 / a)%R (1 / b)%R)
  /\ (forall a b : float, finite_nonzero (1 / b)%float = true ->
        finite_nonzero b = true
        /\ im (@weight_of ieee a b) = (1 / b)%float
        /\ (re (@weight_of ieee a b) = (1 / a)%float
            \/ (negative_zero (1 / a)%float = true
                /\ re (@weight_of ieee a b) = 0%float)))
  /\ Demo.excluded = @Cx ieee infinity infinity
  /\ @weight_of ieee (re Demo.excluded) (im Demo.excluded) = @Cx ieee 0%float 0%float.
Proof.
  intros He.
  assert (Hw : run weights s = (Ok (optional (option_map weights_of e)), s)).
  { unfold run. rewrite (weights_run s _ He). by destruct e. }
  split; [exact Hw|]. split.
  { destruct e as [[a|a]|]; cbn; split; intros; (discriminate || reflexivity). }
  split.
  { intros l ->. exact Hw. }
  split; [exact exact_weight|].
  split; [exact ieee_weight|].
  split; [exact ieee_excluded | exact ieee_weight_excluded].
Qed.

(** * The theorems at work on the concrete models *)

#[local] Set Warnings "-inexact-float".

Lemma weights_from_errors_witness :
  dict (self Demo.weighted_fitter) !! "errors" = Some (optional (Some Demo.errors))
  /\ run weights Demo.weighted_fitter =
     (Ok (PyArray (CArr (Array1 [@Cx ieee 0.5%float 0.25%float;
                                 @Cx ieee 0%float 0%float]))),
      Demo.weighted_fitter)
  /\ finite_nonzero (1 / 4)%float = true
  /\ im (@weight_of ieee 2%float 4%float) = 0.25%float.
Proof.
  split; [reflexivity|].
  destruct (weights_from_errors Demo.weighted_fitter (Some Demo.errors) eq_refl)
    as (Hrun & _ & _ & _ & Hieee & _).
  split; [refine (eq_trans Hrun _); reflexivity|].
  split; [reflexivity|].
  destruct (Hieee 2%float 4%float eq_refl) as (_ & Him & _).
  refine (eq_trans Him _). reflexivity.
Defined.

Lemma guess_background_then_foreground_witness :
  dict (self Demo.fitter) !! "model" = Some (PyModel Demo.model)
  /\ reference_point (right Demo.model) = Some (@Cx ieee (-1)%float 0%float)
  /\ exists g fgp d1 d2,
       run (guess Demo.frequency Demo.data) Demo.fitter =
       (Ok (update g fgp),
        logged Demo.fitter
          [BackgroundGuess d1 Demo.frequency; BackgroundEval g Demo.frequency;
           ForegroundGuess d2 Demo.frequency])
       /\ g !! "gain" = Some (Demo.param 2%float)
       /\ d1 = CArr (Array1 [@Cx ieee 2%float (-0)%float; @Cx ieee 2%float (-1)%float])
       /\ d2 = CArr (Array1 [@Cx ieee (-1)%float 0%float; @Cx ieee (-1)%float 0.5%float]).
Proof.
  split; [reflexivity|]. split; [reflexivity|].
  destruct (guess_background_then_foreground Demo.fitter Demo.model
              (@Cx ieee (-1)%float 0%float) Demo.frequency Demo.data)
    as (_ & _ & Hrun); [reflexivity | reflexivity |].
  eexists _, _, _, _. split.
  - eapply Hrun; reflexivity.
  - split; [reflexivity|]. split; reflexivity.
Defined.

Lemma derived_quantities_follow_table_witness :
  params Demo.result !! "resonance_frequency" = Some (Demo.measured 1%float 0.001%float)
  /\ params Demo.result !! "coupling_loss" = Some (Demo.measured 2e-6%float 2e-8%float)
  /\ params Demo.result !! "internal_loss" = Some (Demo.measured 1e-6%float 1e-8%float)
  /\ run total_loss Demo.fitter =
     (Ok (@of_float ieee (PrimFloat.add 1e-6%float 2e-6%float)), Demo.fitter)
  /\ run internal_quality_factor_error Demo.fitter =
     (Ok (@of_float ieee 10000%float), Demo.fitter).
Proof.
  assert (Hf : params Demo.result !! "resonance_frequency"
               = Some (Demo.measured 1%float 0.001%float)) by reflexivity.
  assert (Hc : params Demo.result !! "coupling_loss"
               = Some (Demo.measured 2e-6%float 2e-8%float)) by reflexivity.
  assert (Hi : params Demo.result !! "internal_loss"
               = Some (Demo.measured 1e-6%float 1e-8%float)) by reflexivity.
  split; [exact Hf|]. split; [exact Hc|]. split; [exact Hi|].
  pose proof (derived_quantities_follow_table (O := Demo.optimizer) "ResonatorFitter" Demo.frequency Demo.data
                None Demo.model Demo.result [] _ _ _ _ _ _ Hf Hc Hi eq_refl eq_refl eq_refl)
    as (_ & _ & Htotal & _ & _ & _ & _ & HQi & _).
  split; [exact Htotal|].
  refine (eq_trans HQi _). reflexivity.
Defined.

Lemma init_rejects_non_complex_witness :
  iscomplexobj Demo.frequency = false
  /\ exists msg,
       run (__init__ (H0 := Demo.optimizer) Demo.frequency Demo.frequency Demo.foreground Demo.background
              None None tt) (fresh "ResonatorFitter")
       = (Raise (Exn TypeError msg), fresh "ResonatorFitter").
Proof.
  split; [reflexivity|].
  apply (init_rejects_non_complex (O := Demo.optimizer) Demo.frequency Demo.frequency Demo.foreground
           Demo.background None None tt (fresh "ResonatorFitter")).
  left. reflexivity.
Defined.

Lemma attribute_fallback_witness :
  dict (self Demo.fitter) !! "result" = Some (PyModelResult Demo.result)
  /\ explicit (H0 := Demo.optimizer) (self Demo.fitter) "gain" = false
  /\ explicit (H0 := Demo.optimizer) (self Demo.fitter) "gain_error" = false
  /\ run (getattr "gain") Demo.fitter = (Ok (@of_float ieee 2%float), Demo.fitter)
  /\ run (getattr "gain_error") Demo.fitter =
     (Ok (@of_float ieee 0.125%float), Demo.fitter).
Proof.
  assert (Hr : dict (self Demo.fitter) !! "result" = Some (PyModelResult Demo.result))
    by reflexivity.
  assert (He : explicit (H0 := Demo.optimizer) (self Demo.fitter) "gain" = false) by reflexivity.
  assert (He' : explicit (H0 := Demo.optimizer) (self Demo.fitter) ("gain" ++ "_error") = false)
    by reflexivity.
  split; [exact Hr|]. split; [exact He|]. split; [exact He'|].
  destruct (attribute_fallback Demo.fitter Demo.result "gain" Hr) as [Hvalue Herror].
  split.
  - refine (eq_trans (Hvalue He eq_refl) _). reflexivity.
  - refine (eq_trans (Herror He') _). reflexivity.
Defined.

Lemma fit_replaces_result_witness :
  dict (self Demo.fitter) !! "guess" = None
  /\ exists g s1 r,
    run (guess Demo.frequency Demo.data) Demo.fitter = (Ok g, s1)
    /\ @model_fit ieee Demo.optimizer Demo.model Demo.frequency Demo.data None
         (update g Demo.override) tt = Ok r
    /\ run (fit (H0 := Demo.optimizer) (Some Demo.override) tt) Demo.fitter =
       (Ok tt,
        {| self := {| class_name := "ResonatorFitter";
                      dict := <["result" := PyModelResult r]> (dict (self Demo.fitter)) |};
           calls := calls s1 ++ [@ModelFit ieee Demo.optimizer Demo.frequency Demo.data None
                                   (update g Demo.override) tt] |})
    /\ g !! "coupling_loss" = Some (Demo.param 0.5%float)
    /\ update g Demo.override !! "coupling_loss" = Demo.override !! "coupling_loss".
Proof.
  split; [reflexivity|].
  destruct (run (guess Demo.frequency Demo.data) Demo.fitter) as [rg s1] eqn:Hg.
  assert (Hrg : exists g, rg = Ok g /\ g !! "coupling_loss" = Some (Demo.param 0.5%float)).
  { apply (f_equal fst) in Hg. cbn [fst] in Hg. rewrite <- Hg.
    eexists. split; reflexivity. }
  destruct Hrg as (g & -> & Hgc).
  destruct (fit_replaces_result Demo.fitter s1 Demo.frequency Demo.data None Demo.model
              (Some Demo.override) tt g)
    as (Hmerge & Hok & _);
    [reflexivity | reflexivity | reflexivity | reflexivity | reflexivity | exact Hg |].
  eexists g, s1, _. split; [reflexivity|]. split; [reflexivity|].
  split; [apply Hok; reflexivity|]. split; [exact Hgc|].
  rewrite (Hmerge "coupling_loss"). reflexivity.
Defined.

Lemma init_stores_arguments_witness :
  fst Demo.construction = Ok tt
  /\ dict (self (snd Demo.construction)) !! "frequency" = Some (PyArray Demo.frequency)
  /\ dict (self (snd Demo.construction)) !! "data" = Some (PyArray Demo.data).
Proof.
  assert (Hok : fst Demo.construction = Ok tt) by reflexivity.
  split; [exact Hok|].
  destruct Demo.construction as [r s'] eqn:Hrun. cbn [fst snd] in *. subst r.
  destruct (init_stores_arguments (O := Demo.optimizer) Demo.frequency Demo.data
              Demo.foreground Demo.background None None tt "ResonatorFitter" s' Hrun)
    as (_ & _ & Hf & Hd & _).
  split; [exact Hf | exact Hd].
Defined.

Lemma model_values_is_composite_eval_witness :
  fst Demo.construction = Ok tt
  /\ exists r,
       dict (self (snd Demo.construction)) !! "result" = Some (PyModelResult r)
       /\ run (model_values None None) (snd Demo.construction) =
          run (dot_eval (PyModel Demo.model) (params r) Demo.frequency)
              (snd Demo.construction).
Proof.
  assert (Hok : fst Demo.construction = Ok tt) by reflexivity.
  split; [exact Hok|].
  destruct Demo.construction as [r0 s'] eqn:Hrun. cbn [fst snd] in *. subst r0.
  destruct (model_values_is_composite_eval (O := Demo.optimizer) Demo.frequency Demo.data
              Demo.foreground Demo.background None None tt "ResonatorFitter" s' Hrun)
    as (r & Hr & Hmv).
  exists r. split; [exact Hr|]. exact (proj1 (Hmv None None)).
Defined.

Lemma remove_background_undoes_background_witness :
  (bg_eval (left DemoExact.model) (params DemoExact.result) (@FArr exact (Scalar 1%R))
     = Ok (CArr (Scalar (@Cx exact 2%R 0%R)))
   /\ exists y,
        np_multiply (CArr (Scalar (@Cx exact 2%R 0%R))) (CArr DemoExact.signal) = Ok y
        /\ run (remove_background (@FArr exact (Scalar 1%R)) y) DemoExact.fitter =
           (Ok (CArr DemoExact.signal),
            logged DemoExact.fitter
              [BackgroundEval (params DemoExact.result) (@FArr exact (Scalar 1%R))]))
  /\ (bg_eval (left Demo.model) (params Demo.result) Demo.frequency = Ok Demo.gain_two
      /\ exists y z,
           np_multiply Demo.gain_two (CArr Demo.normalized) = Ok y
           /\ run (remove_background Demo.frequency y) Demo.fitter =
              (Ok (CArr z),
               logged Demo.fitter [BackgroundEval (params Demo.result) Demo.frequency])
           /\ nd_forall2 eq z Demo.normalized).
Proof.
  split.
  - assert (Hbg : bg_eval (left DemoExact.model) (params DemoExact.result)
                    (@FArr exact (Scalar 1%R)) = Ok (CArr (Scalar (@Cx exact 2%R 0%R))))
      by reflexivity.
    split; [exact Hbg|].
    destruct (proj2 (proj2 remove_background_undoes_background) DemoExact.optimizer
                DemoExact.fitter DemoExact.model DemoExact.result
                (@FArr exact (Scalar 1%R)) (CArr (Scalar (@Cx exact 2%R 0%R)))
                DemoExact.signal
                (Array1 [(@Cx exact 2%R 0%R, @Cx exact 1%R 1%R);
                         (@Cx exact 2%R 0%R, @Cx exact 3%R 0%R)])
                eq_refl eq_refl Hbg eq_refl)
      as (y & Hy & _ & Hrun).
    { cbn. intros Hz; injection Hz; intros; lra. }
    exists y. split; [exact Hy|]. exact (Hrun I).
  - split; [reflexivity|].
    destruct (proj1 remove_background_undoes_background ieee Demo.optimizer Demo.fitter
                Demo.model Demo.result Demo.frequency Demo.gain_two Demo.normalized
                (Array1 [(@Cx ieee 2%float 0%float, @Cx ieee (-1)%float 0%float);
                         (@Cx ieee 2%float 0%float, @Cx ieee (-1)%float 0.5%float)])
                eq_refl eq_refl eq_refl eq_refl)
      as (y & z & Hy & Hrun & _ & _ & Hclose).
    exists y, z. split; [exact Hy|]. split; [exact Hrun|].
    apply Hclose. cbn [nd_all]. repeat constructor.
Defined.

(** ** Where the specification and the code part *)

(** C2: an error whose imaginary part is finite and not zero, and so small
    that its inverse overflows: the real part of the weight is not [1 / a],
    it is not a number. *)
Lemma weights_counterexample :
  finite_nonzero 2%float = true
  /\ finite_nonzero 1e-310%float = true
  /\ (1 / 2)%float = 0.5%float
  /\ (1 / 1e-310)%float = infinity
  /\ fst (run weights Demo.tiny_fitter) =
     Ok (PyArray (CArr (Array1 [@Cx ieee nan infinity])))
  /\ fst (run weights Demo.tiny_fitter) <>
     Ok (PyArray (CArr (Array1 [@Cx ieee (1 / 2)%float (1 / 1e-310)%float]))).
Proof.
  assert (Hw : fst (run weights Demo.tiny_fitter) =
               Ok (PyArray (CArr (Array1 [@Cx ieee nan infinity])))) by reflexivity.
  split; [reflexivity|]. split; [reflexivity|]. split; [reflexivity|].
  split; [reflexivity|]. split; [exact Hw|].
  rewrite Hw. intros Hone.
  apply (f_equal Demo.real_is_nan) in Hone. discriminate Hone.
Qed.

(** C4: a background that evaluates to zero is not undone, the quotient is
    not a number at all; three points cannot be multiplied by the
    background at two frequencies; and in binary64 a background that is
    nowhere zero is not undone where the product underflows. *)
Lemma remove_background_counterexample :
  (bg_eval (left Demo.dark_model) (params Demo.dark_result) Demo.frequency = Ok Demo.zeros
   /\ np_multiply Demo.zeros Demo.ones = Ok Demo.zeros
   /\ fst (run (remove_background Demo.frequency Demo.zeros) Demo.dark_fitter) =
      Ok (CArr (Array1 [@Cx ieee nan nan; @Cx ieee nan nan]))
   /\ fst (run (remove_background Demo.frequency Demo.zeros) Demo.dark_fitter)
      <> Ok Demo.ones)
  /\ (bg_eval (left Demo.model) (params Demo.result) Demo.frequency = Ok Demo.gain_two
      /\ np_multiply Demo.gain_two Demo.three =
         Raise (Exn ValueError "operands could not be broadcast together"))
  /\ (bg_eval (left Demo.model) (params Demo.faint_result) Demo.frequency = Ok Demo.faint
      /\ np_multiply Demo.faint Demo.faint = Ok Demo.zeros
      /\ fst (run (remove_background Demo.frequency Demo.zeros) Demo.faint_fitter) =
         Ok Demo.zeros
      /\ fst (run (remove_background Demo.frequency Demo.zeros) Demo.faint_fitter)
         <> Ok Demo.faint).
Proof.
  assert (Hq : fst (run (remove_background Demo.frequency Demo.zeros) Demo.dark_fitter) =
               Ok (CArr (Array1 [@Cx ieee nan nan; @Cx ieee nan nan]))) by reflexivity.
  assert (Hf : fst (run (remove_background Demo.frequency Demo.zeros) Demo.faint_fitter) =
               Ok Demo.zeros) by reflexivity.
  split; [|split].
  - split; [reflexivity|]. split; [reflexivity|]. split; [exact Hq|].
    rewrite Hq. intros Hone.
    apply (f_equal Demo.first_is_nan) in Hone. discriminate Hone.
  - split; reflexivity.
  - split; [reflexivity|]. split; [reflexivity|]. split; [exact Hf|].
    rewrite Hf. intros Hone.
    apply (f_equal Demo.first_is_zero) in Hone. discriminate Hone.
Qed.

(** C6: a parameter without a standard error reads as [None], with no
    error raised; and a parameter whose own name ends in [_error] is not
    readable by its name. *)
Lemma attribute_fallback_counterexample :
  (params Demo.result_without_stderr !! "gain" = Some (Demo.param 2%float)
   /\ stderr (Demo.param 2%float) = None
   /\ explicit (H0 := Demo.optimizer) (self Demo.fitter_without_stderr) "gain_error" = false
   /\ run (getattr "gain_error") Demo.fitter_without_stderr =
      (Ok PyNone, Demo.fitter_without_stderr))
  /\ (params Demo.result_with_suffix !! "phase_error"
        = Some (Demo.measured 0.5%float 0.125%float)
      /\ explicit (H0 := Demo.optimizer) (self Demo.fitter_with_suffix) "phase_error" = false
      /\ run (getattr "phase_error") Demo.fitter_with_suffix =
         (Raise (Exn AttributeError "Couldn't find error for phase in self.result"),
          Demo.fitter_with_suffix)).
Proof. repeat split; reflexivity. Qed.

(** C8: a construction on two frequencies and one point of data returns. *)
Lemma init_accepts_mismatched_lengths :
  fst Demo.short_construction = Ok tt
  /\ dict (self (snd Demo.short_construction)) !! "frequency"
     = Some (PyArray Demo.frequency)
  /\ dict (self (snd Demo.short_construction)) !! "data" = Some (PyArray Demo.short_data)
  /\ np_size Demo.frequency = 2
  /\ np_size Demo.short_data = 1.
Proof. repeat split; reflexivity. Qed.

(** ** The worked example of the specification, in IEEE arithmetic *)

Example total_loss_error_example :
  fst (run total_loss_error Demo.fitter) = Ok (@of_float ieee 2.2360679774997898e-08%float).
Proof. reflexivity. Qed.

Example weights_example :
  @weights_of ieee Demo.errors =
  CArr (Array1 [@Cx ieee 0.5%float 0.25%float; @Cx ieee 0%float 0%float]).
Proof. reflexivity. Qed.

(** * Further properties of the fitter *)

Section Further.
Context {F : PyFloat} {O : Optimizer}.

Ltac steps :=
  cbv beta iota zeta delta
    [run bind ret lift raise res_map binop py_truediv py_add py_mul py_pow
     expect_array optional_array dot_reference_point dot_guess dot_eval dot_fit
     dot_params dot_initial_params lookup_guess lookup_eval lookup_fit].

(** ** What [guess] and [fit] depend on *)

(** [guess] on a fitter whose foreground model has a reference point, case
    by case. *)
Lemma guess_cases (s : state) (m : CompositeModel) (rp : pycomplex) (f d : pyarray) :
  dict (self s) !! "model" = Some (PyModel m) ->
  reference_point (right m) = Some rp ->
  let d1 := CArr (nd_map (fun z => cdiv z rp) (as_complex d)) in
  guess f d s =
  match bg_guess (left m) d1 f with
  | Raise e => (Raise e, logged s [BackgroundGuess d1 f])
  | Ok g =>
      match bg_eval (left m) g f with
      | Raise e => (Raise e, logged s [BackgroundGuess d1 f; BackgroundEval g f])
      | Ok b =>
          match np_true_divide d b with
          | Raise e => (Raise e, logged s [BackgroundGuess d1 f; BackgroundEval g f])
          | Ok d2 =>
              (res_map (update g) (fg_guess (right m) d2 f),
               logged s [BackgroundGuess d1 f; BackgroundEval g f;
                         ForegroundGuess d2 f])
          end
      end
  end.
Proof.
  intros Hs Hr d1.
  pose proof (divide_by_scalar d rp) as Hd1. fold d1 in Hd1.
  unfold guess. steps.
  rewrite (background_model_run _ _ Hs), (foreground_model_run _ _ Hs).
  steps. rewrite Hr, Hd1, call_run.
  destruct (bg_guess (left m) d1 f) as [g|e]; [|reflexivity].
  rewrite (background_model_run (logged s _) m Hs). steps.
  rewrite call_run, logged_logged.
  destruct (bg_eval (left m) g f) as [b|e]; [|reflexivity].
  rewrite (foreground_model_run (logged s _) m Hs). steps.
  destruct (np_true_divide d b) as [d2|e]; [|reflexivity].
  rewrite call_run, logged_logged.
  destruct (fg_guess (right m) d2 f) as [fgp|e]; reflexivity.
Qed.

(** The outcome of [guess] and the calls it makes are fixed by the model and
    the two arguments. *)
Lemma guess_frame (m : CompositeModel) (f d : pyarray) :
  exists rg es, forall s,
    dict (self s) !! "model" = Some (PyModel m) ->
    guess f d s = (rg, logged s es).
Proof.
  destruct (reference_point (right m)) as [rp|] eqn:Hr.
  - pose proof (fun s Hs => guess_cases s m rp f d Hs Hr) as Hstep. cbv zeta in Hstep.
    set (d1 := CArr (nd_map (fun z => cdiv z rp) (as_complex d))) in *.
    destruct (bg_guess (left m) d1 f) as [g|e]; [|by eexists _, _].
    destruct (bg_eval (left m) g f) as [b|e]; [|by eexists _, _].
    destruct (np_true_divide d b) as [d2|e]; by eexists _, _.
  - exists (Raise (Exn TypeError "unsupported operand type(s)")), [].
    intros s Hs. rewrite logged_nil.
    apply (guess_without_reference_point s m f d Hs Hr).
Qed.

(** The success path of [guess]. *)
Lemma guess_ok (s : state) (m : CompositeModel) (rp : pycomplex) (f d d2 b : pyarray)
    (g fgp : Params) :
  dict (self s) !! "model" = Some (PyModel m) ->
  reference_point (right m) = Some rp ->
  let d1 := CArr (nd_map (fun z => cdiv z rp) (as_complex d)) in
  bg_guess (left m) d1 f = Ok g ->
  bg_eval (left m) g f = Ok b ->
  np_true_divide d b = Ok d2 ->
  fg_guess (right m) d2 f = Ok fgp ->
  guess f d s =
  (Ok (update g fgp),
   logged s [BackgroundGuess d1 f; BackgroundEval g f; ForegroundGuess d2 f]).
Proof.
  intros Hs Hr d1 Hg Hb Hd2 Hf.
  pose proof (divide_by_scalar d rp) as Hd1. fold d1 in Hd1.
  unfold guess. steps.
  rewrite (background_model_run _ _ Hs), (foreground_model_run _ _ Hs).
  steps. rewrite Hr, Hd1, call_run, Hg.
  rewrite (background_model_run (logged s _) m Hs). steps.
  rewrite call_run, logged_logged, Hb.
  rewrite (foreground_model_run (logged s _) m Hs). steps.
  rewrite Hd2, call_run, logged_logged, Hf. reflexivity.
Qed.

(** X1.  When a step of [guess] fails, [guess] fails with that exception
    and goes no further: after a failed background guess nothing else is
    called, after a failed background evaluation (or a failed division by
    it) the foreground model is not called. *)
Theorem guess_stops_at_first_failure (s : state) (m : CompositeModel) (rp : pycomplex)
    (f d : pyarray) :
  dict (self s) !! "model" = Some (PyModel m) ->
  reference_point (right m) = Some rp ->
  let d1 := CArr (nd_map (fun z => cdiv z rp) (as_complex d)) in
  (forall e, bg_guess (left m) d1 f = Raise e ->
     run (guess f d) s = (Raise e, logged s [BackgroundGuess d1 f]))
  /\ (forall g e, bg_guess (left m) d1 f = Ok g -> bg_eval (left m) g f = Raise e ->
        run (guess f d) s =
        (Raise e, logged s [BackgroundGuess d1 f; BackgroundEval g f]))
  /\ (forall g b e, bg_guess (left m) d1 f = Ok g -> bg_eval (left m) g f = Ok b ->
        np_true_divide d b = Raise e ->
        run (guess f d) s =
        (Raise e, logged s [BackgroundGuess d1 f; BackgroundEval g f]))
  /\ (forall g b d2 e, bg_guess (left m) d1 f = Ok g -> bg_eval (left m) g f = Ok b ->
        np_true_divide d b = Ok d2 -> fg_guess (right m) d2 f = Raise e ->
        run (guess f d) s =
        (Raise e, logged s [BackgroundGuess d1 f; BackgroundEval g f;
                            ForegroundGuess d2 f])).
Proof.
  intros Hs Hr d1. pose proof (guess_cases s m rp f d Hs Hr) as Hc.
  cbv zeta in Hc. fold d1 in Hc. unfold run.
  split; [|split; [|split]].
  - intros e Hg. by rewrite Hc, Hg.
  - intros g e Hg Hb. by rewrite Hc, Hg, Hb.
  - intros g b e Hg Hb Hd. by rewrite Hc, Hg, Hb, Hd.
  - intros g b d2 e Hg Hb Hd Hf. by rewrite Hc, Hg, Hb, Hd, Hf.
Qed.

(** X2.  When [guess] fails, [fit] fails with the same exception in the
    state [guess] left: the optimizer is not called and the instance,
    its earlier result included, is unchanged. *)
Theorem fit_fails_with_guess (s s1 : state) (f d : pyarray) (e : option pyarray)
    (m : CompositeModel) (P : option Params) (kw : fit_kwds) (ex : exn) :
  dict (self s) !! "frequency" = Some (PyArray f) ->
  dict (self s) !! "data" = Some (PyArray d) ->
  dict (self s) !! "errors" = Some (optional e) ->
  dict (self s) !! "model" = Some (PyModel m) ->
  dict (self s) !! "guess" = None ->
  run (guess f d) s = (Raise ex, s1) ->
  run (fit P kw) s = (Raise ex, s1) /\ self s1 = self s.
Proof.
  intros Hf Hd He Hm Hsh Hg. unfold run in *.
  rewrite (fit_run s s1 f d e m P kw (Raise ex) Hf Hd He Hm Hsh Hg).
  split; [reflexivity|].
  destruct (read_only_run _ _ _ _ (read_only_guess f d) Hg) as [es ->].
  reflexivity.
Qed.

(** The outcome of [fit] is fixed by the stored arrays and model and by its
    arguments: neither the stored result nor the log enters it. *)
Lemma fit_frame (f d : pyarray) (e : option pyarray) (m : CompositeModel)
    (P : option Params) (kw : fit_kwds) :
  exists (o : res ModelResult) (es : list event), forall s,
    dict (self s) !! "frequency" = Some (PyArray f) ->
    dict (self s) !! "data" = Some (PyArray d) ->
    dict (self s) !! "errors" = Some (optional e) ->
    dict (self s) !! "model" = Some (PyModel m) ->
    dict (self s) !! "guess" = None ->
    fit P kw s =
    match o with
    | Ok r =>
        (Ok tt,
         {| self := {| class_name := class_name (self s);
                       dict := <["result" := PyModelResult r]> (dict (self s)) |};
            calls := calls s ++ es |})
    | Raise ex => (Raise ex, logged s es)
    end.
Proof.
  destruct (guess_frame m f d) as (rg & es & Hg).
  destruct rg as [g|ex].
  - set (ip := match P with Some p => update g p | None => g end).
    set (w := option_map weights_of e).
    destruct (model_fit m f d w ip kw) as [r|ex] eqn:Hfit.
    + exists (Ok r), (es ++ [ModelFit f d w ip kw])%list.
      intros s Hf Hd He Hm Hsh.
      rewrite (fit_run s _ f d e m P kw _ Hf Hd He Hm Hsh (Hg s Hm)).
      cbv zeta. fold ip w. rewrite Hfit. cbn [logged calls]. by rewrite app_assoc.
    + exists (Raise ex), (es ++ [ModelFit f d w ip kw])%list.
      intros s Hf Hd He Hm Hsh.
      rewrite (fit_run s _ f d e m P kw _ Hf Hd He Hm Hsh (Hg s Hm)).
      cbv zeta. fold ip w. rewrite Hfit. by rewrite logged_logged.
  - exists (Raise ex), es. intros s Hf Hd He Hm Hsh.
    by rewrite (fit_run s _ f d e m P kw _ Hf Hd He Hm Hsh (Hg s Hm)).
Qed.

(** X3.  Fitting again with the same arguments stores the same result and
    makes the same calls; and what a fit stores does not depend on the
    result stored before it, nor on the calls made before. *)
Theorem refit_is_idempotent (c : string) (f d : pyarray) (e : option pyarray)
    (m : CompositeModel) (P : option Params) (kw : fit_kwds) (r0 : ModelResult)
    (log : list event) (s1 : state) :
  run (fit P kw) (fitted c f d e m r0 log) = (Ok tt, s1) ->
  exists r es,
    s1 = fitted c f d e m r (log ++ es)
    /\ run (fit P kw) s1 = (Ok tt, fitted c f d e m r ((log ++ es) ++ es))
    /\ forall r0' log',
         run (fit P kw) (fitted c f d e m r0' log')
         = (Ok tt, fitted c f d e m r (log' ++ es)).
Proof.
  unfold run. intros Hfit.
  destruct (fit_frame f d e m P kw) as (o & es & Ho).
  assert (Hall : forall r1 l1,
            fit P kw (fitted c f d e m r1 l1) =
            match o with
            | Ok r => (Ok tt, fitted c f d e m r (l1 ++ es))
            | Raise ex => (Raise ex, logged (fitted c f d e m r1 l1) es)
            end).
  { intros r1 l1.
    rewrite (Ho (fitted c f d e m r1 l1) (fitter_dict_frequency _ _ _ _ _)
               (fitter_dict_data _ _ _ _ _) (fitter_dict_errors _ _ _ _ _)
               (fitter_dict_model _ _ _ _ _) (fitter_dict_guess _ _ _ _ _)).
    destruct o as [r|ex]; [|reflexivity].
    unfold fitted. cbn [self dict class_name calls]. by rewrite fitter_dict_refit. }
  rewrite Hall in Hfit. destruct o as [r|ex]; [|discriminate].
  injection Hfit as <-. exists r, es. split; [reflexivity|]. split.
  - apply Hall.
  - intros r0' log'. apply Hall.
Qed.

(** X4.  A construction on complex data, with a foreground model that has a
    reference point, whose two guesses, background evaluation and fit all
    return: the instance then holds the arguments and the optimizer's
    result, and exactly four calls were made, in this order: background
    guess, background evaluation, foreground guess, fit (on the guess
    updated with the caller's parameters, and the weights of the errors). *)
Theorem construction_makes_four_calls (frequency data : pyarray) (fg : ResonatorModel)
    (bg : BackgroundModel) (errors : option pyarray) (P : option Params)
    (kw : fit_kwds) (c : string) (rp : pycomplex) (g fgp : Params) (b d2 : pyarray)
    (r : ModelResult) :
  iscomplexobj data = true ->
  match errors with Some e => iscomplexobj e | None => true end = true ->
  reference_point fg = Some rp ->
  let d1 := CArr (nd_map (fun z => cdiv z rp) (as_complex data)) in
  bg_guess bg d1 frequency = Ok g ->
  bg_eval bg g frequency = Ok b ->
  np_true_divide data b = Ok d2 ->
  fg_guess fg d2 frequency = Ok fgp ->
  let ip := match P with Some p => update (update g fgp) p | None => update g fgp end in
  let w := option_map weights_of errors in
  model_fit (model_mul bg fg) frequency data w ip kw = Ok r ->
  run (__init__ frequency data fg bg errors P kw) (fresh c) =
  (Ok tt,
   fitted c frequency data errors (model_mul bg fg) r
     [BackgroundGuess d1 frequency; BackgroundEval g frequency;
      ForegroundGuess d2 frequency; ModelFit frequency data w ip kw]).
Proof.
  intros Hd He Hr d1 Hg Hb Hd2 Hf ip w Hfit. unfold run.
  rewrite (init_run _ _ _ _ _ _ _ _ Hd He).
  set (s0 := {| self := {| class_name := c;
                           dict := fitter_dict frequency data errors (model_mul bg fg)
                                     PyNone |};
                calls := [] |}).
  pose proof (guess_ok s0 (model_mul bg fg) rp frequency data d2 b g fgp
                (fitter_dict_model _ _ _ _ _) Hr Hg Hb Hd2 Hf) as Hguess.
  cbv zeta in Hguess. fold d1 in Hguess.
  rewrite (fit_run s0 _ frequency data errors (model_mul bg fg) P kw _
             (fitter_dict_frequency _ _ _ _ _) (fitter_dict_data _ _ _ _ _)
             (fitter_dict_errors _ _ _ _ _) (fitter_dict_model _ _ _ _ _)
             (fitter_dict_guess _ _ _ _ _) Hguess).
  cbv zeta. fold ip w. rewrite Hfit. unfold fitted.
  cbn [self dict class_name calls logged s0 app]. by rewrite fitter_dict_refit.
Qed.

(** X5.  A construction with a foreground model whose [reference_point] is
    [None] (the value the base class gives it) fails with a TypeError
    before any model method is called. *)
Theorem construction_needs_reference_point (frequency data : pyarray)
    (fg : ResonatorModel) (bg : BackgroundModel) (errors : option pyarray)
    (P : option Params) (kw : fit_kwds) (c : string) :
  iscomplexobj data = true ->
  match errors with Some e => iscomplexobj e | None => true end = true ->
  reference_point fg = None ->
  exists msg s',
    run (__init__ frequency data fg bg errors P kw) (fresh c)
    = (Raise (Exn TypeError msg), s')
    /\ calls s' = [].
Proof.
  intros Hd He Hr. unfold run. rewrite (init_run _ _ _ _ _ _ _ _ Hd He).
  set (s0 := {| self := {| class_name := c;
                           dict := fitter_dict frequency data errors (model_mul bg fg)
                                     PyNone |};
                calls := [] |}).
  pose proof (guess_without_reference_point s0 (model_mul bg fg) frequency data
                (fitter_dict_model _ _ _ _ _) Hr) as Hguess.
  rewrite (fit_run s0 _ frequency data errors (model_mul bg fg) P kw _
             (fitter_dict_frequency _ _ _ _ _) (fitter_dict_data _ _ _ _ _)
             (fitter_dict_errors _ _ _ _ _) (fitter_dict_model _ _ _ _ _)
             (fitter_dict_guess _ _ _ _ _) Hguess).
  by eexists _, _.
Qed.

(** ** The initial model, the foreground data *)

(** X6.  On a fitter with a stored result, [initial_model_values] is
    [model_values] at the parameters the stored fit started from
    ([result.initial_params]), with the same default for the frequency. *)
Theorem initial_model_values_at_initial_params (s : state) (f : pyarray)
    (m : CompositeModel) (r : ModelResult) (fo : option pyarray) :
  dict (self s) !! "frequency" = Some (PyArray f) ->
  dict (self s) !! "model" = Some (PyModel m) ->
  dict (self s) !! "result" = Some (PyModelResult r) ->
  run (initial_model_values fo) s = run (model_values fo (Some (initial_params r))) s
  /\ run (initial_model_values fo) s =
     run (dot_eval (PyModel m) (initial_params r) (default f fo)) s.
Proof.
  intros Hf Hm Hr. unfold run.
  rewrite (model_values_run s f m r fo (Some (initial_params r)) Hf Hm Hr).
  cbn [default].
  assert (Hi : initial_model_values fo s =
               dot_eval (PyModel m) (initial_params r) (default f fo) s).
  { unfold initial_model_values.
    destruct fo as [f'|]; steps;
      rewrite ?(instance_attr_found _ _ _ Hf); cbv beta iota;
      rewrite (instance_attr_found _ _ _ Hm); cbv beta iota;
      rewrite (instance_attr_found _ _ _ Hr); reflexivity. }
  by split.
Qed.

(** X7.  [foreground_data] is [remove_background] on the stored frequency
    and data: its value when that returns, its exception when that raises
    anything but an AttributeError. *)
Theorem foreground_data_is_remove_background (s s' : state) (f d : pyarray) :
  dict (self s) !! "frequency" = Some (PyArray f) ->
  dict (self s) !! "data" = Some (PyArray d) ->
  dict (self s) !! "remove_background" = None ->
  (forall x, run (remove_background f d) s = (Ok x, s') ->
     run foreground_data s = (Ok (PyArray x), s'))
  /\ (forall e, run (remove_background f d) s = (Raise e, s') ->
        kind e <> AttributeError ->
        run foreground_data s = (Raise e, s')).
Proof.
  intros Hf Hd Hsh. unfold run, foreground_data, property, try_except.
  split.
  - intros x Hrb. steps.
    rewrite (self_method_run _ _ Hsh). cbv beta iota.
    rewrite (instance_attr_found _ _ _ Hf). cbv beta iota.
    rewrite (instance_attr_found _ _ _ Hd). cbv beta iota.
    by rewrite Hrb.
  - intros e Hrb Hk. steps.
    rewrite (self_method_run _ _ Hsh). cbv beta iota.
    rewrite (instance_attr_found _ _ _ Hf). cbv beta iota.
    rewrite (instance_attr_found _ _ _ Hd). cbv beta iota.
    rewrite Hrb. by destruct (decide (kind e = AttributeError)).
Qed.

(** X8.  [remove_background] with a background that evaluates to a single
    complex value (continuous-wave data taken at one frequency) divides
    every data point by that value; with a background array and a data
    array of two different lengths, both above one, it raises a ValueError;
    and when the background evaluation raises, so does it.  In each case
    the background model is evaluated once, at the best-fit parameters. *)
Theorem remove_background_broadcasts (s : state) (m : CompositeModel) (r : ModelResult)
    (f d : pyarray) :
  dict (self s) !! "model" = Some (PyModel m) ->
  dict (self s) !! "result" = Some (PyModelResult r) ->
  (forall b, bg_eval (left m) (params r) f = Ok (CArr (Scalar b)) ->
     run (remove_background f d) s =
     (Ok (CArr (nd_map (fun z => cdiv z b) (as_complex d))),
      logged s [BackgroundEval (params r) f]))
  /\ (forall lb ld, bg_eval (left m) (params r) f = Ok (CArr (Array1 lb)) ->
        as_complex d = Array1 ld ->
        length ld <> length lb -> 1 < length ld -> 1 < length lb ->
        exists msg,
          run (remove_background f d) s =
          (Raise (Exn ValueError msg), logged s [BackgroundEval (params r) f]))
  /\ (forall e, bg_eval (left m) (params r) f = Raise e ->
        run (remove_background f d) s =
        (Raise e, logged s [BackgroundEval (params r) f])).
Proof.
  intros Hm Hr. unfold run. rewrite (remove_background_run s m r f d Hm Hr).
  split; [|split].
  - intros b ->. by rewrite divide_by_scalar.
  - intros lb ld -> Hd Hne H1 H2.
    assert (Hdiv : np_true_divide d (CArr (Array1 lb)) =
                   res_map CArr (broadcast cdiv (as_complex d) (Array1 lb)))
      by (by destruct d).
    rewrite Hdiv, Hd. unfold broadcast.
    destruct (Nat.eqb_spec (length ld) (length lb)) as [Heq|_]; [contradiction|].
    destruct ld as [|x [|x' ld]]; cbn [length] in H1; [lia | lia |].
    destruct lb as [|y [|y' lb]]; cbn [length] in H2; [lia | lia |].
    by eexists.
  - by intros e ->.
Qed.

(** ** What the methods leave alone *)

Create HintDb reading.

#[local] Hint Resolve read_only_ret read_only_raise read_only_lift read_only_get_self
  read_only_call read_only_self_result read_only_dot_params read_only_getattr__
  read_only_instance_attr read_only_binop read_only_expect_array
  read_only_dot_left read_only_dot_right
  read_only_dot_reference_point read_only_dot_guess read_only_dot_eval
  read_only_lookup_guess read_only_lookup_eval read_only_lookup_fit
  read_only_self_method read_only_background_model read_only_foreground_model
  read_only_weights read_only_guess read_only_remove_background : reading.

Ltac reads :=
  repeat first
    [ progress auto with reading
    | apply read_only_bind; [| intros ?]
    | apply read_only_property
    | apply read_only_try_except
    | match goal with
      | |- read_only (match ?x with _ => _ end) => destruct x
      end ].

Lemma read_only_dot_initial_params (r : pyobject) : read_only (dot_initial_params r).
Proof. destruct r; first [apply read_only_ret | apply read_only_raise]. Qed.

Lemma read_only_model_values (fo : option pyarray) (po : option Params) :
  read_only (model_values fo po).
Proof. unfold model_values. reads. Qed.

Lemma read_only_initial_model_values (fo : option pyarray) :
  read_only (initial_model_values fo).
Proof.
  unfold initial_model_values. pose proof read_only_dot_initial_params. reads.
Qed.

Lemma read_only_remove_background_and_invert (raw f : pyarray) :
  read_only (remove_background_and_invert raw f).
Proof. unfold remove_background_and_invert, invert. reads. Qed.

Lemma read_only_properties :
  Forall (fun np : string * Py pyobject => read_only (snd np)) properties.
Proof.
  unfold properties.
  repeat (apply Forall_cons; split;
          [ cbn [snd];
            cbv delta [foreground_data f_r f_r_error omega_r omega_r_error total_loss
                         total_loss_error coupling_quality_factor Q_c
                         coupling_quality_factor_error Q_c_error internal_quality_factor
                         Q_i internal_quality_factor_error Q_i_error total_quality_factor
                         Q_t total_quality_factor_error Q_t_error
                         coupling_energy_decay_rate coupling_energy_decay_rate_error
                         internal_energy_decay_rate internal_energy_decay_rate_error
                         total_energy_decay_rate total_energy_decay_rate_error
                         py_truediv py_add py_mul py_pow];
            reads
          | ]).
  apply Forall_nil_2.
Qed.

Lemma assoc_elem_of {A} (name : string) (l : list (string * A)) (a : A) :
  assoc name l = Some a -> (name, a) ∈ l.
Proof.
  induction l as [|[k v] l IH]; cbn [assoc]; [discriminate|].
  destruct (String.eqb_spec name k) as [->|_].
  - intros [= ->]. apply list_elem_of_here.
  - intros Ha. apply list_elem_of_further, IH, Ha.
Qed.

Lemma read_only_getattr (name : string) : read_only (getattr name).
Proof.
  unfold getattr. destruct (assoc name properties) as [p|] eqn:Hp.
  - apply assoc_elem_of in Hp.
    exact (proj1 (Forall_forall _ _) read_only_properties _ Hp).
  - reads.
Qed.

Lemma touches_only_read_only {A} (names : list string) (m : Py A) :
  read_only m -> touches_only names m.
Proof. intros Hm s. destruct (Hm s) as [es ->]. by split. Qed.

Lemma touches_only_bind {A B} (names : list string) (m : Py A) (k : A -> Py B) :
  touches_only names m -> (forall a, touches_only names (k a)) ->
  touches_only names (bind m k).
Proof.
  intros Hm Hk s. unfold bind. destruct (Hm s) as [Hc Hd].
  destruct (m s) as [[a|e] s1]; cbn [snd] in *; [|by split].
  destruct (Hk a s1) as [Hc' Hd']. split; [by rewrite Hc'|].
  intros k' Hk'. by rewrite Hd', Hd.
Qed.

Lemma touches_only_setattr (names : list string) (name : string) (v : pyobject) :
  name ∈ names -> touches_only names (setattr name v).
Proof.
  intros Hn s. cbn. split; [reflexivity|].
  intros k Hk. apply lookup_insert_ne. by intros ->.
Qed.

Lemma touches_only_weaken {A} (names names' : list string) (m : Py A) :
  names ⊆ names' -> touches_only names m -> touches_only names' m.
Proof.
  intros Hsub Hm s. destruct (Hm s) as [Hc Hd]. split; [exact Hc|].
  intros k Hk. apply Hd. intros Hin. apply Hk, Hsub, Hin.
Qed.

Lemma read_only_optional_array (x : pyobject) : read_only (optional_array x).
Proof. destruct x; first [apply read_only_ret | apply read_only_raise]. Qed.

Lemma read_only_dot_fit (m : pyobject) (f d : pyarray) (w : option pyarray)
    (p : Params) (kw : fit_kwds) :
  read_only (dot_fit m f d w p kw).
Proof. destruct m; first [apply read_only_call | apply read_only_raise]. Qed.

Lemma touches_only_fit (P : option Params) (kw : fit_kwds) :
  touches_only ["result"] (fit P kw).
Proof.
  unfold fit. cbv zeta.
  repeat (apply touches_only_bind;
          [apply touches_only_read_only;
           first [apply read_only_optional_array | apply read_only_dot_fit | by reads]
          | intros ?]).
  apply touches_only_setattr, list_elem_of_here.
Qed.

(** X10.  Whatever the state of the instance and whether it returns or
    raises, [fit] changes no entry of the instance's [__dict__] other than
    [result], and [__init__] none other than [frequency], [data], [errors],
    [model] and [result]; neither changes the class of the instance. *)
Theorem fit_touches_only_result (frequency data : pyarray) (fg : ResonatorModel)
    (bg : BackgroundModel) (errors : option pyarray) (P : option Params)
    (kw : fit_kwds) :
  touches_only ["result"] (fit P kw)
  /\ touches_only ["frequency"; "data"; "errors"; "model"; "result"]
       (__init__ frequency data fg bg errors P kw).
Proof.
  split; [apply touches_only_fit|].
  unfold __init__.
  destruct (negb (iscomplexobj data)); [apply touches_only_read_only, read_only_raise|].
  match goal with |- touches_only _ (if ?b then _ else _) => destruct b end;
    [apply touches_only_read_only, read_only_raise|].
  do 6 (apply touches_only_bind;
        [first [ apply touches_only_setattr; set_solver
               | apply touches_only_read_only, read_only_self_method ]
        | intros ?]).
  apply (touches_only_weaken ["result"]); [|apply touches_only_fit].
  intros k ->%list_elem_of_singleton. by repeat constructor.
Qed.

(** X16.  [remove_background_and_invert] does the work of
    [remove_background] before it fails: the background model is evaluated
    once at the best-fit parameters and the data divided by it; an
    exception of that evaluation or of the division is the one raised, and
    the NotImplementedError of [invert] only when both return. *)
Theorem remove_background_and_invert_divides_first (s : state) (m : CompositeModel)
    (r : ModelResult) (raw f : pyarray) :
  dict (self s) !! "model" = Some (PyModel m) ->
  dict (self s) !! "result" = Some (PyModelResult r) ->
  dict (self s) !! "invert" = None ->
  dict (self s) !! "remove_background" = None ->
  run (remove_background_and_invert raw f) s =
  (match bg_eval (left m) (params r) f with
   | Raise e => Raise e
   | Ok b =>
       match np_true_divide raw b with
       | Raise e => Raise e
       | Ok _ =>
           Raise (Exn NotImplementedError
                    "Subclasses should implement this using their scattering parameter model.")
       end
   end,
   logged s [BackgroundEval (params r) f]).
Proof.
  intros Hm Hr Hi Hrb. unfold run, remove_background_and_invert, bind.
  rewrite (self_method_run _ _ Hi), (self_method_run _ _ Hrb).
  rewrite (remove_background_run s m r f raw Hm Hr).
  destruct (bg_eval (left m) (params r) f) as [b|e]; [|reflexivity].
  destruct (np_true_divide raw b) as [x|e]; reflexivity.
Qed.

(** ** Derived quantities on a result that lacks what they need *)

Lemma property_raise (name : string) (getter : Py pyobject) (s s' : state) (e : exn) :
  getter s = (Raise e, s') -> kind e <> AttributeError ->
  property name getter s = (Raise e, s').
Proof.
  intros Hg Hk. unfold property, try_except. rewrite Hg.
  by destruct (decide (kind e = AttributeError)).
Qed.

Lemma kind_missing (c name : string) : kind (missing c name) = AttributeError.
Proof. unfold missing. by destruct (endswith name "_error"). Qed.

Ltac listed :=
  unfold derived_quantities, properties; cbn [drop map fst app];
  repeat first [apply list_elem_of_here | apply list_elem_of_further].

Ltac arith :=
  cbv beta iota delta [py_int py_pi of_float np_multiply np_add np_true_divide
                         np_power ufunc broadcast res_map].

Section Lacking.

Variables (c : string) (frequency data : pyarray) (errors : option pyarray)
  (m : CompositeModel) (r : ModelResult) (log : list event).

Let s : state := fitted c frequency data errors m r log.

Lemma missing_attr (name : string) :
  fitter_dict frequency data errors m (PyModelResult r) !! name = None ->
  params r !! parameter_of name = None ->
  instance_attr name s = (Raise (missing c name), s).
Proof.
  intros Hd Hp. rewrite (instance_attr_missing s name Hd).
  rewrite (getattr___run s r name (fitter_dict_result _ _ _ _ _)).
  unfold parameter_of, missing in *.
  destruct (endswith name "_error"); by rewrite Hp.
Qed.

Lemma property_missing (name : string) (getter : Py pyobject) (e : exn) :
  getter s = (Raise e, s) -> kind e = AttributeError ->
  params r !! parameter_of name = None ->
  property name getter s = (Raise (missing c name), s).
Proof.
  intros Hg Hk Hp. unfold property, try_except. rewrite Hg.
  destruct (decide (kind e = AttributeError)); [|contradiction].
  rewrite (getattr___run s r name (fitter_dict_result _ _ _ _ _)).
  unfold parameter_of, missing in *.
  destruct (endswith name "_error"); by rewrite Hp.
Qed.

Lemma none_attr (name : string) (p : Param) :
  fitter_dict frequency data errors m (PyModelResult r) !! (name ++ "_error") = None ->
  params r !! name = Some p ->
  stderr p = None ->
  instance_attr (name ++ "_error") s = (Ok PyNone, s).
Proof.
  intros Hd Hp He. rewrite (instance_attr_missing s _ Hd).
  rewrite (getattr___run s r _ (fitter_dict_result _ _ _ _ _)).
  rewrite endswith_append, drop_last_append, Hp. unfold stderr_object.
  by rewrite He.
Qed.

Section Absent.

Hypothesis Hnone :
  forall n, n ∈ (["resonance_frequency"; "coupling_loss"; "internal_loss"]
                 ++ map fst derived_quantities)%list ->
            params r !! parameter_of n = None.

Lemma absent_resonance_frequency :
  instance_attr "resonance_frequency" s = (Raise (missing c "resonance_frequency"), s).
Proof.
  apply missing_attr; [by apply fitter_dict_other|].
  apply (Hnone "resonance_frequency"). listed.
Qed.

Lemma absent_coupling_loss :
  instance_attr "coupling_loss" s = (Raise (missing c "coupling_loss"), s).
Proof.
  apply missing_attr; [by apply fitter_dict_other|].
  apply (Hnone "coupling_loss"). listed.
Qed.

Lemma absent_internal_loss :
  instance_attr "internal_loss" s = (Raise (missing c "internal_loss"), s).
Proof.
  apply missing_attr; [by apply fitter_dict_other|].
  apply (Hnone "internal_loss"). listed.
Qed.

Lemma absent_resonance_frequency_error :
  instance_attr "resonance_frequency_error" s =
  (Raise (missing c "resonance_frequency_error"), s).
Proof.
  apply missing_attr; [by apply fitter_dict_other|].
  apply (Hnone "resonance_frequency"). listed.
Qed.

Lemma absent_coupling_loss_error :
  instance_attr "coupling_loss_error" s = (Raise (missing c "coupling_loss_error"), s).
Proof.
  apply missing_attr; [by apply fitter_dict_other|].
  apply (Hnone "coupling_loss"). listed.
Qed.

Lemma absent_internal_loss_error :
  instance_attr "internal_loss_error" s = (Raise (missing c "internal_loss_error"), s).
Proof.
  apply missing_attr; [by apply fitter_dict_other|].
  apply (Hnone "internal_loss"). listed.
Qed.

(** A getter whose first attribute read fails. *)
Ltac absent name :=
  eapply property_missing;
  [ steps;
    repeat (rewrite ?absent_resonance_frequency, ?absent_coupling_loss,
              ?absent_internal_loss, ?absent_resonance_frequency_error,
              ?absent_coupling_loss_error, ?absent_internal_loss_error;
            arith);
    reflexivity
  | apply kind_missing
  | apply (Hnone name); listed ].

Lemma absent_f_r : f_r s = (Raise (missing c "f_r"), s).
Proof. absent "f_r". Qed.

Lemma absent_f_r_error : f_r_error s = (Raise (missing c "f_r_error"), s).
Proof. absent "f_r_error". Qed.

Lemma absent_omega_r : omega_r s = (Raise (missing c "omega_r"), s).
Proof. absent "omega_r". Qed.

Lemma absent_omega_r_error : omega_r_error s = (Raise (missing c "omega_r_error"), s).
Proof. absent "omega_r_error". Qed.

Lemma absent_total_loss : total_loss s = (Raise (missing c "total_loss"), s).
Proof. absent "total_loss". Qed.

Lemma absent_total_loss_error :
  total_loss_error s = (Raise (missing c "total_loss_error"), s).
Proof. absent "total_loss_error". Qed.

Lemma absent_coupling_quality_factor :
  coupling_quality_factor s = (Raise (missing c "coupling_quality_factor"), s).
Proof. absent "coupling_quality_factor". Qed.

Lemma absent_coupling_quality_factor_error :
  coupling_quality_factor_error s =
  (Raise (missing c "coupling_quality_factor_error"), s).
Proof. absent "coupling_quality_factor_error". Qed.

Lemma absent_internal_quality_factor :
  internal_quality_factor s = (Raise (missing c "internal_quality_factor"), s).
Proof. absent "internal_quality_factor". Qed.

Lemma absent_internal_quality_factor_error :
  internal_quality_factor_error s =
  (Raise (missing c "internal_quality_factor_error"), s).
Proof. absent "internal_quality_factor_error". Qed.

Lemma absent_total_quality_factor :
  total_quality_factor s = (Raise (missing c "total_quality_factor"), s).
Proof. absent "total_quality_factor". Qed.

(** A getter whose first read is of another property, which fails. *)
Ltac absent_after name first_read :=
  eapply property_missing;
  [ first [ exact first_read | steps; rewrite first_read; reflexivity ]
  | apply kind_missing
  | apply (Hnone name); listed ].

Lemma absent_Q_c : Q_c s = (Raise (missing c "Q_c"), s).
Proof. absent_after "Q_c" absent_coupling_quality_factor. Qed.

Lemma absent_Q_c_error : Q_c_error s = (Raise (missing c "Q_c_error"), s).
Proof. absent_after "Q_c_error" absent_coupling_quality_factor_error. Qed.

Lemma absent_Q_i : Q_i s = (Raise (missing c "Q_i"), s).
Proof. absent_after "Q_i" absent_internal_quality_factor. Qed.

Lemma absent_Q_i_error : Q_i_error s = (Raise (missing c "Q_i_error"), s).
Proof. absent_after "Q_i_error" absent_internal_quality_factor_error. Qed.

Lemma absent_Q_t : Q_t s = (Raise (missing c "Q_t"), s).
Proof. absent_after "Q_t" absent_total_quality_factor. Qed.

Lemma absent_total_quality_factor_error :
  total_quality_factor_error s = (Raise (missing c "total_quality_factor_error"), s).
Proof. absent_after "total_quality_factor_error" absent_total_loss_error. Qed.

Lemma absent_Q_t_error : Q_t_error s = (Raise (missing c "Q_t_error"), s).
Proof. absent_after "Q_t_error" absent_total_quality_factor_error. Qed.

Lemma absent_coupling_energy_decay_rate :
  coupling_energy_decay_rate s = (Raise (missing c "coupling_energy_decay_rate"), s).
Proof. absent_after "coupling_energy_decay_rate" absent_omega_r. Qed.

Lemma absent_internal_energy_decay_rate :
  internal_energy_decay_rate s = (Raise (missing c "internal_energy_decay_rate"), s).
Proof. absent_after "internal_energy_decay_rate" absent_omega_r. Qed.

Lemma absent_total_energy_decay_rate :
  total_energy_decay_rate s = (Raise (missing c "total_energy_decay_rate"), s).
Proof. absent_after "total_energy_decay_rate" absent_omega_r. Qed.

Lemma absent_coupling_energy_decay_rate_error :
  coupling_energy_decay_rate_error s =
  (Raise (missing c "coupling_energy_decay_rate_error"), s).
Proof.
  absent_after "coupling_energy_decay_rate_error" absent_coupling_energy_decay_rate.
Qed.

Lemma absent_internal_energy_decay_rate_error :
  internal_energy_decay_rate_error s =
  (Raise (missing c "internal_energy_decay_rate_error"), s).
Proof.
  absent_after "internal_energy_decay_rate_error" absent_internal_energy_decay_rate.
Qed.

Lemma absent_total_energy_decay_rate_error :
  total_energy_decay_rate_error s =
  (Raise (missing c "total_energy_decay_rate_error"), s).
Proof.
  absent_after "total_energy_decay_rate_error" absent_total_energy_decay_rate.
Qed.

End Absent.

Section Unestimated.

Variables (pf pc pi_ : Param).
Hypothesis Hf : params r !! "resonance_frequency" = Some pf.
Hypothesis Hc : params r !! "coupling_loss" = Some pc.
Hypothesis Hi : params r !! "internal_loss" = Some pi_.
Hypothesis Hsf : stderr pf = None.
Hypothesis Hsc : stderr pc = None.
Hypothesis Hsi : stderr pi_ = None.

Local Abbreviation unsupported := (Exn TypeError "unsupported operand type(s)").

Lemma none_resonance_frequency_error :
  instance_attr "resonance_frequency_error" s = (Ok PyNone, s).
Proof.
  apply (none_attr "resonance_frequency" pf);
    [by apply fitter_dict_other | exact Hf | exact Hsf].
Qed.

Lemma none_coupling_loss_error :
  instance_attr "coupling_loss_error" s = (Ok PyNone, s).
Proof.
  apply (none_attr "coupling_loss" pc);
    [by apply fitter_dict_other | exact Hc | exact Hsc].
Qed.

Lemma none_internal_loss_error :
  instance_attr "internal_loss_error" s = (Ok PyNone, s).
Proof.
  apply (none_attr "internal_loss" pi_);
    [by apply fitter_dict_other | exact Hi | exact Hsi].
Qed.

Lemma have_resonance_frequency :
  instance_attr "resonance_frequency" s = (Ok (of_float (value pf)), s).
Proof. exact (attr_resonance_frequency c frequency data errors m r log pf Hf). Qed.

Lemma have_coupling_loss :
  instance_attr "coupling_loss" s = (Ok (of_float (value pc)), s).
Proof. exact (attr_coupling_loss c frequency data errors m r log pc Hc). Qed.

Lemma have_internal_loss :
  instance_attr "internal_loss" s = (Ok (of_float (value pi_)), s).
Proof. exact (attr_internal_loss c frequency data errors m r log pi_ Hi). Qed.

Lemma have_coupling_energy_decay_rate :
  coupling_energy_decay_rate s = (Ok (of_float (table_rate (value pf) (value pc))), s).
Proof.
  exact (coupling_energy_decay_rate_run c frequency data errors m r log pf pc Hf Hc).
Qed.

Lemma have_internal_energy_decay_rate :
  internal_energy_decay_rate s = (Ok (of_float (table_rate (value pf) (value pi_))), s).
Proof.
  exact (internal_energy_decay_rate_run c frequency data errors m r log pf pi_ Hf Hi).
Qed.

Lemma have_total_energy_decay_rate :
  total_energy_decay_rate s =
  (Ok (of_float (table_rate (value pf) (fadd (value pi_) (value pc)))), s).
Proof.
  exact (total_energy_decay_rate_run c frequency data errors m r log pf pc pi_ Hf Hc Hi).
Qed.

Lemma none_f_r_error : f_r_error s = (Ok PyNone, s).
Proof. apply property_ok, none_resonance_frequency_error. Qed.

(** A getter that computes with a standard error that is [None]. *)
Ltac unestimated :=
  apply property_raise; [|discriminate];
  steps;
  repeat (rewrite ?none_resonance_frequency_error, ?none_coupling_loss_error,
            ?none_internal_loss_error,
            ?have_resonance_frequency, ?have_coupling_loss, ?have_internal_loss;
          arith);
  reflexivity.

Lemma none_omega_r_error : omega_r_error s = (Raise unsupported, s).
Proof. unestimated. Qed.

Lemma none_total_loss_error : total_loss_error s = (Raise unsupported, s).
Proof. unestimated. Qed.

Lemma none_coupling_quality_factor_error :
  coupling_quality_factor_error s = (Raise unsupported, s).
Proof. unestimated. Qed.

Lemma none_internal_quality_factor_error :
  internal_quality_factor_error s = (Raise unsupported, s).
Proof. unestimated. Qed.

Ltac unestimated_after first_read :=
  apply property_raise; [|discriminate];
  first [ exact first_read
        | steps; rewrite first_read; cbv beta iota;
          repeat (rewrite ?none_resonance_frequency_error, ?none_coupling_loss_error,
                    ?none_internal_loss_error,
                    ?have_resonance_frequency, ?have_coupling_loss,
                    ?have_internal_loss;
                  arith);
          reflexivity ].

Lemma none_Q_c_error : Q_c_error s = (Raise unsupported, s).
Proof. unestimated_after none_coupling_quality_factor_error. Qed.

Lemma none_Q_i_error : Q_i_error s = (Raise unsupported, s).
Proof. unestimated_after none_internal_quality_factor_error. Qed.

Lemma none_total_quality_factor_error :
  total_quality_factor_error s = (Raise unsupported, s).
Proof. unestimated_after none_total_loss_error. Qed.

Lemma none_Q_t_error : Q_t_error s = (Raise unsupported, s).
Proof. unestimated_after none_total_quality_factor_error. Qed.

Lemma none_coupling_energy_decay_rate_error :
  coupling_energy_decay_rate_error s = (Raise unsupported, s).
Proof.
  unestimated_after have_coupling_energy_decay_rate.
Qed.

Lemma none_internal_energy_decay_rate_error :
  internal_energy_decay_rate_error s = (Raise unsupported, s).
Proof.
  unestimated_after have_internal_energy_decay_rate.
Qed.

Lemma none_total_energy_decay_rate_error :
  total_energy_decay_rate_error s = (Raise unsupported, s).
Proof.
  unestimated_after have_total_energy_decay_rate.
Qed.

End Unestimated.

End Lacking.

(** X11.  On a fitter whose result has neither the three standard
    parameters ([resonance_frequency], [coupling_loss], [internal_loss])
    nor a parameter under the name of a derived quantity, every derived
    quantity fails with the AttributeError that [__getattr__] raises for
    the name of that quantity itself: the parameter whose absence is the
    cause is not named.  The fitter is unchanged. *)
Theorem derived_quantities_without_parameters (c : string) (frequency data : pyarray)
    (errors : option pyarray) (m : CompositeModel) (r : ModelResult) (log : list event) :
  (forall n, n ∈ (["resonance_frequency"; "coupling_loss"; "internal_loss"]
                  ++ map fst derived_quantities)%list ->
             params r !! parameter_of n = None) ->
  forall name getter,
    (name, getter) ∈ derived_quantities ->
    run getter (fitted c frequency data errors m r log) =
    (Raise (missing c name), fitted c frequency data errors m r log).
Proof.
  intros Hnone name getter Hin. unfold run.
  set (s := fitted c frequency data errors m r log).
  assert (Hall : Forall (fun np : string * Py pyobject =>
                           snd np s = (Raise (missing c (fst np)), s))
                        derived_quantities).
  { unfold derived_quantities, properties. cbn [drop].
    repeat apply Forall_cons_2; [..|apply Forall_nil_2]; cbn [fst snd].
    - exact (absent_f_r c frequency data errors m r log Hnone).
    - exact (absent_f_r_error c frequency data errors m r log Hnone).
    - exact (absent_omega_r c frequency data errors m r log Hnone).
    - exact (absent_omega_r_error c frequency data errors m r log Hnone).
    - exact (absent_total_loss c frequency data errors m r log Hnone).
    - exact (absent_total_loss_error c frequency data errors m r log Hnone).
    - exact (absent_coupling_quality_factor c frequency data errors m r log Hnone).
    - exact (absent_Q_c c frequency data errors m r log Hnone).
    - exact (absent_coupling_quality_factor_error c frequency data errors m r log Hnone).
    - exact (absent_Q_c_error c frequency data errors m r log Hnone).
    - exact (absent_internal_quality_factor c frequency data errors m r log Hnone).
    - exact (absent_Q_i c frequency data errors m r log Hnone).
    - exact (absent_internal_quality_factor_error c frequency data errors m r log Hnone).
    - exact (absent_Q_i_error c frequency data errors m r log Hnone).
    - exact (absent_total_quality_factor c frequency data errors m r log Hnone).
    - exact (absent_Q_t c frequency data errors m r log Hnone).
    - exact (absent_total_quality_factor_error c frequency data errors m r log Hnone).
    - exact (absent_Q_t_error c frequency data errors m r log Hnone).
    - exact (absent_coupling_energy_decay_rate c frequency data errors m r log Hnone).
    - exact (absent_coupling_energy_decay_rate_error c frequency data errors m r log Hnone).
    - exact (absent_internal_energy_decay_rate c frequency data errors m r log Hnone).
    - exact (absent_internal_energy_decay_rate_error c frequency data errors m r log Hnone).
    - exact (absent_total_energy_decay_rate c frequency data errors m r log Hnone).
    - exact (absent_total_energy_decay_rate_error c frequency data errors m r log Hnone).
  }
  exact (proj1 (Forall_forall _ _) Hall (name, getter) Hin).
Qed.

(** X12.  On a fitter whose result has the three standard parameters, none
    with a standard error (lmfit leaves [stderr] at [None] when it cannot
    estimate the uncertainties): [f_r_error] reads as [None], and every
    other derived quantity whose name ends in [_error] raises a TypeError,
    the fitter unchanged. *)
Theorem derived_errors_without_stderr (c : string) (frequency data : pyarray)
    (errors : option pyarray) (m : CompositeModel) (r : ModelResult) (log : list event)
    (pf pc pi_ : Param) :
  params r !! "resonance_frequency" = Some pf ->
  params r !! "coupling_loss" = Some pc ->
  params r !! "internal_loss" = Some pi_ ->
  stderr pf = None -> stderr pc = None -> stderr pi_ = None ->
  run f_r_error (fitted c frequency data errors m r log) =
    (Ok PyNone, fitted c frequency data errors m r log)
  /\ forall name getter,
       (name, getter) ∈ derived_quantities ->
       endswith name "_error" = true -> name <> "f_r_error" ->
       exists msg,
         run getter (fitted c frequency data errors m r log) =
         (Raise (Exn TypeError msg), fitted c frequency data errors m r log).
Proof.
  intros Hf Hc Hi Hsf Hsc Hsi. unfold run.
  split; [exact (none_f_r_error c frequency data errors m r log pf Hf Hsf)|].
  set (s := fitted c frequency data errors m r log).
  assert (Hall : Forall (fun np : string * Py pyobject =>
                           endswith (fst np) "_error" = true -> fst np <> "f_r_error" ->
                           exists msg, snd np s = (Raise (Exn TypeError msg), s))
                        derived_quantities).
  { unfold derived_quantities, properties. cbn [drop].
    repeat apply Forall_cons_2; [..|apply Forall_nil_2]; cbn [fst snd].
    - intros He. vm_compute in He. discriminate He.
    - intros _ Hn. by destruct Hn.
    - intros He. vm_compute in He. discriminate He.
    - intros _ _. eexists.
      eapply none_omega_r_error; eassumption.
    - intros He. vm_compute in He. discriminate He.
    - intros _ _. eexists.
      eapply none_total_loss_error; eassumption.
    - intros He. vm_compute in He. discriminate He.
    - intros He. vm_compute in He. discriminate He.
    - intros _ _. eexists.
      eapply none_coupling_quality_factor_error; eassumption.
    - intros _ _. eexists.
      eapply none_Q_c_error; eassumption.
    - intros He. vm_compute in He. discriminate He.
    - intros He. vm_compute in He. discriminate He.
    - intros _ _. eexists.
      eapply none_internal_quality_factor_error; eassumption.
    - intros _ _. eexists.
      eapply none_Q_i_error; eassumption.
    - intros He. vm_compute in He. discriminate He.
    - intros He. vm_compute in He. discriminate He.
    - intros _ _. eexists.
      eapply none_total_quality_factor_error; eassumption.
    - intros _ _. eexists.
      eapply none_Q_t_error; eassumption.
    - intros He. vm_compute in He. discriminate He.
    - intros _ _. eexists.
      eapply none_coupling_energy_decay_rate_error; eassumption.
    - intros He. vm_compute in He. discriminate He.
    - intros _ _. eexists.
      eapply none_internal_energy_decay_rate_error; eassumption.
    - intros He. vm_compute in He. discriminate He.
    - intros _ _. eexists.
      eapply none_total_energy_decay_rate_error; eassumption.
  }
  intros name getter Hin. exact (proj1 (Forall_forall _ _) Hall (name, getter) Hin).
Qed.

(** ** The snapshot for plotting, [__dir__] *)

Section Plotting.
Context {N : Numpy}.

Ltac reads_steps :=
  cbv beta iota zeta delta [run bind ret lift raise res_map expect_array dot_params
                              lookup_eval dot_copy dot_min dot_max].

Lemma parameter_read (s : state) (r : ModelResult) (name : string) (p : Param) :
  dict (self s) !! name = None ->
  dict (self s) !! "result" = Some (PyModelResult r) ->
  endswith name "_error" = false ->
  params r !! name = Some p ->
  instance_attr name s = (Ok (of_float (value p)), s).
Proof.
  intros Hd Hr He Hp. rewrite (instance_attr_missing s name Hd).
  by rewrite (getattr___run s r name Hr), He, Hp.
Qed.

(** X13.  The snapshot without normalization, on a fitter whose result has
    a [resonance_frequency]: it holds the stored frequency and data, the
    model frequencies (the stored ones, or [num_model_points] of them from
    [linspace] between the smallest and the largest), [model_values] at
    the model frequencies, the resonance frequency and [model_values] at
    the resonance frequency; the model is evaluated twice, in that order. *)
Theorem snapshot_holds_model_values (s s1 s2 : state) (f d mf md rd : pyarray)
    (m : CompositeModel) (r : ModelResult) (p : Param) (n : option Z) :
  dict (self s) !! "frequency" = Some (PyArray f) ->
  dict (self s) !! "data" = Some (PyArray d) ->
  dict (self s) !! "model" = Some (PyModel m) ->
  dict (self s) !! "result" = Some (PyModelResult r) ->
  dict (self s) !! "resonance_frequency" = None ->
  params r !! "resonance_frequency" = Some p ->
  match n with
  | None => mf = f
  | Some k => exists lo hi, np_min f = Ok lo /\ np_max f = Ok hi
                            /\ np_linspace lo hi k = Ok mf
  end ->
  run (model_values (Some mf) None) s = (Ok md, s1) ->
  run (model_values (Some (FArr (Scalar (value p)))) None) s1 = (Ok rd, s2) ->
  run (measurement_model_resonance false n) s =
  (Ok {| measurement_frequency := PyArray f;
         measurement_data := PyArray d;
         model_frequency := PyArray mf;
         model_data := PyArray md;
         resonance_frequency := of_float (value p);
         resonance_data := PyArray rd |},
   s2).
Proof.
  intros Hf Hd Hm Hr Hsh Hp Hn Hmd Hrd. unfold run in *.
  destruct (read_only_run _ _ _ _ (read_only_model_values _ _) Hmd) as [es1 ->].
  destruct (read_only_run _ _ _ _ (read_only_model_values _ _) Hrd) as [es2 ->].
  rewrite (model_values_run s f m r _ _ Hf Hm Hr) in Hmd.
  rewrite (model_values_run (logged s es1) f m r _ _ Hf Hm Hr) in Hrd.
  cbv beta iota delta [default from_option Datatypes.id] in Hmd, Hrd.
  pose proof (parameter_read (logged s es1) r "resonance_frequency" p Hsh Hr eq_refl Hp)
    as Hfr1.
  pose proof (parameter_read (logged (logged s es1) es2) r "resonance_frequency" p
                Hsh Hr eq_refl Hp) as Hfr2.
  unfold measurement_model_resonance. reads_steps.
  rewrite (instance_attr_found _ _ _ Hf). cbv beta iota.
  rewrite (instance_attr_found _ _ _ Hd). cbv beta iota.
  destruct n as [k|].
  - destruct Hn as (lo & hi & Hlo & Hhi & Hlin).
    rewrite Hlo. cbv beta iota. rewrite Hhi. cbv beta iota. rewrite Hlin. cbv beta iota.
    rewrite (instance_attr_found _ _ _ Hm). cbv beta iota.
    rewrite (instance_attr_found _ _ _ Hr). cbv beta iota.
    rewrite Hmd.
    rewrite (instance_attr_found (logged s es1) _ _ Hm). cbv beta iota.
    rewrite (instance_attr_found (logged s es1) _ _ Hr). cbv beta iota.
    rewrite Hfr1. cbv beta iota delta [of_float].
    rewrite Hrd. by rewrite Hfr2.
  - subst mf.
    rewrite (instance_attr_found _ _ _ Hf). cbv beta iota.
    rewrite (instance_attr_found _ _ _ Hm). cbv beta iota.
    rewrite (instance_attr_found _ _ _ Hr). cbv beta iota.
    rewrite Hmd.
    rewrite (instance_attr_found (logged s es1) _ _ Hm). cbv beta iota.
    rewrite (instance_attr_found (logged s es1) _ _ Hr). cbv beta iota.
    rewrite Hfr1. cbv beta iota delta [of_float].
    rewrite Hrd. by rewrite Hfr2.
Qed.

(** X14.  The snapshot with [normalize=True] is the snapshot without it in
    which each of the three data fields has gone through
    [remove_background] at its own frequency: after the two evaluations of
    the model, the background is removed from the stored data, then from
    the model values, then from the value at resonance. *)
Theorem normalized_snapshot_removes_background (s s1 s2 s3 s4 s5 : state)
    (f d mf md rd d' md' rd' : pyarray) (m : CompositeModel) (r : ModelResult)
    (p : Param) (n : option Z) :
  dict (self s) !! "frequency" = Some (PyArray f) ->
  dict (self s) !! "data" = Some (PyArray d) ->
  dict (self s) !! "model" = Some (PyModel m) ->
  dict (self s) !! "result" = Some (PyModelResult r) ->
  dict (self s) !! "resonance_frequency" = None ->
  dict (self s) !! "remove_background" = None ->
  params r !! "resonance_frequency" = Some p ->
  match n with
  | None => mf = f
  | Some k => exists lo hi, np_min f = Ok lo /\ np_max f = Ok hi
                            /\ np_linspace lo hi k = Ok mf
  end ->
  run (model_values (Some mf) None) s = (Ok md, s1) ->
  run (model_values (Some (FArr (Scalar (value p)))) None) s1 = (Ok rd, s2) ->
  run (remove_background f d) s2 = (Ok d', s3) ->
  run (remove_background mf md) s3 = (Ok md', s4) ->
  run (remove_background (FArr (Scalar (value p))) rd) s4 = (Ok rd', s5) ->
  run (measurement_model_resonance true n) s =
  (Ok {| measurement_frequency := PyArray f;
         measurement_data := PyArray d';
         model_frequency := PyArray mf;
         model_data := PyArray md';
         resonance_frequency := of_float (value p);
         resonance_data := PyArray rd' |},
   s5).
Proof.
  intros Hf Hd Hm Hr Hsh Hrm Hp Hn Hmd Hrd Hd' Hmd' Hrd'. unfold run in *.
  destruct (read_only_run _ _ _ _ (read_only_model_values _ _) Hmd) as [es1 ->].
  destruct (read_only_run _ _ _ _ (read_only_model_values _ _) Hrd) as [es2 ->].
  destruct (read_only_run _ _ _ _ (read_only_remove_background _ _) Hd') as [es3 ->].
  destruct (read_only_run _ _ _ _ (read_only_remove_background _ _) Hmd') as [es4 ->].
  destruct (read_only_run _ _ _ _ (read_only_remove_background _ _) Hrd') as [es5 ->].
  rewrite (model_values_run s f m r _ _ Hf Hm Hr) in Hmd.
  rewrite (model_values_run (logged s es1) f m r _ _ Hf Hm Hr) in Hrd.
  cbv beta iota delta [default from_option Datatypes.id] in Hmd, Hrd.
  rewrite ?logged_logged in *. rewrite <- ?app_assoc in *.
  assert (Am : forall es, instance_attr "model" (logged s es)
                          = (Ok (PyModel m), logged s es))
    by (intros es; apply instance_attr_found, Hm).
  assert (Ar : forall es, instance_attr "result" (logged s es)
                          = (Ok (PyModelResult r), logged s es))
    by (intros es; apply instance_attr_found, Hr).
  assert (Afr : forall es, instance_attr "resonance_frequency" (logged s es)
                           = (Ok (of_float (value p)), logged s es))
    by (intros es; exact (parameter_read (logged s es) r _ p Hsh Hr eq_refl Hp)).
  assert (Arm : forall es, self_method "remove_background" (logged s es)
                           = (Ok tt, logged s es))
    by (intros es; apply self_method_run, Hrm).
  unfold measurement_model_resonance. reads_steps.
  rewrite (instance_attr_found _ _ _ Hf). cbv beta iota.
  rewrite (instance_attr_found _ _ _ Hd). cbv beta iota.
  destruct n as [k|].
  - destruct Hn as (lo & hi & Hlo & Hhi & Hlin).
    rewrite Hlo. cbv beta iota. rewrite Hhi. cbv beta iota. rewrite Hlin. cbv beta iota.
    rewrite (instance_attr_found _ _ _ Hm). cbv beta iota.
    rewrite (instance_attr_found _ _ _ Hr). cbv beta iota.
    rewrite Hmd.
    repeat (first [rewrite Am | rewrite Ar | rewrite Afr | rewrite Arm | rewrite Hrd
                  | rewrite Hd' | rewrite Hmd' | rewrite Hrd'];
            cbv beta iota delta [of_float]).
    reflexivity.
  - subst mf.
    rewrite (instance_attr_found _ _ _ Hf). cbv beta iota.
    rewrite (instance_attr_found _ _ _ Hm). cbv beta iota.
    rewrite (instance_attr_found _ _ _ Hr). cbv beta iota.
    rewrite Hmd.
    repeat (first [rewrite Am | rewrite Ar | rewrite Afr | rewrite Arm | rewrite Hrd
                  | rewrite Hd' | rewrite Hmd' | rewrite Hrd'];
            cbv beta iota delta [of_float]).
    reflexivity.
Qed.

Lemma string_le_total : Total string_le.
Proof. intros a b. apply String.leb_total. Qed.

(** X15.  On a fitter with a stored result, [__dir__] returns a list in
    which no name occurs twice, sorted in the order of strings, that holds
    exactly: the names of the class, the keys of the instance [__dict__],
    the names of the fit parameters, and each parameter name followed by
    [_error].  The fitter is unchanged. *)
Theorem dir_lists_parameters_and_errors (s : state) (r : ModelResult) :
  dict (self s) !! "result" = Some (PyModelResult r) ->
  exists names,
    run __dir__ s = (Ok names, s)
    /\ Sorted string_le names
    /\ NoDup names
    /\ forall n, n ∈ names <->
         n ∈ class_dir \/ is_Some (dict (self s) !! n) \/ is_Some (params r !! n)
         \/ exists q, is_Some (params r !! q) /\ n = q ++ "_error".
Proof.
  intros Hr. eexists. split.
  { unfold __dir__. reads_steps. unfold get_self.
    rewrite (instance_attr_found _ _ _ Hr). cbv beta iota.
    rewrite (instance_attr_found _ _ _ Hr). reflexivity. }
  unfold sorted_set. split; [|split].
  - pose proof string_le_total. apply Sorted_merge_sort. assumption.
  - rewrite merge_sort_Permutation. apply NoDup_remove_dups.
  - intros n.
    assert (Herr : n ∈ map (fun name => name ++ "_error") (elements (dom (params r)))
                   <-> exists q, is_Some (params r !! q) /\ n = q ++ "_error").
    { rewrite list_elem_of_In, in_map_iff. split.
      - intros (q & <- & Hq). exists q. split; [|reflexivity].
        by apply list_elem_of_In, elem_of_elements, elem_of_dom in Hq.
      - intros (q & Hq & ->). exists q. split; [reflexivity|].
        by apply list_elem_of_In, elem_of_elements, elem_of_dom. }
    rewrite merge_sort_Permutation, elem_of_remove_dups.
    rewrite !elem_of_app, !elem_of_elements, !elem_of_dom, Herr. reflexivity.
Qed.

Lemma read_only_dot_copy (x : pyobject) : read_only (dot_copy x).
Proof. destruct x; first [apply read_only_ret | apply read_only_raise]. Qed.

Lemma read_only_dot_min (x : pyobject) : read_only (dot_min x).
Proof. destruct x; first [apply read_only_lift | apply read_only_raise]. Qed.

Lemma read_only_dot_max (x : pyobject) : read_only (dot_max x).
Proof. destruct x; first [apply read_only_lift | apply read_only_raise]. Qed.

Lemma read_only_measurement_model_resonance (normalize : bool) (n : option Z) :
  read_only (measurement_model_resonance normalize n).
Proof.
  pose proof read_only_dot_copy. pose proof read_only_dot_min.
  pose proof read_only_dot_max.
  unfold measurement_model_resonance. reads.
Qed.

Lemma read_only___dir__ : read_only __dir__.
Proof. unfold __dir__. reads. Qed.

(** X9.  Reading any attribute of a fitter, and calling any of [guess],
    [model_values], [initial_model_values], [remove_background],
    [remove_background_and_invert], [measurement_model_resonance] and
    [__dir__], changes neither its class nor any entry of its [__dict__],
    whatever the state of the instance and whether the call returns or
    raises: all it does is call the models. *)
Theorem only_fit_changes_the_fitter :
  (forall name, read_only (getattr name))
  /\ (forall f d, read_only (guess f d))
  /\ (forall fo po, read_only (model_values fo po))
  /\ (forall fo, read_only (initial_model_values fo))
  /\ (forall f d, read_only (remove_background f d))
  /\ (forall raw f, read_only (remove_background_and_invert raw f))
  /\ (forall normalize n, read_only (measurement_model_resonance normalize n))
  /\ read_only __dir__.
Proof.
  split; [exact read_only_getattr|]. split; [exact read_only_guess|].
  split; [exact read_only_model_values|]. split; [exact read_only_initial_model_values|].
  split; [exact read_only_remove_background|].
  split; [exact read_only_remove_background_and_invert|].
  split; [exact read_only_measurement_model_resonance | exact read_only___dir__].
Qed.

End Plotting.

End Further.

(** * The derived quantities in exact arithmetic *)

Section ExactDerived.
Context {O : @Optimizer exact}.

Variables (c : string) (frequency data : @pyarray exact) (errors : option (@pyarray exact))
  (m : @CompositeModel exact) (r : @ModelResult exact) (log : list (@event exact O))
  (pf pc pi_ : @Param exact).

Hypothesis Hf : params r !! "resonance_frequency" = Some pf.
Hypothesis Hc : params r !! "coupling_loss" = Some pc.
Hypothesis Hi : params r !! "internal_loss" = Some pi_.

(** X17.  In exact arithmetic the total energy decay rate is the sum of the
    coupling and the internal energy decay rates. *)
Theorem energy_decay_rates_add_up :
  exists k kc ki : R,
    run total_energy_decay_rate (fitted c frequency data errors m r log) =
      (Ok (@of_float exact k), fitted c frequency data errors m r log)
    /\ run coupling_energy_decay_rate (fitted c frequency data errors m r log) =
       (Ok (@of_float exact kc), fitted c frequency data errors m r log)
    /\ run internal_energy_decay_rate (fitted c frequency data errors m r log) =
       (Ok (@of_float exact ki), fitted c frequency data errors m r log)
    /\ k = (kc + ki)%R.
Proof.
  exists (@table_rate exact (value pf) (fadd (value pi_) (value pc))),
         (@table_rate exact (value pf) (value pc)),
         (@table_rate exact (value pf) (value pi_)).
  split; [exact (total_energy_decay_rate_run c frequency data errors m r log
                   pf pc pi_ Hf Hc Hi)|].
  split; [exact (coupling_energy_decay_rate_run c frequency data errors m r log
                   pf pc Hf Hc)|].
  split; [exact (internal_energy_decay_rate_run c frequency data errors m r log
                   pf pi_ Hf Hi)|].
  unfold table_rate, table_omega. cbn [fmul fadd of_int pi exact]. ring.
Qed.

(** X18.  In exact arithmetic, for a coupling loss, an internal loss and a
    sum of the two that are not zero: the total quality factor is the
    inverse of the total loss, and its inverse is the sum of the inverses
    of the coupling and the internal quality factors. *)
Theorem quality_factors_combine :
  value pc <> 0%R -> value pi_ <> 0%R -> (value pi_ + value pc)%R <> 0%R ->
  exists qt qc qi lt : R,
    run total_quality_factor (fitted c frequency data errors m r log) =
      (Ok (@of_float exact qt), fitted c frequency data errors m r log)
    /\ run coupling_quality_factor (fitted c frequency data errors m r log) =
       (Ok (@of_float exact qc), fitted c frequency data errors m r log)
    /\ run internal_quality_factor (fitted c frequency data errors m r log) =
       (Ok (@of_float exact qi), fitted c frequency data errors m r log)
    /\ run total_loss (fitted c frequency data errors m r log) =
       (Ok (@of_float exact lt), fitted c frequency data errors m r log)
    /\ (qt * lt)%R = 1%R
    /\ (/ qt)%R = (/ qi + / qc)%R.
Proof.
  intros Hnc Hni Hnt.
  exists (@table_Q exact (fadd (value pi_) (value pc))),
         (@table_Q exact (value pc)), (@table_Q exact (value pi_)),
         (@fadd exact (value pi_) (value pc)).
  split; [exact (total_quality_factor_run c frequency data errors m r log pc pi_ Hc Hi)|].
  split; [exact (coupling_quality_factor_run c frequency data errors m r log pc Hc)|].
  split; [exact (internal_quality_factor_run c frequency data errors m r log pi_ Hi)|].
  split; [exact (total_loss_run c frequency data errors m r log pc pi_ Hc Hi)|].
  unfold table_Q. cbn [fdiv fadd of_int exact].
  split; field; auto.
Qed.

End ExactDerived.

(** * The further properties at work on the concrete models *)

Lemma guess_stops_at_first_failure_witness :
  dict (self Demo.failing_fitter) !! "model" = Some (PyModel Demo.failing_model)
  /\ reference_point (right Demo.failing_model) = Some (@Cx ieee (-1)%float 0%float)
  /\ exists d1,
       run (guess Demo.frequency Demo.data) Demo.failing_fitter =
       (Raise (Exn ValueError "no guess for these data"),
        logged Demo.failing_fitter [BackgroundGuess d1 Demo.frequency]).
Proof.
  split; [reflexivity|]. split; [reflexivity|].
  destruct (guess_stops_at_first_failure Demo.failing_fitter Demo.failing_model
              (@Cx ieee (-1)%float 0%float) Demo.frequency Demo.data eq_refl eq_refl)
    as (Hfirst & _).
  eexists. apply Hfirst. reflexivity.
Defined.

Lemma fit_fails_with_guess_witness :
  exists s1,
    run (guess Demo.frequency Demo.data) Demo.failing_fitter =
      (Raise (Exn ValueError "no guess for these data"), s1)
    /\ run (fit (H0 := Demo.optimizer) None tt) Demo.failing_fitter =
       (Raise (Exn ValueError "no guess for these data"), s1)
    /\ self s1 = self Demo.failing_fitter.
Proof.
  eexists. split; [reflexivity|].
  apply (fit_fails_with_guess (O := Demo.optimizer) Demo.failing_fitter _
           Demo.frequency Demo.data None
           Demo.failing_model None tt);
    reflexivity.
Defined.

Lemma refit_is_idempotent_witness :
  exists r es,
    run (fit (H0 := Demo.optimizer) None tt) Demo.fitter =
      (Ok tt, fitted "ResonatorFitter" Demo.frequency Demo.data None Demo.model r es)
    /\ run (fit (H0 := Demo.optimizer) None tt)
         (fitted "ResonatorFitter" Demo.frequency Demo.data None Demo.model r es) =
       (Ok tt,
        fitted "ResonatorFitter" Demo.frequency Demo.data None Demo.model r (es ++ es)%list).
Proof.
  destruct (run (fit (H0 := Demo.optimizer) None tt) Demo.fitter) as [o s1] eqn:Hfit.
  assert (Ho : o = Ok tt).
  { apply (f_equal fst) in Hfit. cbn [fst] in Hfit. rewrite <- Hfit. reflexivity. }
  subst o.
  destruct (refit_is_idempotent (O := Demo.optimizer) "ResonatorFitter" Demo.frequency Demo.data None Demo.model
              None tt Demo.result [] s1 Hfit) as (r & es & -> & Hagain & _).
  exists r, es. split; [reflexivity | exact Hagain].
Defined.

Lemma construction_makes_four_calls_witness :
  exists r d1 g d2 ip,
    Demo.construction =
    (Ok tt,
     fitted "ResonatorFitter" Demo.frequency Demo.data None Demo.model r
       [BackgroundGuess d1 Demo.frequency; BackgroundEval g Demo.frequency;
        ForegroundGuess d2 Demo.frequency;
        @ModelFit ieee Demo.optimizer Demo.frequency Demo.data None ip tt]).
Proof.
  eexists _, _, _, _, _. unfold Demo.construction.
  eapply (construction_makes_four_calls (O := Demo.optimizer) Demo.frequency Demo.data
            Demo.foreground Demo.background None None tt "ResonatorFitter"
            (@Cx ieee (-1)%float 0%float));
    reflexivity.
Defined.

Lemma construction_needs_reference_point_witness :
  reference_point Demo.base_foreground = None
  /\ exists msg s',
       run (__init__ (H0 := Demo.optimizer) Demo.frequency Demo.data Demo.base_foreground
              Demo.background None None tt) (fresh "ResonatorFitter")
       = (Raise (Exn TypeError msg), s')
       /\ calls s' = [].
Proof.
  split; [reflexivity|].
  apply (construction_needs_reference_point (O := Demo.optimizer)); reflexivity.
Defined.

Lemma initial_model_values_at_initial_params_witness :
  dict (self Demo.fitter) !! "result" = Some (PyModelResult Demo.result)
  /\ run (initial_model_values None) Demo.fitter =
     run (model_values None (Some (initial_params Demo.result))) Demo.fitter.
Proof.
  split; [reflexivity|].
  exact (proj1 (initial_model_values_at_initial_params Demo.fitter Demo.frequency
                  Demo.model Demo.result None eq_refl eq_refl eq_refl)).
Defined.

Lemma foreground_data_is_remove_background_witness :
  exists x s',
    run (remove_background Demo.frequency Demo.data) Demo.fitter = (Ok x, s')
    /\ run foreground_data Demo.fitter = (Ok (PyArray x), s').
Proof.
  eexists _, _. split; [reflexivity|].
  apply (proj1 (foreground_data_is_remove_background Demo.fitter _ Demo.frequency
                  Demo.data eq_refl eq_refl eq_refl)).
  reflexivity.
Defined.

Lemma remove_background_broadcasts_witness :
  bg_eval (left Demo.model) (params Demo.result) (@FArr ieee (Scalar 1%float))
    = Ok (CArr (Scalar (@Cx ieee 2%float 0%float)))
  /\ run (remove_background (@FArr ieee (Scalar 1%float)) Demo.data) Demo.fitter =
     (Ok (CArr (Array1 [@Cx ieee (-1)%float 0%float; @Cx ieee (-1)%float 0.5%float])),
      logged Demo.fitter [BackgroundEval (params Demo.result) (@FArr ieee (Scalar 1%float))]).
Proof.
  split; [reflexivity|].
  destruct (remove_background_broadcasts Demo.fitter Demo.model Demo.result
              (@FArr ieee (Scalar 1%float)) Demo.data eq_refl eq_refl) as (Hscalar & _).
  refine (eq_trans (Hscalar (@Cx ieee 2%float 0%float) eq_refl) _). reflexivity.
Defined.

Lemma derived_quantities_without_parameters_witness :
  run Q_i Demo.fitter_without_stderr =
  (Raise (Exn AttributeError "'ResonatorFitter' object has no attribute 'Q_i'"),
   Demo.fitter_without_stderr).
Proof.
  refine (eq_trans
            (derived_quantities_without_parameters (O := Demo.optimizer) "ResonatorFitter"
               Demo.frequency Demo.data None Demo.model Demo.result_without_stderr []
               _ "Q_i" Q_i _) _).
  - intros n Hn. unfold derived_quantities, properties in Hn.
    cbn [drop map fst app] in Hn.
    repeat (apply elem_of_cons in Hn as [->|Hn]; [reflexivity|]).
    by apply elem_of_nil in Hn.
  - unfold derived_quantities, properties. cbn [drop].
    repeat first [apply list_elem_of_here | apply list_elem_of_further].
  - reflexivity.
Defined.

Lemma derived_errors_without_stderr_witness :
  run f_r_error Demo.fitter_without_errors = (Ok PyNone, Demo.fitter_without_errors)
  /\ exists msg,
       run Q_c_error Demo.fitter_without_errors =
       (Raise (Exn TypeError msg), Demo.fitter_without_errors).
Proof.
  destruct (derived_errors_without_stderr (O := Demo.optimizer) "ResonatorFitter"
              Demo.frequency Demo.data None Demo.model Demo.result_without_errors []
              (Demo.param 1%float) (Demo.param 0.5%float) (Demo.param 0.25%float)
              eq_refl eq_refl eq_refl eq_refl eq_refl eq_refl) as [Hnone Herr].
  split; [exact Hnone|].
  apply (Herr "Q_c_error" Q_c_error); [| reflexivity | discriminate].
  unfold derived_quantities, properties. cbn [drop].
  repeat first [apply list_elem_of_here | apply list_elem_of_further].
Defined.

Lemma snapshot_holds_model_values_witness :
  exists mf md rd s1 s2,
    Demo.linspace (@FArr ieee (Scalar 1%float)) (@FArr ieee (Scalar 2%float)) 3 = Ok mf
    /\ run (model_values (Some mf) None) Demo.fitter = (Ok md, s1)
    /\ run (model_values (Some (@FArr ieee (Scalar 1%float))) None) s1 = (Ok rd, s2)
    /\ run (@measurement_model_resonance ieee Demo.optimizer Demo.numpy false (Some 3%Z))
         Demo.fitter =
       (Ok {| measurement_frequency := PyArray Demo.frequency;
              measurement_data := PyArray Demo.data;
              model_frequency := PyArray mf;
              model_data := PyArray md;
              resonance_frequency := @of_float ieee 1%float;
              resonance_data := PyArray rd |},
        s2).
Proof.
  eexists _, _, _, _, _.
  split; [reflexivity|]. split; [reflexivity|]. split; [reflexivity|].
  eapply (snapshot_holds_model_values (N := Demo.numpy) Demo.fitter _ _ Demo.frequency
            Demo.data _ _ _ Demo.model Demo.result (Demo.measured 1%float 0.001%float)
            (Some 3%Z));
    try reflexivity.
  eexists _, _. split; [reflexivity|]. split; reflexivity.
Defined.

Lemma normalized_snapshot_removes_background_witness :
  exists md rd s1 s2 d' md' rd' s3 s4 s5,
    run (model_values (Some Demo.frequency) None) Demo.fitter = (Ok md, s1)
    /\ run (model_values (Some (@FArr ieee (Scalar 1%float))) None) s1 = (Ok rd, s2)
    /\ run (remove_background Demo.frequency Demo.data) s2 = (Ok d', s3)
    /\ run (remove_background Demo.frequency md) s3 = (Ok md', s4)
    /\ run (remove_background (@FArr ieee (Scalar 1%float)) rd) s4 = (Ok rd', s5)
    /\ run (@measurement_model_resonance ieee Demo.optimizer Demo.numpy true None)
         Demo.fitter =
       (Ok {| measurement_frequency := PyArray Demo.frequency;
              measurement_data := PyArray d';
              model_frequency := PyArray Demo.frequency;
              model_data := PyArray md';
              resonance_frequency := @of_float ieee 1%float;
              resonance_data := PyArray rd' |},
        s5).
Proof.
  eexists _, _, _, _, _, _, _, _, _, _.
  split; [reflexivity|]. split; [reflexivity|]. split; [reflexivity|].
  split; [reflexivity|]. split; [reflexivity|].
  eapply (normalized_snapshot_removes_background (N := Demo.numpy) Demo.fitter _ _ _ _ _
            Demo.frequency Demo.data Demo.frequency _ _ _ _ _ Demo.model Demo.result
            (Demo.measured 1%float 0.001%float) None);
    reflexivity.
Defined.

Lemma dir_lists_parameters_and_errors_witness :
  exists names,
    run __dir__ Demo.fitter = (Ok names, Demo.fitter)
    /\ Sorted string_le names
    /\ NoDup names
    /\ "gain_error" ∈ names
    /\ "model_values" ∈ names.
Proof.
  destruct (dir_lists_parameters_and_errors Demo.fitter Demo.result eq_refl)
    as (names & Hrun & Hsorted & Hnodup & Hmem).
  exists names. split; [exact Hrun|]. split; [exact Hsorted|]. split; [exact Hnodup|].
  split; apply Hmem.
  - right; right; right. exists "gain". split; [|reflexivity]. eexists. reflexivity.
  - left. unfold class_dir, properties, methods. cbn [map fst app].
    repeat first [apply list_elem_of_here | apply list_elem_of_further].
Defined.

Lemma remove_background_and_invert_divides_first_witness :
  run (remove_background_and_invert Demo.data Demo.frequency) Demo.fitter =
  (Raise (Exn NotImplementedError
            "Subclasses should implement this using their scattering parameter model."),
   logged Demo.fitter [BackgroundEval (params Demo.result) Demo.frequency]).
Proof.
  refine (eq_trans
            (remove_background_and_invert_divides_first Demo.fitter Demo.model Demo.result
               Demo.data Demo.frequency eq_refl eq_refl eq_refl eq_refl) _).
  reflexivity.
Defined.

Lemma energy_decay_rates_add_up_witness :
  exists k kc ki : R,
    run total_energy_decay_rate DemoExact.loaded_fitter =
      (Ok (@of_float exact k), DemoExact.loaded_fitter)
    /\ run coupling_energy_decay_rate DemoExact.loaded_fitter =
       (Ok (@of_float exact kc), DemoExact.loaded_fitter)
    /\ run internal_energy_decay_rate DemoExact.loaded_fitter =
       (Ok (@of_float exact ki), DemoExact.loaded_fitter)
    /\ k = (kc + ki)%R.
Proof.
  exact (energy_decay_rates_add_up (O := DemoExact.optimizer) "ResonatorFitter"
           DemoExact.frequency DemoExact.data None DemoExact.model DemoExact.loaded_result
           [] (DemoExact.param 3) (DemoExact.param 2) (DemoExact.param 1)
           eq_refl eq_refl eq_refl).
Defined.

Lemma quality_factors_combine_witness :
  exists qt qc qi lt : R,
    run total_quality_factor DemoExact.loaded_fitter =
      (Ok (@of_float exact qt), DemoExact.loaded_fitter)
    /\ run coupling_quality_factor DemoExact.loaded_fitter =
       (Ok (@of_float exact qc), DemoExact.loaded_fitter)
    /\ run internal_quality_factor DemoExact.loaded_fitter =
       (Ok (@of_float exact qi), DemoExact.loaded_fitter)
    /\ run total_loss DemoExact.loaded_fitter =
       (Ok (@of_float exact lt), DemoExact.loaded_fitter)
    /\ (qt * lt)%R = 1%R
    /\ (/ qt)%R = (/ qi + / qc)%R.
Proof.
  apply (quality_factors_combine (O := DemoExact.optimizer) "ResonatorFitter"
           DemoExact.frequency DemoExact.data None DemoExact.model DemoExact.loaded_result
           [] (DemoExact.param 2) (DemoExact.param 1) eq_refl eq_refl);
    cbn [value DemoExact.param]; lra.
Defined.
